(** * NCBIBlastSearchApp: the BLAST job pipeline and its read endpoints

    A shallow embedding of [services.py], [database.py] and the job runner and
    read endpoints of [app.py], followed by the properties of the pipeline.

    Conventions of the embedding.
    - A Python [str] is a [string]; every character is one code point.
    - A Python call that can raise returns an [outcome]: [Return v] or
      [Raise e].  Every exception of the modelled code derives from
      [Exception]; [exn_str] is what [str(e)] gives.
    - The outside world (wall clock, HTTP, the file system, the availability
      of the SQLite file) is a state of an arbitrary type [W] together with a
      [Platform W] of operations on it.  The contents of the database are
      modelled explicitly ([Database.store]).
    - [print] only writes to the console and is left out.
    - [while True] takes a number of iterations it may use; [None] says the
      loop is still running after that many. *)

From Stdlib Require Import ZArith QArith Qround Qpower Lia Lqa.
From Stdlib Require Import Ascii String.
From stdpp Require Import base option list strings gmap.

Local Open Scope Z_scope.

(** * Python *)
Module Py.

(** Exception classes raised in the modelled code.  [RequestException]
    derives from [OSError] (it is an [IOError]) and [HTTPError] from
    [RequestException]; all derive from [Exception]. *)
Inductive exn_class :=
  | Exception | TypeError | ZeroDivisionError | ParseError
  | OSError | RequestException | HTTPError.

Record exn := mk_exn { exn_cls : exn_class; exn_str : string }.

Definition isinstance_OSError (e : exn) : bool :=
  match exn_cls e with
  | OSError | RequestException | HTTPError => true
  | _ => false
  end.

Inductive outcome (A : Type) :=
  | Return (a : A)
  | Raise (e : exn).
Arguments Return {A} a.
Arguments Raise {A} e.

(** ** Strings *)

(** [s.startswith(p)] *)
Fixpoint startswith (p s : string) : bool :=
  match p, s with
  | EmptyString, _ => true
  | String a p', String b s' => if Ascii.eqb a b then startswith p' s' else false
  | String _ _, EmptyString => false
  end.

(** [needle in hay] *)
Fixpoint contains (needle hay : string) : bool :=
  startswith needle hay ||
  match hay with
  | EmptyString => false
  | String _ hay' => contains needle hay'
  end.

(** [sep.join(l)] *)
Fixpoint join (sep : string) (l : list string) : string :=
  match l with
  | [] => ""
  | [x] => x
  | x :: l' => x +:+ sep +:+ join sep l'
  end.

(** White space as [str.isspace] and [\s] see it on the code points below 256. *)
Definition isspace (c : ascii) : bool :=
  let n := N_of_ascii c in
  ((9 <=? n) && (n <=? 13) || (28 <=? n) && (n <=? 32)
   || (n =? 133) || (n =? 160))%N.

Fixpoint lstrip (s : string) : string :=
  match s with
  | String c s' => if isspace c then lstrip s' else s
  | EmptyString => EmptyString
  end.

Fixpoint rstrip (s : string) : string :=
  match s with
  | EmptyString => EmptyString
  | String c s' =>
      match rstrip s' with
      | EmptyString => if isspace c then EmptyString else String c EmptyString
      | r => String c r
      end
  end.

(** [s.strip()] *)
Definition strip (s : string) : string := rstrip (lstrip s).

(** ** Regular expressions

    The three patterns of the source have one shape: a literal, one capturing
    group [(C+)] over a character class [C], a literal.  [re.search] tries
    the start positions from left to right and, at each, the greedy group
    from its longest extent down to one character. *)

(** The rest of [s] after the literal [lit], when [s] starts with it. *)
Fixpoint match_lit (lit s : string) : option string :=
  match lit, s with
  | EmptyString, _ => Some s
  | String a lit', String b s' => if Ascii.eqb a b then match_lit lit' s' else None
  | String _ _, EmptyString => None
  end.

(** [(C+)] followed by the literal [post], matched at the start of [s]:
    the captured text. *)
Fixpoint match_group (cls : ascii -> bool) (post s : string) : option string :=
  match s with
  | EmptyString => None
  | String c s' =>
      if cls c then
        match match_group cls post s' with
        | Some g => Some (String c g)
        | None => if startswith post s' then Some (String c EmptyString) else None
        end
      else None
  end.

Definition match_here (pre : string) (cls : ascii -> bool) (post s : string)
  : option string :=
  match match_lit pre s with
  | Some s' => match_group cls post s'
  | None => None
  end.

(** [m = re.search(pre (C+) post, s)], giving [m.group(1)]. *)
Fixpoint re_search (pre : string) (cls : ascii -> bool) (post s : string)
  : option string :=
  match match_here pre cls post s with
  | Some g => Some g
  | None =>
      match s with
      | EmptyString => None
      | String _ s' => re_search pre cls post s'
      end
  end.

(** The class [[^x]]. *)
Definition not_char (x : ascii) (c : ascii) : bool := negb (Ascii.eqb c x).

(** The class [\S]. *)
Definition nonspace (c : ascii) : bool := negb (isspace c).

(** ** Floats

    A [float] is the rational it denotes.  [b64] rounds a rational to the
    nearest binary64 value, ties to even; exponent range is not modelled (no
    overflow to infinity, no subnormals), which concerns magnitudes outside
    [2^-1022, 2^1024). *)

(** [floor (log2 x)] for [0 < x]. *)
Definition ilog2 (x : Q) : Z :=
  let k := Z.log2 (Qnum x) - Z.log2 (Zpos (Qden x)) in
  if Qle_bool (2 ^ k) x then k else k - 1.

(** Nearest integer, ties to even. *)
Definition rint (x : Q) : Z :=
  let f := Qfloor x in
  match (x - inject_Z f ?= 1 # 2)%Q with
  | Lt => f
  | Gt => f + 1
  | Eq => if Z.even f then f else f + 1
  end.

(** A 53-bit significand times a power of two. *)
Definition b64_pos (x : Q) : Q :=
  let e := ilog2 x - 52 in (inject_Z (rint (x / 2 ^ e)) * 2 ^ e)%Q.

Definition b64 (x : Q) : Q :=
  match (x ?= 0)%Q with
  | Eq => 0%Q
  | Gt => b64_pos x
  | Lt => (- b64_pos (- x))%Q
  end.

(** [a / b] on two [int]s: the correctly rounded quotient. *)
Definition truediv (a b : Z) : outcome Q :=
  if b =? 0 then Raise (mk_exn ZeroDivisionError "division by zero")
  else Return (b64 (inject_Z a / inject_Z b)).

(** [x * y], [x - y] on floats. *)
Definition float_mul (x y : Q) : Q := b64 (x * y).
Definition float_sub (x y : Q) : Q := b64 (x - y).

(** [int(x)]: truncation towards zero. *)
Definition int_of_float (x : Q) : Z :=
  if Qle_bool 0 x then Qfloor x else Qceiling x.

(** [x > m] for a float [x] and an [int] [m]: compared by value. *)
Definition float_gt_int (x : Q) (m : Z) : bool := negb (Qle_bool x (inject_Z m)).

(** [m > 0] where [m] is [None] or an [int]. *)
Definition gt_zero (m : option Z) : outcome bool :=
  match m with
  | None =>
      Raise (mk_exn TypeError
               "'>' not supported between instances of 'NoneType' and 'int'")
  | Some n => Return (0 <? n)
  end.

(** [x > m] for a float [x], where [m] is [None] or an [int]. *)
Definition float_gt (x : Q) (m : option Z) : outcome bool :=
  match m with
  | None =>
      Raise (mk_exn TypeError
               "'>' not supported between instances of 'float' and 'NoneType'")
  | Some n => Return (float_gt_int x n)
  end.

(** [a and b] on two comparisons: [b] is evaluated only when [a] is true. *)
Definition and_then (a : outcome bool) (b : outcome bool) : outcome bool :=
  match a with
  | Raise e => Raise e
  | Return false => Return false
  | Return true => b
  end.

(** ** Effects: a state and exception monad over the outside world *)

Definition M (W A : Type) : Type := W -> option (outcome A * W).

Definition ret {W A} (a : A) : M W A := fun w => Some (Return a, w).

Definition raise {W A} (e : exn) : M W A := fun w => Some (Raise e, w).

Definition bind {W A B} (m : M W A) (k : A -> M W B) : M W B :=
  fun w =>
    match m w with
    | None => None
    | Some (Raise e, w') => Some (Raise e, w')
    | Some (Return a, w') => k a w'
    end.

(** [try: m  except Exception as e: h e] *)
Definition try_except {W A} (m : M W A) (h : exn -> M W A) : M W A :=
  fun w =>
    match m w with
    | None => None
    | Some (Raise e, w') => h e w'
    | Some (Return a, w') => Some (Return a, w')
    end.

(** A call into the outside world, and a computation that leaves it alone. *)
Definition call {W A} (f : W -> outcome A * W) : M W A := fun w => Some (f w).
Definition pure {W A} (o : outcome A) : M W A := fun w => Some (o, w).

End Py.

Import Py.

Declare Scope py_scope.
Delimit Scope py_scope with py.
Notation "'let!' x ':=' m 'in' k" := (bind m (fun x => k))
  (at level 10, x name, m at level 100, k at level 200) : py_scope.
Notation "'let!' ' p ':=' m 'in' k" := (bind m (fun x => match x with p => k end))
  (at level 10, p pattern, m at level 100, k at level 200) : py_scope.

(** * xml.etree.ElementTree *)
Module ET.

(** An element: its tag, its text (the character data before the first
    child, [None] when there is none) and its children in document order. *)
#[warnings="-register-all"]
Inductive element :=
  | Element (tag : string) (text : option string) (children : list element).

Definition tag (e : element) : string := let 'Element t _ _ := e in t.
Definition text (e : element) : option string := let 'Element _ x _ := e in x.
Definition children (e : element) : list element := let 'Element _ _ c := e in c.

(** [e.iter()] without [e] itself: the elements below [e] in document order. *)
Fixpoint descendants (e : element) : list element :=
  match e with
  | Element _ _ cs => flat_map (fun c => c :: descendants c) cs
  end.

Definition has_tag (t : string) (e : element) : bool := String.eqb (tag e) t.

(** [e.find(".//t")] *)
Definition find_descendant (t : string) (e : element) : option element :=
  List.find (has_tag t) (descendants e).

(** [e.find("t")] *)
Definition find_child (t : string) (e : element) : option element :=
  List.find (has_tag t) (children e).

(** [e.findtext("t", default=d)]: the text of the first child with tag [t],
    the empty string when that child has no text, [d] when there is no such
    child. *)
Definition findtext (t : string) (d : string) (e : element) : string :=
  match find_child t e with
  | Some c => match text c with Some x => x | None => "" end
  | None => d
  end.

End ET.

(** * The outside world *)

(** What the code reads of a [requests.Response]: the status code, the body,
    and what calling [raise_for_status()] on it does. *)
Record response := mk_response {
  status_code : Z;
  text : string;
  raise_for_status : outcome unit;
}.

(** The operations of the standard library, [requests] and SQLite that reach
    outside the process, on a world of type [W].
    - [time_time w] is the reading of [time.time()] in [w];
    - [requests_get url params timeout], [requests_post url data timeout];
    - [ET_fromstring] is [ET.fromstring], which raises on a document that is
      not well formed;
    - [write_file path content] is [with open(path, "w") as f: f.write(content)];
    - [db_transaction] is the SQLite side of one block
      [get_conn() ... execute ... commit() ... close()]: [Return] when the
      block runs to its end and what it writes is committed, [Raise] when
      [sqlite3] raises before that, in which case nothing is written. *)
Record Platform (W : Type) := {
  time_time : W -> Q;
  time_sleep : Q -> W -> W;
  requests_get : string -> list (string * string) -> Z -> W -> outcome response * W;
  requests_post : string -> list (string * string) -> Z -> W -> outcome response * W;
  ET_fromstring : string -> outcome ET.element;
  write_file : string -> string -> W -> outcome unit * W;
  db_transaction : W -> outcome unit * W;
}.
Arguments time_time {W} _ _.
Arguments time_sleep {W} _ _ _.
Arguments requests_get {W} _ _ _ _ _.
Arguments requests_post {W} _ _ _ _ _.
Arguments ET_fromstring {W} _ _.
Arguments write_file {W} _ _ _ _.
Arguments db_transaction {W} _ _.

(** * services.py *)
Module Services.
Section Services.
Context {W : Type} (P : Platform W).
Local Open Scope py_scope.

Definition EMAIL : string := "johangoat@gmail.com".
Definition PROGRAM : string := "blastp".
Definition DATABASE : string := "nr".

Definition BLAST_URL : string := "https://blast.ncbi.nlm.nih.gov/Blast.cgi".

Definition fetch_fasta (accession : string) : M W string :=
  let url :=
    "https://www.ncbi.nlm.nih.gov/sviewer/viewer.fcgi"
    +:+ "?id=" +:+ accession +:+ "&db=protein&report=fasta&retmode=text" in
  let! r := call (requests_get P url [] 10) in
  if negb (status_code r =? 200) || negb (startswith ">" (text r))
  then raise (mk_exn Exception ("Failed to fetch FASTA for " +:+ accession))
  else ret (strip (text r)).

Definition submit_blast (fasta taxid : string) : M W string :=
  let data :=
    [("CMD", "Put"); ("PROGRAM", PROGRAM); ("DATABASE", DATABASE);
     ("QUERY", fasta); ("ENTREZ_QUERY", "txid" +:+ taxid +:+ "[Organism]");
     ("EMAIL", EMAIL)] in
  let! r := call (requests_post P BLAST_URL data 10) in
  let! _ := pure (raise_for_status r) in
  match re_search "RID = " nonspace "" (text r) with
  | None => raise (mk_exn Exception "Failed to obtain RID from BLAST response")
  | Some rid => ret rid
  end.

(** The query of a status check. *)
Definition status_params (rid : string) : list (string * string) :=
  [("CMD", "Get"); ("RID", rid); ("FORMAT_OBJECT", "SearchInfo")].

(** The [while True] loop of [wait_for_blast], with [fuel] iterations to use.
    [attempts] only feeds the progress messages. *)
Fixpoint wait_loop (fuel : nat) (rid : string) (max_wait_time : option Z)
    (start_time : Q) (attempts : Z) (w : W) : option (outcome string * W) :=
  match fuel with
  | O => None
  | S fuel' =>
      let elapsed := float_sub (time_time P w) start_time in
      match and_then (gt_zero max_wait_time) (float_gt elapsed max_wait_time) with
      | Raise e => Some (Raise e, w)
      | Return true => Some (Return "TIMEOUT", w)
      | Return false =>
          let w1 := time_sleep P 8 w in
          let attempts := attempts + 1 in
          match requests_get P BLAST_URL (status_params rid) 30 w1 with
          | (Raise _, w2) => wait_loop fuel' rid max_wait_time start_time attempts w2
          | (Return r, w2) =>
              if contains "Status=READY" (text r) then
                if contains "ThereAreHits=yes" (text r)
                then Some (Return "READY", w2)
                else Some (Return "NO_HITS", w2)
              else if contains "Status=FAILED" (text r) then
                Some (Return "FAILED", w2)
              else wait_loop fuel' rid max_wait_time start_time attempts w2
          end
      end
  end.

Definition wait_for_blast (fuel : nat) (rid : string) (max_wait_time : option Z)
  : M W string :=
  fun w => wait_loop fuel rid max_wait_time (time_time P w) 0 w.

Definition fetch_result (rid : string) : M W string :=
  let params := [("CMD", "Get"); ("RID", rid); ("FORMAT_TYPE", "XML")] in
  let! r := call (requests_get P BLAST_URL params 10) in
  let! _ := pure (raise_for_status r) in
  ret (text r).

(** The body of [parse_top_hit] once the document is parsed. *)
Definition parse_root (root : ET.element) : string * string * string * string :=
  match ET.find_descendant "Hit" root with
  | None => ("NA", "NA", "NA", "NA")
  | Some hit =>
      let accession := ET.findtext "Hit_accession" "NA" hit in
      let hit_def := ET.findtext "Hit_def" "" hit in
      let species_match := re_search "[" (not_char "]") "]" hit_def in
      let species := match species_match with Some g => g | None => "NA" end in
      let '(bit_score, evalue) :=
        match ET.find_descendant "Hsp" hit with
        | Some hsp =>
            (ET.findtext "Hsp_bit-score" "NA" hsp, ET.findtext "Hsp_evalue" "NA" hsp)
        | None => ("NA", "NA")
        end in
      (accession, species, bit_score, evalue)
  end.

Definition parse_top_hit (xml_text : string)
  : outcome (string * string * string * string) :=
  match ET_fromstring P xml_text with
  | Raise e => Raise e
  | Return root => Return (parse_root root)
  end.

Definition dquote : ascii := Ascii.ascii_of_N 34.

Definition fetch_gene_symbol (accession : string) : M W string :=
  let url := "https://eutils.ncbi.nlm.nih.gov/entrez/eutils/efetch.fcgi" in
  let params :=
    [("db", "protein"); ("id", accession); ("rettype", "gb");
     ("retmode", "text"); ("email", EMAIL)] in
  let! found :=
    try_except
      (let! r := call (requests_get P url params 10) in
       let! _ := pure (raise_for_status r) in
       ret (re_search ("/gene=" +:+ String dquote "") (not_char dquote)
              (String dquote "") (text r)))
      (fun _ => ret None) in
  match found with
  | Some g => ret g
  | None => ret "NA"
  end.

End Services.
End Services.

(** * database.py: the [jobs] and [results] tables *)
Module Database.

(** A row of [jobs], keyed by its [id].  [created_at] is read only by the
    dashboard and is left out, as is the [users] table. *)
Record job := mk_job {
  user_id : Z;
  organism : string;
  progress : Z;
  status : string;
}.

(** A row of [results].  The text columns may hold [NULL]. *)
Record result := mk_result {
  id : Z;
  job_id : string;
  accession : option string;
  top_hit : option string;
  gene : option string;
  species : option string;
  bit_score : option string;
  evalue : option string;
}.

(** [results] in row order; [results_seq] is the last [AUTOINCREMENT] id. *)
Record store := mk_store {
  jobs : gmap string job;
  results : list result;
  results_seq : Z;
}.

(** [INSERT INTO jobs (id, user_id, organism) VALUES (?, ?, ?)]:
    [progress] defaults to 0 and [status] to ['RUNNING']. *)
Definition insert_job (jid : string) (user : Z) (org : string) (st : store)
  : outcome store :=
  match jobs st !! jid with
  | Some _ => Raise (mk_exn Exception "UNIQUE constraint failed: jobs.id")
  | None =>
      Return (mk_store (<[jid := mk_job user org 0 "RUNNING"]> (jobs st))
                (results st) (results_seq st))
  end.

(** [UPDATE jobs SET status=?, progress=? WHERE id=?] *)
Definition update_status_progress (jid : string) (s : string) (p : Z) (st : store)
  : store :=
  mk_store (alter (fun j => mk_job (user_id j) (organism j) p s) jid (jobs st))
    (results st) (results_seq st).

(** [UPDATE jobs SET progress=? WHERE id=?] *)
Definition update_progress (jid : string) (p : Z) (st : store) : store :=
  mk_store (alter (fun j => mk_job (user_id j) (organism j) p (status j)) jid (jobs st))
    (results st) (results_seq st).

(** [INSERT INTO results (job_id, accession, top_hit, gene, species,
    bit_score, evalue) VALUES (?, ?, ?, ?, ?, ?, ?)] *)
Definition insert_result (jid acc th g sp bs ev : string) (st : store) : store :=
  let n := results_seq st + 1 in
  mk_store (jobs st)
    (results st ++ [mk_result n jid (Some acc) (Some th) (Some g) (Some sp)
                      (Some bs) (Some ev)])
    n.

(** [SELECT progress, status FROM jobs WHERE id=?], [fetchone()] *)
Definition select_job (jid : string) (st : store) : option (Z * string) :=
  match jobs st !! jid with
  | Some j => Some (progress j, status j)
  | None => None
  end.

(** [SELECT * FROM results WHERE job_id=?], [fetchall()] *)
Definition select_results (jid : string) (st : store) : list result :=
  List.filter (fun r => String.eqb (job_id r) jid) (results st).

(** [DELETE FROM results WHERE job_id=?] then [DELETE FROM jobs WHERE id=?] *)
Definition delete_job_rows (jid : string) (st : store) : store :=
  mk_store (delete jid (jobs st))
    (List.filter (fun r => negb (String.eqb (job_id r) jid)) (results st))
    (results_seq st).

(** [r[h]] on a row of [results], for the column names the export reads. *)
Definition column (r : result) (h : string) : option string :=
  if String.eqb h "accession" then accession r
  else if String.eqb h "top_hit" then top_hit r
  else if String.eqb h "gene" then gene r
  else if String.eqb h "species" then species r
  else if String.eqb h "bit_score" then bit_score r
  else if String.eqb h "evalue" then evalue r
  else None.

End Database.

(** * app.py: the job runner and the read endpoints *)
Module App.
Import Database.

(** The five computed columns of a result row. *)
Record fields := mk_fields {
  f_top_hit : string;
  f_gene : string;
  f_species : string;
  f_bit_score : string;
  f_evalue : string;
}.

(** The Flask session: [user_id] and [is_admin], [None] when the key is not
    set (nobody is logged in). *)
Record session := mk_session {
  session_user_id : option Z;
  session_is_admin : option Z;
}.

Inductive json :=
  | JInt (n : Z)
  | JStr (s : string).

(** What a view returns: [jsonify] of an object, [render_template] of the
    results page with the arguments it is given, a plain text, a streamed
    body (the chunks a generator yields), or a redirect. *)
Inductive body :=
  | Json (o : list (string * json))
  | ResultsPage (results : list result) (job_id : string)
  | Text (s : string)
  | Stream (chunks : list string)
  | Redirect (endpoint : string).

Record http_response := mk_http_response {
  code : Z;
  headers : list (string * string);
  content : body;
}.

Section App.
Context {W : Type} (P : Platform W).
Local Open Scope py_scope.

Definition sleep (d : Q) : M W unit := fun w => Some (Return tt, time_sleep P d w).

(** One [get_conn() ... commit() ... close()] block running the statements
    [stmts]: they are written when the block commits and dropped when an
    exception leaves the block before that. *)
Definition transaction (stmts : store -> outcome store) (s : W * store)
  : outcome unit * (W * store) :=
  let '(w, st) := s in
  match db_transaction P w with
  | (Raise e, w') => (Raise e, (w', st))
  | (Return _, w') =>
      match stmts st with
      | Raise e => (Raise e, (w', st))
      | Return st' => (Return tt, (w', st'))
      end
  end.

(** ** [run]: the row the dispatcher creates before it starts the runner *)
Definition create_job (job_id : string) (user : Z) (org : string) (s : W * store)
  : outcome unit * (W * store) :=
  transaction (insert_job job_id user org) s.

(** ** [run_blast_job] *)

(** First block: [UPDATE jobs SET status='RUNNING', progress=0]. *)
Definition mark_running (job_id : string) (s : W * store)
  : outcome unit * (W * store) :=
  transaction (fun st => Return (update_status_progress job_id "RUNNING" 0 st)) s.

(** [try: with open(xml_path, "w") as f: f.write(xml)  except OSError: pass] *)
Definition save_xml (job_id acc xml : string) : M W unit :=
  fun w =>
    let xml_path := "blast_results_ncbi/" +:+ job_id +:+ "_" +:+ acc +:+ ".xml" in
    match write_file P xml_path xml w with
    | (Raise e, w') =>
        if isinstance_OSError e then Some (Return tt, w') else Some (Raise e, w')
    | (Return _, w') => Some (Return tt, w')
    end.

(** The body of the first [try] of the loop. *)
Definition search (fuel : nat) (job_id acc taxid : string) (timeout : Z)
  : M W fields :=
  let! _ := sleep 3 in
  let! fasta := Services.fetch_fasta P acc in
  let! rid := Services.submit_blast P fasta taxid in
  let wait_timeout := if timeout =? 0 then None else Some timeout in
  let! status := Services.wait_for_blast P fuel rid wait_timeout in
  if String.eqb status "READY" then
    let! xml := Services.fetch_result P rid in
    let! '(top_hit, species, bit_score, evalue) := pure (Services.parse_top_hit P xml) in
    let! gene := Services.fetch_gene_symbol P top_hit in
    let! _ := save_xml job_id acc xml in
    ret (mk_fields top_hit gene species bit_score evalue)
  else if String.eqb status "NO_HITS" then
    ret (mk_fields "No hit" "No hit" "No hit" "No hit" "No hit")
  else if String.eqb status "TIMEOUT" then
    ret (mk_fields "TIMEOUT" "TIMEOUT" "BLAST search timed out" "NA" "NA")
  else
    ret (mk_fields "NA" "NA" "NA" "NA" "NA").

(** The [except Exception as e] of the first [try]. *)
Definition error_fields (e : exn) : fields :=
  mk_fields "ERROR" "ERROR" (exn_str e) "NA" "NA".

(** The first [try] statement of the loop: the fields of the row for [acc]. *)
Definition process_accession (fuel : nat) (job_id acc taxid : string) (timeout : Z)
    (w : W) : option (fields * W) :=
  match search fuel job_id acc taxid timeout w with
  | None => None
  | Some (Return f, w') => Some (f, w')
  | Some (Raise e, w') => Some (error_fields e, w')
  end.

(** [int((i + 1) / total * 100)] *)
Definition percent (i total : nat) : outcome Z :=
  match truediv (Z.of_nat i + 1) (Z.of_nat total) with
  | Raise e => Raise e
  | Return q => Return (int_of_float (float_mul q 100))
  end.

(** Its value [int(n / total * 100)] when [total] is not zero. *)
Definition pct (n total : Z) : Z :=
  int_of_float (float_mul (b64 (inject_Z n / inject_Z total)) 100).

(** The statements of the second [try] of the loop. *)
Definition save_stmts (job_id acc : string) (f : fields) (i total : nat) (st : store)
  : outcome store :=
  let st1 :=
    insert_result job_id acc (f_top_hit f) (f_gene f) (f_species f)
      (f_bit_score f) (f_evalue f) st in
  match percent i total with
  | Raise e => Raise e
  | Return progress => Return (update_progress job_id progress st1)
  end.

(** The second [try] statement: an exception is printed and dropped. *)
Definition save_result (job_id acc : string) (f : fields) (i total : nat)
    (s : W * store) : W * store :=
  snd (transaction (save_stmts job_id acc f i total) s).

(** The last [try] statement: [UPDATE jobs SET status='DONE', progress=100]. *)
Definition mark_done (job_id : string) (s : W * store) : W * store :=
  snd (transaction (fun st => Return (update_status_progress job_id "DONE" 100 st)) s).

(** One turn of [for i, acc in enumerate(accessions)]. *)
Definition iteration (fuel : nat) (job_id taxid : string) (timeout : Z) (total : nat)
    (i : nat) (acc : string) (s : W * store) : option (W * store) :=
  match process_accession fuel job_id acc taxid timeout (fst s) with
  | None => None
  | Some (f, w') => Some (save_result job_id acc f i total (w', snd s))
  end.

Fixpoint for_accessions (fuel : nat) (job_id taxid : string) (timeout : Z)
    (total : nat) (i : nat) (accessions : list string) (s : W * store)
  : option (W * store) :=
  match accessions with
  | [] => Some s
  | acc :: rest =>
      match iteration fuel job_id taxid timeout total i acc s with
      | None => None
      | Some s' => for_accessions fuel job_id taxid timeout total (S i) rest s'
      end
  end.

(** [run_blast_job(job_id, accessions, taxid, timeout)]; [fuel] bounds the
    iterations of each poll loop. *)
Definition run_blast_job (fuel : nat) (job_id : string) (accessions : list string)
    (taxid : string) (timeout : Z) (s : W * store) : option (W * store) :=
  let total := length accessions in
  match mark_running job_id s with
  | (Raise _, s1) => Some s1
  | (Return _, s1) =>
      match for_accessions fuel job_id taxid timeout total 0 accessions s1 with
      | None => None
      | Some s2 => Some (mark_done job_id s2)
      end
  end.

(** ** The runner step by step

    The states a reader of the database can see while [run_blast_job] runs:
    one step is one of its three kinds of [try] statements with a database
    block, so that between two steps the tables are as some commit left them. *)
Inductive point :=
  | AtStart
  | InLoop (i : nat) (rest : list string)
  | Returned.

Record runner := mk_runner {
  at_point : point;
  world : W;
  db : store;
}.

Definition runner_of (p : point) (s : W * store) : runner :=
  mk_runner p (fst s) (snd s).

Definition step (fuel : nat) (job_id : string) (accessions : list string)
    (taxid : string) (timeout : Z) (r : runner) : option runner :=
  let total := length accessions in
  let s := (world r, db r) in
  match at_point r with
  | AtStart =>
      match mark_running job_id s with
      | (Raise _, s1) => Some (runner_of Returned s1)
      | (Return _, s1) => Some (runner_of (InLoop 0 accessions) s1)
      end
  | InLoop i (acc :: rest) =>
      match iteration fuel job_id taxid timeout total i acc s with
      | None => None
      | Some s' => Some (runner_of (InLoop (S i) rest) s')
      end
  | InLoop i [] => Some (runner_of Returned (mark_done job_id s))
  | Returned => None
  end.

(** [n] steps in a row. *)
Fixpoint run_steps (fuel : nat) (job_id : string) (accessions : list string)
    (taxid : string) (timeout : Z) (n : nat) (r : runner) : option runner :=
  match n with
  | O => Some r
  | S n' =>
      match step fuel job_id accessions taxid timeout r with
      | Some r' => run_steps fuel job_id accessions taxid timeout n' r'
      | None => None
      end
  end.

(** ** Read endpoints

    Each view is given the session of the request it serves.  A view that
    raises makes Flask answer 500. *)

(** [/status/<job_id>] *)
Definition status (_ : session) (job_id : string) (s : W * store)
  : outcome http_response * W :=
  let '(w, st) := s in
  match db_transaction P w with
  | (Raise e, w') => (Raise e, w')
  | (Return _, w') =>
      match select_job job_id st with
      | None =>
          (Return (mk_http_response 404 [] (Json [("error", JStr "Invalid job ID")])), w')
      | Some (progress, status) =>
          (Return (mk_http_response 200 []
                     (Json [("progress", JInt progress); ("status", JStr status)])), w')
      end
  end.

(** [/results/<job_id>] *)
Definition results (_ : session) (job_id : string) (s : W * store)
  : outcome http_response * W :=
  let '(w, st) := s in
  match db_transaction P w with
  | (Raise e, w') => (Raise e, w')
  | (Return _, w') =>
      (Return (mk_http_response 200 [] (ResultsPage (select_results job_id st) job_id)), w')
  end.

Definition csv_headers : list string :=
  ["accession"; "top_hit"; "gene"; "species"; "bit_score"; "evalue"].

(** [[str(r[h]) if r[h] is not None else "NA" for h in headers]] *)
Definition csv_values (r : result) : list string :=
  List.map (fun h => match column r h with Some v => v | None => "NA" end) csv_headers.

Definition newline : string := String (Ascii.ascii_of_N 10) "".

(** What [generate()] yields. *)
Definition generate (rows : list result) : list string :=
  (join "," csv_headers +:+ newline)
  :: List.map (fun r => join "," (csv_values r) +:+ newline) rows.

(** [/download_csv/<job_id>] *)
Definition download_csv (_ : session) (job_id : string) (s : W * store)
  : outcome http_response * W :=
  let '(w, st) := s in
  match db_transaction P w with
  | (Raise e, w') => (Raise e, w')
  | (Return _, w') =>
      let rows := select_results job_id st in
      (Return (mk_http_response 200
                 [("Content-Disposition",
                   "attachment; filename=blast_results_" +:+ job_id +:+ ".csv");
                  ("Content-Type", "text/csv")]
                 (Stream (generate rows))), w')
  end.

(** ** [/delete_job/<job_id>], the one job endpoint that looks at the session *)

Definition delete_job (sess : session) (job_id : string) (s : W * store)
  : outcome http_response * (W * store) :=
  let is_admin := default 0 (session_is_admin sess) in
  if is_admin =? 0 then
    (Return (mk_http_response 403 [] (Text "Unauthorized")), s)
  else
    match transaction (fun st => Return (delete_job_rows job_id st)) s with
    | (Raise e, s') => (Raise e, s')
    | (Return _, s') => (Return (mk_http_response 302 [] (Redirect "dashboard")), s')
    end.

(** ** The life of a job

    A job starts as the row [run] inserts, with the runner about to begin;
    [reach r r'] says the runner gets from [r] to [r'] in zero or more steps. *)
Definition spawned (job_id : string) (r : runner) : Prop :=
  at_point r = AtStart /\
  exists user org, jobs (db r) !! job_id = Some (mk_job user org 0 "RUNNING").

Inductive reach (job_id : string) (accessions : list string) (taxid : string)
    (timeout : Z) : runner -> runner -> Prop :=
  | reach_refl r : reach job_id accessions taxid timeout r r
  | reach_step fuel r1 r2 r3 :
      reach job_id accessions taxid timeout r1 r2 ->
      step fuel job_id accessions taxid timeout r2 = Some r3 ->
      reach job_id accessions taxid timeout r1 r3.

(** The largest progress the job row can show when the loop is about to
    handle accession [i]: 0 before the first accession, then the percentage
    written after accession [i - 1]. *)
Definition progress_bound (total i : nat) : Z :=
  match i with
  | O => 0
  | S _ => pct (Z.of_nat i) (Z.of_nat total)
  end.

(** The job row at each point of the run. *)
Definition on_track (job_id : string) (accessions : list string) (r : runner) : Prop :=
  exists j,
    jobs (db r) !! job_id = Some j /\
    match at_point r with
    | AtStart => progress j = 0 /\ Database.status j = "RUNNING"
    | InLoop i rest =>
        (i + length rest = length accessions)%nat /\
        Database.status j = "RUNNING" /\
        progress j <= progress_bound (length accessions) i
    | Returned =>
        Database.status j = "DONE" /\ progress j = 100 \/
        Database.status j = "RUNNING" /\ progress j <= 100
    end.

(** The result rows of the job at each point of the run, when every
    database block commits. *)
Definition rows_on_track (job_id : string) (accessions : list string) (r : runner)
  : Prop :=
  match at_point r with
  | AtStart => select_results job_id (db r) = []
  | InLoop i rest =>
      length (select_results job_id (db r)) = i /\
      (i + length rest = length accessions)%nat
  | Returned =>
      length (select_results job_id (db r)) = length accessions /\
      exists j, jobs (db r) !! job_id = Some j /\ Database.status j = "DONE"
  end.

(** ** Assumptions on the outside world used by some of the properties *)

(** The wall clock does not run backwards, and [time.sleep(d)] lasts at
    least [d]. *)
Record clock_laws : Prop := {
  sleep_lasts : forall d w, (time_time P w + d <= time_time P (time_sleep P d w))%Q;
  get_lasts : forall url params t w,
    (time_time P w <= time_time P (snd (requests_get P url params t w)))%Q;
}.

(** The status check of [rid] never shows a terminal state: whenever the
    request is answered, the answer has neither marker. *)
Definition never_terminal (rid : string) : Prop :=
  forall w r w',
    requests_get P Services.BLAST_URL (Services.status_params rid) 30 w
    = (Return r, w') ->
    contains "Status=READY" (text r) = false /\
    contains "Status=FAILED" (text r) = false.

(** Every database block commits. *)
Definition store_writes_succeed : Prop :=
  forall w, fst (db_transaction P w) = Return tt.

End App.

(** ** Reading an exported line *)

(** [line.split(sep)] for a one-character separator. *)
Fixpoint split (sep : ascii) (line : string) : list string :=
  match line with
  | EmptyString => [EmptyString]
  | String c rest =>
      if Ascii.eqb c sep then EmptyString :: split sep rest
      else
        match split sep rest with
        | [] => [String c EmptyString]
        | x :: l => String c x :: l
        end
  end.

End App.

(** * What the specification calls a bracketed substring *)
Module Bracket.

Fixpoint all_chars (p : ascii -> bool) (s : string) : bool :=
  match s with
  | EmptyString => true
  | String c s' => p c && all_chars p s'
  end.

(** [g] is bracketed in [s] at offset [n]: [s] reads [n] characters, an
    opening bracket, the non-empty text [g] free of closing brackets, and a
    closing bracket. *)
Definition bracketed_at (s : string) (n : nat) (g : string) : Prop :=
  exists a b,
    s = a +:+ "[" +:+ g +:+ "]" +:+ b /\
    String.length a = n /\
    g <> "" /\
    all_chars (not_char "]") g = true.

(** [g] is the first bracketed substring of [s]. *)
Definition first_bracketed (s g : string) : Prop :=
  exists n, bracketed_at s n g /\ forall m g', bracketed_at s m g' -> (n <= m)%nat.

(** [s] has no bracketed substring. *)
Definition no_bracketed (s : string) : Prop :=
  forall n g, ~ bracketed_at s n g.

End Bracket.

(** * A simulated outside world, to run the code on *)
Module Sim.

(** The reading of the clock and the number of status checks made so far. *)
Record world := mk_world { now : Q; checks : nat }.

Record scenario := mk_scenario {
  fasta_page : string -> outcome response;
  put_page : outcome response;
  search_info : nat -> outcome response;
  xml_page : outcome response;
  document : outcome ET.element;
  gene_page : outcome response;
  disk : outcome unit;
  database : outcome unit;
}.

Definition ok (t : string) : outcome response := Return (mk_response 200 t (Return tt)).

Definition platform (sc : scenario) : Platform world := {|
  time_time w := now w;
  time_sleep d w := mk_world (now w + d) (checks w);
  requests_get url params timeout w :=
    if String.eqb url Services.BLAST_URL then
      if existsb (fun kv => String.eqb (fst kv) "FORMAT_OBJECT") params
      then (search_info sc (checks w), mk_world (now w) (S (checks w)))
      else (xml_page sc, w)
    else if startswith "https://eutils." url then (gene_page sc, w)
    else (fasta_page sc url, w);
  requests_post url data timeout w := (put_page sc, w);
  ET_fromstring xml := document sc;
  write_file path content w := (disk sc, w);
  db_transaction w := (database sc, w);
|}.

Definition start : world := mk_world 0 0.

Definition empty_store : Database.store := Database.mk_store ∅ [] 0.

(** The sequence server answers with a record unless the identifier asked
    for contains [BAD]. *)
Definition fasta_server (url : string) : outcome response :=
  if contains "BAD" url
  then Return (mk_response 404 "" (Raise (mk_exn HTTPError "404 Client Error")))
  else ok ">sp|P01308|INS_HUMAN Insulin".

Definition waiting : outcome response := ok "Status=WAITING".

Definition hsp_xml : ET.element :=
  ET.Element "Hsp" None
    [ET.Element "Hsp_bit-score" (Some "215.3") [];
     ET.Element "Hsp_evalue" (Some "2e-70") []].

Definition hit_xml : ET.element :=
  ET.Element "Hit" None
    [ET.Element "Hit_def" (Some "some protein [Danio rerio]") [];
     ET.Element "Hit_accession" (Some "NP_571131") [];
     ET.Element "Hit_hsps" None [hsp_xml]].

Definition blast_xml : ET.element :=
  ET.Element "BlastOutput" None
    [ET.Element "BlastOutput_iterations" None
       [ET.Element "Iteration" None [ET.Element "Iteration_hits" None [hit_xml] ] ] ].

(** A search that is ready, with hits, at the second status check. *)
Definition ready : scenario := {|
  fasta_page := fasta_server;
  put_page := ok "    RID = ABC123XYZ
    RTOE = 27";
  search_info k :=
    match k with
    | 1%nat => ok "Status=READY ThereAreHits=yes"
    | _ => waiting
    end;
  xml_page := ok "<BlastOutput>...</BlastOutput>";
  document := Return blast_xml;
  gene_page := ok ("/gene=" +:+ String Services.dquote "ins" +:+ String Services.dquote "");
  disk := Return tt;
  database := Return tt;
|}.

Definition with_status (f : nat -> outcome response) (sc : scenario) : scenario :=
  mk_scenario (fasta_page sc) (put_page sc) f (xml_page sc) (document sc)
    (gene_page sc) (disk sc) (database sc).

(** The status service answers FAILED at the third check. *)
Definition failed_third : scenario :=
  with_status (fun k => match k with 2%nat => ok "Status=FAILED" | _ => waiting end) ready.

(** The search is ready without hits at the first check. *)
Definition no_hits : scenario :=
  with_status (fun _ => ok "Status=READY ThereAreHits=no") ready.

(** The search never leaves the waiting state, and every other check fails
    on the network. *)
Definition stuck : scenario :=
  with_status
    (fun k => if Nat.even k then waiting
              else Raise (mk_exn RequestException "Read timed out."))
    ready.

(** The tables once [run] has inserted the row of the job, for user 1. *)
Definition created (job_id : string) : Database.store :=
  match Database.insert_job job_id 1 "human" empty_store with
  | Return st => st
  | Raise _ => empty_store
  end.

(** The runner of that job about to start. *)
Definition spawn (job_id : string) : @App.runner world :=
  App.mk_runner App.AtStart start (created job_id).

(** Nobody logged in. *)
Definition anonymous : App.session := App.mk_session None None.

End Sim.

(** * The rest of the program

    What follows embeds the code around the runner and the read endpoints:
    the parsing [run] does on the submitted form, the [users] table of
    [database.py] with its three helpers, and the views [register], [login],
    [logout] and [run] of [app.py].  [dashboard] is left out: it orders the
    rows by [created_at], which is not modelled, and only fills a template.
    [init_db] is left out as well: the tables are taken to exist. *)

(** * Python: [str.splitlines] and [int] *)
Module Forms.

(** The line boundaries of [str.splitlines] on the code points below 256. *)
Definition is_linebreak (c : ascii) : bool :=
  let n := N_of_ascii c in
  ((10 <=? n) && (n <=? 13) || (28 <=? n) && (n <=? 30) || (n =? 133))%N.

Definition CR : ascii := Ascii.ascii_of_N 13.
Definition LF : ascii := Ascii.ascii_of_N 10.

(** The pieces of [s] between its line boundaries, the last one being what
    follows the last boundary; [CR LF] is one boundary. *)
Fixpoint segments (s : string) : list string :=
  match s with
  | EmptyString => [EmptyString]
  | String c rest =>
      if is_linebreak c then
        match rest with
        | String d rest' =>
            if Ascii.eqb c CR && Ascii.eqb d LF
            then EmptyString :: segments rest'
            else EmptyString :: segments rest
        | EmptyString => EmptyString :: segments rest
        end
      else
        match segments rest with
        | x :: l => String c x :: l
        | [] => [String c EmptyString]
        end
  end.

Fixpoint drop_last_empty (l : list string) : list string :=
  match l with
  | [] => []
  | [x] => match x with EmptyString => [] | _ => [x] end
  | x :: l' => x :: drop_last_empty l'
  end.

(** [s.splitlines()]: a boundary at the very end opens no further line. *)
Definition splitlines (s : string) : list string := drop_last_empty (segments s).

(** The truth value of a string. *)
Definition nonempty (s : string) : bool :=
  match s with
  | EmptyString => false
  | String _ _ => true
  end.

(** [[a.strip() for a in accession_input.splitlines() if a.strip()]] *)
Definition parse_accessions (accession_input : string) : list string :=
  List.map strip (List.filter (fun a => nonempty (strip a)) (splitlines accession_input)).

(** White space that [int] skips at both ends of its argument: the ASCII
    white space of C and the Unicode white space above code point 127. *)
Definition int_space (c : ascii) : bool :=
  let n := N_of_ascii c in
  ((9 <=? n) && (n <=? 13) || (n =? 32) || (n =? 133) || (n =? 160))%N.

Fixpoint lstrip_with (p : ascii -> bool) (s : string) : string :=
  match s with
  | String c s' => if p c then lstrip_with p s' else s
  | EmptyString => EmptyString
  end.

Fixpoint rstrip_with (p : ascii -> bool) (s : string) : string :=
  match s with
  | EmptyString => EmptyString
  | String c s' =>
      match rstrip_with p s' with
      | EmptyString => if p c then EmptyString else String c EmptyString
      | r => String c r
      end
  end.

Definition is_digit (c : ascii) : bool :=
  let n := N_of_ascii c in ((48 <=? n) && (n <=? 57))%N.

Definition digit_value (c : ascii) : Z := Z.of_N (N_of_ascii c) - 48.

(** Decimal digits, with single underscores allowed between two digits. *)
Fixpoint parse_digits (acc : Z) (after_digit : bool) (s : string) : option Z :=
  match s with
  | EmptyString => if after_digit then Some acc else None
  | String c r =>
      if is_digit c then parse_digits (10 * acc + digit_value c) true r
      else if Ascii.eqb c "_" then
        if after_digit then parse_digits acc false r else None
      else None
  end.

(** [int(s)] for a [str]; [None] is [ValueError].  (The limit that recent
    interpreters put on the number of digits is not modelled.) *)
Definition int_of_str (s : string) : option Z :=
  match rstrip_with int_space (lstrip_with int_space s) with
  | String "+" r => parse_digits 0 false r
  | String "-" r => option_map Z.opp (parse_digits 0 false r)
  | r => parse_digits 0 false r
  end.

End Forms.

(** * database.py: the [users] table *)
Module Accounts.

Record user := mk_user {
  id : Z;
  username : string;
  password_hash : string;
  is_admin : Z;
}.

(** The rows in the order of their ids; [seq] is the last [AUTOINCREMENT] id. *)
Record users := mk_users {
  rows : list user;
  seq : Z;
}.

(** [werkzeug.security] and [uuid]: hashing draws a random salt, checking a
    password against a hash is a function of the two, and [uuid4_hex] is
    [uuid.uuid4().hex]. *)
Record Library (W : Type) := {
  generate_password_hash : string -> W -> string * W;
  check_password_hash : string -> string -> bool;
  uuid4_hex : W -> string * W;
}.
Arguments generate_password_hash {W} _ _ _.
Arguments check_password_hash {W} _ _ _.
Arguments uuid4_hex {W} _ _.

Section Accounts.
Context {W : Type} (P : Platform W) (L : Library W).

(** [SELECT * FROM users WHERE username=?], [fetchone()] *)
Definition select_user (name : string) (u : users) : option user :=
  List.find (fun r => String.eqb (username r) name) (rows u).

(** [INSERT INTO users (username, password_hash, is_admin) VALUES (?, ?, ?)]:
    [username] is [UNIQUE]; [None] is [sqlite3.IntegrityError]. *)
Definition insert_user (name hash : string) (admin : Z) (u : users) : option users :=
  match select_user name u with
  | Some _ => None
  | None =>
      let n := seq u + 1 in
      Some (mk_users (rows u ++ [mk_user n name hash admin]) n)
  end.

(** [create_user(username, password, is_admin)]: [False] on
    [IntegrityError]; a failure of the database itself, taken at [get_conn],
    is passed on. *)
Definition create_user (name password : string) (admin : Z) (s : W * users)
  : outcome bool * (W * users) :=
  let '(w, u) := s in
  match db_transaction P w with
  | (Raise e, w1) => (Raise e, (w1, u))
  | (Return _, w1) =>
      let '(hash, w2) := generate_password_hash L password w1 in
      match insert_user name hash admin u with
      | None => (Return false, (w2, u))
      | Some u' => (Return true, (w2, u'))
      end
  end.

(** [create_admin()] *)
Definition create_admin (s : W * users) : outcome unit * (W * users) :=
  let '(w, u) := s in
  match db_transaction P w with
  | (Raise e, w1) => (Raise e, (w1, u))
  | (Return _, w1) =>
      match select_user "admin" u with
      | Some _ => (Return tt, (w1, u))
      | None =>
          match create_user "admin" "admin" 1 (w1, u) with
          | (Raise e, s') => (Raise e, s')
          | (Return _, s') => (Return tt, s')
          end
      end
  end.

(** [verify_user(username, password)]: the pair [(id, is_admin)], or
    [(None, 0)]. *)
Definition verify_user (name password : string) (s : W * users)
  : outcome (option Z * Z) * W :=
  let '(w, u) := s in
  match db_transaction P w with
  | (Raise e, w1) => (Raise e, w1)
  | (Return _, w1) =>
      match select_user name u with
      | Some row =>
          if check_password_hash L (password_hash row) password
          then (Return (Some (id row), is_admin row), w1)
          else (Return (None, 0), w1)
      | None => (Return (None, 0), w1)
      end
  end.

End Accounts.
End Accounts.

(** * app.py: [register], [login], [logout] and [run] *)
Module Web.
Import Database.

Record request := mk_request {
  method : string;
  form : gmap string string;
}.

(** What these views return. *)
Inductive answer :=
  | Send (code : Z) (body : string)
  | RedirectTo (endpoint : string)
  | Page (template : string).

(** How a view can end without an answer of its own: [request.form[key]] on
    a missing key (Flask answers 400), [int] on a text that is no number, or
    an exception of the database (Flask answers 500 to both). *)
Inductive failure :=
  | BadRequestKeyError (key : string)
  | ValueError
  | Uncaught (e : exn).

Inductive reply :=
  | Answer (a : answer)
  | Fails (f : failure).

(** The arguments of the thread that [run] starts:
    [run_blast_job(job_id, accessions, taxid, timeout)]. *)
Record thread := mk_thread {
  t_job_id : string;
  t_accessions : list string;
  t_taxid : string;
  t_timeout : Z;
}.

Definition TAXID_CHOICES : gmap string string :=
  <["human" := "9606"]> (<["zebrafish" := "7955"]> ∅).

Section Web.
Context {W : Type} (P : Platform W) (L : Accounts.Library W).

(** The truth value of [session.get(key)]. *)
Definition logged_in (v : option Z) : option Z :=
  match v with
  | Some 0 => None
  | Some n => Some n
  | None => None
  end.

(** [/register] *)
Definition register (req : request) (s : W * Accounts.users)
  : reply * (W * Accounts.users) :=
  if String.eqb (method req) "POST" then
    match form req !! "username" with
    | None => (Fails (BadRequestKeyError "username"), s)
    | Some username =>
        match form req !! "password" with
        | None => (Fails (BadRequestKeyError "password"), s)
        | Some password =>
            match Accounts.create_user P L username password 0 s with
            | (Raise e, s') => (Fails (Uncaught e), s')
            | (Return true, s') => (Answer (RedirectTo "login"), s')
            | (Return false, s') => (Answer (Send 400 "Username already exists"), s')
            end
        end
    end
  else (Answer (Page "register.html"), s).

(** [/login]: the answer, and the session after it. *)
Definition login (req : request) (sess : App.session) (s : W * Accounts.users)
  : reply * App.session * W :=
  if String.eqb (method req) "POST" then
    match form req !! "username" with
    | None => (Fails (BadRequestKeyError "username"), sess, fst s)
    | Some username =>
        match form req !! "password" with
        | None => (Fails (BadRequestKeyError "password"), sess, fst s)
        | Some password =>
            match Accounts.verify_user P L username password s with
            | (Raise e, w') => (Fails (Uncaught e), sess, w')
            | (Return (user_id, is_admin), w') =>
                match logged_in user_id with
                | Some _ =>
                    (Answer (RedirectTo "dashboard"),
                     App.mk_session user_id (Some is_admin), w')
                | None => (Answer (Send 401 "Invalid username or password"), sess, w')
                end
            end
        end
    end
  else (Answer (Page "login.html"), sess, fst s).

(** [/logout] *)
Definition logout (sess : App.session) : reply * App.session :=
  (Answer (RedirectTo "login"), App.mk_session None None).

(** [/run]: the answer, the thread it starts if any, and the tables after. *)
Definition run (req : request) (sess : App.session) (s : W * store)
  : reply * option thread * (W * store) :=
  match logged_in (App.session_user_id sess) with
  | None => (Answer (RedirectTo "login"), None, s)
  | Some user_id =>
      let accession_input := default "" (form req !! "accessions") in
      if negb (Forms.nonempty (strip accession_input)) then
        (Answer (Send 400 "No accession numbers provided"), None, s)
      else
        let organism := default "zebrafish" (form req !! "organism") in
        let taxid := default "7955" (TAXID_CHOICES !! organism) in
        match Forms.int_of_str (default "900" (form req !! "timeout")) with
        | None => (Fails ValueError, None, s)
        | Some timeout =>
            let accessions := Forms.parse_accessions accession_input in
            let '(job_id, w1) := Accounts.uuid4_hex L (fst s) in
            match App.create_job P job_id user_id organism (w1, snd s) with
            | (Raise e, s') => (Fails (Uncaught e), None, s')
            | (Return _, s') =>
                (Answer (RedirectTo "dashboard"),
                 Some (mk_thread job_id accessions taxid timeout), s')
            end
        end
  end.

(** The thread at work: [run_blast_job] on its arguments. *)
Definition run_thread (fuel : nat) (t : thread) (s : W * store) : option (W * store) :=
  App.run_blast_job P fuel (t_job_id t) (t_accessions t) (t_taxid t) (t_timeout t) s.

End Web.
End Web.

(** * What a run may change *)
Module Effects.
Import Database.

(** The [jobs] table of [st'] differs from that of [st] at most in the
    progress and status of the row [jid]. *)
Definition same_jobs_but (jid : string) (st st' : store) : Prop :=
  (forall j, j <> jid -> jobs st' !! j = jobs st !! j) /\
  (fun r => (user_id r, organism r)) <$> jobs st' !! jid =
  (fun r => (user_id r, organism r)) <$> jobs st !! jid.

(** The [users] table as SQLite keeps it: [username] is [UNIQUE], and [id]
    is a primary key that counts up from 1, [seq] being the last one given
    out. *)
Definition users_ok (u : Accounts.users) : Prop :=
  0 <= Accounts.seq u /\
  NoDup (Accounts.username <$> Accounts.rows u) /\
  NoDup (Accounts.id <$> Accounts.rows u) /\
  Forall (fun r => 0 < Accounts.id r <= Accounts.seq u) (Accounts.rows u).



End Effects.

(** * More of the simulated world *)
Module Lab.

(** The result payload is not well formed. *)
Definition malformed : Sim.scenario :=
  Sim.mk_scenario (Sim.fasta_page Sim.ready) (Sim.put_page Sim.ready)
    (Sim.search_info Sim.ready) (Sim.xml_page Sim.ready)
    (Raise (mk_exn ParseError "syntax error: line 1, column 0"))
    (Sim.gene_page Sim.ready) (Sim.disk Sim.ready) (Sim.database Sim.ready).

(** The directory of the XML files cannot be written. *)
Definition read_only_disk : Sim.scenario :=
  Sim.mk_scenario (Sim.fasta_page Sim.ready) (Sim.put_page Sim.ready)
    (Sim.search_info Sim.ready) (Sim.xml_page Sim.ready) (Sim.document Sim.ready)
    (Sim.gene_page Sim.ready)
    (Raise (mk_exn OSError "[Errno 30] Read-only file system"))
    (Sim.database Sim.ready).

(** The database cannot be opened. *)
Definition database_down : Sim.scenario :=
  Sim.mk_scenario (Sim.fasta_page Sim.ready) (Sim.put_page Sim.ready)
    (Sim.search_info Sim.ready) (Sim.xml_page Sim.ready) (Sim.document Sim.ready)
    (Sim.gene_page Sim.ready) (Sim.disk Sim.ready)
    (Raise (mk_exn Exception "unable to open database file")).

(** A stand-in for the hashing of werkzeug, and one fixed identifier. *)
Definition library : Accounts.Library Sim.world := {|
  Accounts.generate_password_hash p w := ("salted:" +:+ p, w);
  Accounts.check_password_hash h p := String.eqb h ("salted:" +:+ p);
  Accounts.uuid4_hex w := ("3f2b8c1e9d4a4f6e8b7a5c0d1e2f3a4b", w);
|}.

Definition no_users : Accounts.users := Accounts.mk_users [] 0.

Definition post (fields : list (string * string)) : Web.request :=
  Web.mk_request "POST" (list_to_map fields).

Definition user_session (uid : Z) : App.session := App.mk_session (Some uid) (Some 0).

Definition admin_session : App.session := App.mk_session (Some 1) (Some 1).

(** The tables when the job [job0] of user 2 is done, with one row, and the
    job [job1] of user 1 has just been created. *)
Definition two_jobs : Database.store :=
  Database.mk_store
    (<["job1" := Database.mk_job 1 "human" 0 "RUNNING"]>
       (<["job0" := Database.mk_job 2 "zebrafish" 100 "DONE"]> ∅))
    [Database.mk_result 1 "job0" (Some "Q9Y261") (Some "NP_571131") (Some "foxa2")
       (Some "Danio rerio") (Some "215.3") (Some "2e-70")]
    1.

(** The world of a scenario in which the database commits as long as the
    clock reads at most [t] and is locked afterwards. *)
Definition locked_after (t : Q) (sc : Sim.scenario) : Platform Sim.world := {|
  time_time := time_time (Sim.platform sc);
  time_sleep := time_sleep (Sim.platform sc);
  requests_get := requests_get (Sim.platform sc);
  requests_post := requests_post (Sim.platform sc);
  ET_fromstring := ET_fromstring (Sim.platform sc);
  write_file := write_file (Sim.platform sc);
  db_transaction w :=
    if Qle_bool (Sim.now w) t then (Return tt, w)
    else (Raise (mk_exn Exception "database is locked"), w);
|}.

End Lab.

(** * Properties *)

(** ** Rounding to binary64 *)
Section FloatFacts.

Lemma pow2_pos k : (0 < 2 ^ k)%Q.
Proof. apply Qpower_0_lt. reflexivity. Qed.

Lemma pow2_succ k : (2 ^ (k + 1) == 2 * 2 ^ k)%Q.
Proof. rewrite Qpower_plus by discriminate. change (2 ^ 1)%Q with 2%Q. ring. Qed.

Lemma pow2_le a b : a <= b -> (2 ^ a <= 2 ^ b)%Q.
Proof. intros H. apply Qpower_le_compat_l; [exact H | discriminate]. Qed.

Lemma pow2_lt_inv a b : (2 ^ a < 2 ^ b)%Q -> a < b.
Proof. intros H. apply (Qpower_lt_compat_l_inv 2); [exact H | reflexivity]. Qed.

Lemma pow2_Z n : 0 <= n -> (inject_Z (2 ^ n) == 2 ^ n)%Q.
Proof. intros H. apply (Zpower_Qpower 2 n H). Qed.

Lemma ilog2_unique x j k :
  (2 ^ j <= x)%Q -> (x < 2 ^ (j + 1))%Q -> (2 ^ k <= x)%Q -> (x < 2 ^ (k + 1))%Q -> j = k.
Proof.
  intros J1 J2 K1 K2.
  assert (j < k + 1) by (apply pow2_lt_inv; eapply Qle_lt_trans; eassumption).
  assert (k < j + 1) by (apply pow2_lt_inv; eapply Qle_lt_trans; eassumption).
  lia.
Qed.

Lemma ilog2_spec x : (0 < x)%Q -> (2 ^ ilog2 x <= x)%Q /\ (x < 2 ^ (ilog2 x + 1))%Q.
Proof.
  intros Hx. destruct x as [p q].
  assert (Hp : 0 < p) by (unfold Qlt in Hx; simpl in Hx; lia).
  unfold ilog2. cbn [Qnum Qden].
  set (lp := Z.log2 p). set (lq := Z.log2 (Z.pos q)).
  assert (Hlp : 0 <= lp) by apply Z.log2_nonneg.
  assert (Hlq : 0 <= lq) by apply Z.log2_nonneg.
  destruct (Z.log2_spec p Hp) as [P1 P2]. fold lp in P1, P2.
  destruct (Z.log2_spec (Z.pos q) ltac:(lia)) as [D1 D2]. fold lq in D1, D2.
  assert (A1 : (2 ^ lp <= inject_Z p)%Q) by (rewrite <- pow2_Z by lia; rewrite <- Zle_Qle; exact P1).
  assert (A2 : (inject_Z p < 2 * 2 ^ lp)%Q).
  { rewrite <- pow2_succ, <- pow2_Z by lia. rewrite <- Zlt_Qlt. exact P2. }
  assert (B1 : (2 ^ lq <= inject_Z (Z.pos q))%Q) by (rewrite <- pow2_Z by lia; rewrite <- Zle_Qle; exact D1).
  assert (B2 : (inject_Z (Z.pos q) < 2 * 2 ^ lq)%Q).
  { rewrite <- pow2_succ, <- pow2_Z by lia. rewrite <- Zlt_Qlt. exact D2. }
  assert (E : (p # q == inject_Z p / inject_Z (Z.pos q))%Q) by apply Qmake_Qdiv.
  assert (Dpos : (0 < inject_Z (Z.pos q))%Q) by reflexivity.
  assert (XD : ((p # q) * inject_Z (Z.pos q) == inject_Z p)%Q).
  { rewrite E. field. intros C. rewrite C in Dpos. discriminate. }
  pose proof (pow2_pos lp) as Ha. pose proof (pow2_pos lq) as Hb.
  assert (K : (2 ^ (lp - lq) * 2 ^ lq == 2 ^ lp)%Q).
  { rewrite <- Qpower_plus by discriminate. replace (lp - lq + lq) with lp by lia. reflexivity. }
  assert (K' : (2 ^ (lp - lq - 1) * (2 * 2 ^ lq) == 2 ^ lp)%Q).
  { rewrite <- pow2_succ, <- Qpower_plus by discriminate.
    replace (lp - lq - 1 + (lq + 1)) with lp by lia. reflexivity. }
  pose proof (pow2_pos (lp - lq)) as Hk. pose proof (pow2_pos (lp - lq - 1)) as Hk'.
  destruct (Qle_bool (2 ^ (lp - lq)) (p # q)) eqn:T.
  - apply Qle_bool_iff in T. split; [exact T |].
    rewrite pow2_succ.
    apply Qnot_le_lt. intros C. 
    assert (2 * 2 ^ (lp - lq) * 2 ^ lq <= (p # q) * inject_Z (Z.pos q))%Q.
    { apply Qle_trans with ((p # q) * 2 ^ lq)%Q.
      - apply Qmult_le_compat_r; [exact C | apply Qlt_le_weak, Hb].
      - rewrite !(Qmult_comm (p # q)). apply Qmult_le_compat_r; [exact B1 | apply Qlt_le_weak, Hx]. }
    rewrite XD, <- Qmult_assoc, K in H. lra.
  - assert (T' : (p # q < 2 ^ (lp - lq))%Q).
    { apply Qnot_le_lt. intros C. apply Qle_bool_iff in C. congruence. }
    replace (lp - lq - 1 + 1) with (lp - lq) by lia. split; [| exact T'].
    apply Qnot_lt_le. intros C.
    assert ((p # q) * inject_Z (Z.pos q) < 2 ^ (lp - lq - 1) * (2 * 2 ^ lq))%Q.
    { apply Qlt_le_trans with ((2 ^ (lp - lq - 1)) * inject_Z (Z.pos q))%Q.
      - apply Qmult_lt_compat_r; [exact Dpos | exact C].
      - rewrite !(Qmult_comm (2 ^ (lp - lq - 1))).
        apply Qmult_le_compat_r; [apply Qlt_le_weak, B2 | apply Qlt_le_weak, Hk']. }
    rewrite XD, K' in H. lra.
Qed.

Lemma ilog2_eq x k : (2 ^ k <= x)%Q -> (x < 2 ^ (k + 1))%Q -> ilog2 x = k.
Proof.
  intros K1 K2.
  assert (Hx : (0 < x)%Q) by (eapply Qlt_le_trans; [apply (pow2_pos k) | exact K1]).
  destruct (ilog2_spec x Hx) as [J1 J2]. eapply ilog2_unique; eassumption.
Qed.

Lemma ilog2_comp x y : (0 < x)%Q -> (x == y)%Q -> ilog2 x = ilog2 y.
Proof.
  intros Hx E. destruct (ilog2_spec x Hx) as [J1 J2].
  symmetry. apply ilog2_eq; rewrite <- E; assumption.
Qed.

Lemma ilog2_mono x y : (0 < x)%Q -> (x <= y)%Q -> ilog2 x <= ilog2 y.
Proof.
  intros Hx Hxy.
  assert (Hy : (0 < y)%Q) by (eapply Qlt_le_trans; eassumption).
  destruct (ilog2_spec x Hx) as [J1 _]. destruct (ilog2_spec y Hy) as [_ K2].
  assert (ilog2 x < ilog2 y + 1); [| lia].
  apply pow2_lt_inv. eapply Qle_lt_trans; [exact J1 |]. eapply Qle_lt_trans; eassumption.
Qed.

Lemma rint_floor x : Qfloor x <= rint x <= Qfloor x + 1.
Proof.
  unfold rint. destruct (x - inject_Z (Qfloor x) ?= 1 # 2)%Q; [destruct (Z.even _) | |]; lia.
Qed.

Lemma rint_ge x n : (inject_Z n <= x)%Q -> n <= rint x.
Proof.
  intros H. apply Qfloor_resp_le in H. rewrite Qfloor_Z in H.
  pose proof (rint_floor x). lia.
Qed.

Lemma rint_le x n : (x <= inject_Z n)%Q -> rint x <= n.
Proof.
  intros H. pose proof (Qfloor_resp_le _ _ H) as F. rewrite Qfloor_Z in F.
  destruct (Z.eq_dec (Qfloor x) n) as [E | NE].
  - unfold rint. rewrite E.
    assert (L : (x - inject_Z n < 1 # 2)%Q) by lra.
    rewrite Qlt_alt in L. rewrite L. lia.
  - pose proof (rint_floor x). lia.
Qed.

Lemma rint_mono x y : (x <= y)%Q -> rint x <= rint y.
Proof.
  intros H. pose proof (Qfloor_resp_le _ _ H) as F.
  destruct (Z.eq_dec (Qfloor x) (Qfloor y)) as [E | NE].
  - unfold rint. rewrite <- E.
    destruct (Qcompare_spec (x - inject_Z (Qfloor x)) (1 # 2)) as [X | X | X];
    destruct (Qcompare_spec (y - inject_Z (Qfloor x)) (1 # 2)) as [Y | Y | Y];
      try destruct (Z.even (Qfloor x)); try lia; exfalso; lra.
  - pose proof (rint_floor x). pose proof (rint_floor y). lia.
Qed.

Lemma rint_comp x y : (x == y)%Q -> rint x = rint y.
Proof.
  intros E. apply Z.le_antisymm; apply rint_mono; rewrite E; apply Qle_refl.
Qed.

Lemma b64_pos_bounds x :
  (0 < x)%Q -> (2 ^ ilog2 x <= b64_pos x)%Q /\ (b64_pos x <= 2 ^ (ilog2 x + 1))%Q.
Proof.
  intros Hx. destruct (ilog2_spec x Hx) as [J1 J2]. unfold b64_pos.
  set (e := ilog2 x - 52). pose proof (pow2_pos e) as He.
  assert (S1 : (inject_Z (2 ^ 52) <= x / 2 ^ e)%Q).
  { apply Qle_shift_div_l; [exact He |]. rewrite pow2_Z by lia.
    rewrite <- Qpower_plus by discriminate. replace (52 + e) with (ilog2 x) by (unfold e; lia).
    exact J1. }
  assert (S2 : (x / 2 ^ e <= inject_Z (2 ^ 53))%Q).
  { apply Qle_shift_div_r; [exact He |]. rewrite pow2_Z by lia.
    rewrite <- Qpower_plus by discriminate. replace (53 + e) with (ilog2 x + 1) by (unfold e; lia).
    apply Qlt_le_weak, J2. }
  apply rint_ge in S1. apply rint_le in S2.
  rewrite Zle_Qle in S1, S2. rewrite pow2_Z in S1, S2 by lia. split.
  - replace (ilog2 x) with (52 + e) at 1 by (unfold e; lia).
    rewrite Qpower_plus by discriminate.
    apply Qmult_le_compat_r; [exact S1 | apply Qlt_le_weak, He].
  - replace (ilog2 x + 1) with (53 + e) by (unfold e; lia).
    rewrite Qpower_plus by discriminate.
    apply Qmult_le_compat_r; [exact S2 | apply Qlt_le_weak, He].
Qed.

Lemma b64_pos_positive x : (0 < x)%Q -> (0 < b64_pos x)%Q.
Proof.
  intros Hx. eapply Qlt_le_trans; [apply (pow2_pos (ilog2 x)) | apply b64_pos_bounds, Hx].
Qed.

Lemma b64_pos_comp x y : (0 < x)%Q -> (x == y)%Q -> (b64_pos x == b64_pos y)%Q.
Proof.
  intros Hx E. unfold b64_pos. rewrite <- (ilog2_comp x y Hx E).
  generalize (ilog2 x - 52). intros e.
  rewrite (rint_comp (x / 2 ^ e) (y / 2 ^ e)); [reflexivity |].
  rewrite E. reflexivity.
Qed.

Lemma b64_pos_mono x y : (0 < x)%Q -> (x <= y)%Q -> (b64_pos x <= b64_pos y)%Q.
Proof.
  intros Hx Hxy.
  assert (Hy : (0 < y)%Q) by (eapply Qlt_le_trans; eassumption).
  pose proof (ilog2_mono x y Hx Hxy) as L.
  destruct (Z.eq_dec (ilog2 x) (ilog2 y)) as [E | NE].
  - unfold b64_pos. rewrite <- E. set (e := ilog2 x - 52). pose proof (pow2_pos e) as He.
    apply Qmult_le_compat_r; [| apply Qlt_le_weak, He].
    rewrite <- Zle_Qle. apply rint_mono.
    apply Qmult_le_compat_r; [exact Hxy |]. apply Qlt_le_weak, Qinv_lt_0_compat, He.
  - destruct (b64_pos_bounds x Hx) as [_ U]. destruct (b64_pos_bounds y Hy) as [V _].
    eapply Qle_trans; [exact U |]. eapply Qle_trans; [| exact V].
    apply pow2_le. lia.
Qed.

Lemma b64_positive x : (0 < x)%Q -> b64 x = b64_pos x.
Proof. intros Hx. unfold b64. rewrite Qgt_alt in Hx. rewrite Hx. reflexivity. Qed.

Lemma rint_Z n : rint (inject_Z n) = n.
Proof.
  unfold rint. rewrite Qfloor_Z.
  assert (L : (inject_Z n - inject_Z n < 1 # 2)%Q) by lra.
  rewrite Qlt_alt in L. rewrite L. reflexivity.
Qed.

Lemma b64_pos_int n : 0 < n <= 2 ^ 53 -> (b64_pos (inject_Z n) == inject_Z n)%Q.
Proof.
  intros [Hn Hmax].
  assert (Hq : (0 < inject_Z n)%Q) by (rewrite Zlt_Qlt in Hn; exact Hn).
  destruct (ilog2_spec _ Hq) as [L U]. unfold b64_pos.
  set (il := ilog2 (inject_Z n)) in *.
  assert (Hil0 : 0 <= il).
  { assert (0 < il + 1); [| lia]. apply pow2_lt_inv. eapply Qle_lt_trans; [| exact U].
    change (2 ^ 0)%Q with (inject_Z 1). rewrite <- Zle_Qle. lia. }
  assert (Hil : il <= 53).
  { apply (Qpower_le_compat_l_inv 2); [| reflexivity].
    eapply Qle_trans; [exact L |]. rewrite <- pow2_Z by lia. rewrite <- Zle_Qle. exact Hmax. }
  destruct (Z.eq_dec il 53) as [E | NE].
  - rewrite E in L. rewrite <- pow2_Z in L by lia. rewrite <- Zle_Qle in L.
    assert (n = 2 ^ 53) by lia. subst n. rewrite E. vm_compute. reflexivity.
  - set (k := 52 - il). assert (Hk : 0 <= k) by (unfold k; lia).
    replace (il - 52) with (- k) by (unfold k; lia).
    pose proof (pow2_pos k) as Pk.
    assert (Inv : (2 ^ (- k) == / 2 ^ k)%Q) by apply Qpower_opp.
    assert (S : (inject_Z n / 2 ^ (- k) == inject_Z (n * 2 ^ k))%Q).
    { rewrite Inv, inject_Z_mult, pow2_Z by exact Hk. field.
      intros C. rewrite C in Pk. apply (Qlt_irrefl 0), Pk. }
    rewrite (rint_comp _ _ S), rint_Z, inject_Z_mult, pow2_Z, Inv by exact Hk. field.
    intros C. rewrite C in Pk. apply (Qlt_irrefl 0), Pk.
Qed.

Lemma b64_le_int x n : 0 < n <= 2 ^ 53 -> (x <= inject_Z n)%Q -> (b64 x <= inject_Z n)%Q.
Proof.
  intros Hn Hx.
  assert (Hq : (0 < inject_Z n)%Q) by (destruct Hn as [Hn _]; rewrite Zlt_Qlt in Hn; exact Hn).
  unfold b64. destruct (Qcompare_spec x 0) as [E | Lt | Gt].
  - apply Qlt_le_weak, Hq.
  - assert (N : (0 < - x)%Q) by lra. pose proof (b64_pos_positive _ N). lra.
  - rewrite <- (b64_pos_int n Hn). apply b64_pos_mono; assumption.
Qed.

Lemma b64_above_half x : (0 < x)%Q -> (x < 2 * b64 x)%Q.
Proof.
  intros Hx. rewrite (b64_positive x Hx).
  destruct (ilog2_spec x Hx) as [_ U]. destruct (b64_pos_bounds x Hx) as [L _].
  rewrite pow2_succ in U. lra.
Qed.

Lemma percent_pct i total :
  (0 < total)%nat -> App.percent i total = Return (App.pct (Z.of_nat i + 1) (Z.of_nat total)).
Proof.
  intros Ht. unfold App.percent, truediv.
  destruct (Z.eqb_spec (Z.of_nat total) 0) as [E | _]; [lia | reflexivity].
Qed.

Lemma pct_mono i j total :
  0 < i <= j -> 0 < total -> App.pct i total <= App.pct j total.
Proof.
  intros [Hi Hij] Ht. unfold App.pct, float_mul.
  assert (T : (0 < inject_Z total)%Q) by (rewrite Zlt_Qlt in Ht; exact Ht).
  assert (Xi : (0 < inject_Z i / inject_Z total)%Q).
  { apply Qlt_shift_div_l; [exact T |]. rewrite Qmult_0_l. rewrite Zlt_Qlt in Hi. exact Hi. }
  assert (Xij : (inject_Z i / inject_Z total <= inject_Z j / inject_Z total)%Q).
  { apply Qmult_le_compat_r; [rewrite <- Zle_Qle; exact Hij |].
    apply Qlt_le_weak, Qinv_lt_0_compat, T. }
  assert (Xj : (0 < inject_Z j / inject_Z total)%Q) by (eapply Qlt_le_trans; eassumption).
  rewrite (b64_positive _ Xi), (b64_positive _ Xj).
  pose proof (b64_pos_positive _ Xi) as Yi. pose proof (b64_pos_positive _ Xj) as Yj.
  pose proof (b64_pos_mono _ _ Xi Xij) as Yij.
  set (yi := b64_pos (inject_Z i / inject_Z total)) in *.
  set (yj := b64_pos (inject_Z j / inject_Z total)) in *.
  assert (Zi : (0 < yi * 100)%Q) by lra. assert (Zj : (0 < yj * 100)%Q) by lra.
  rewrite (b64_positive _ Zi), (b64_positive _ Zj).
  pose proof (b64_pos_positive _ Zi) as Wi. pose proof (b64_pos_positive _ Zj) as Wj.
  assert (Wij : (b64_pos (yi * 100) <= b64_pos (yj * 100))%Q) by (apply b64_pos_mono; lra).
  unfold int_of_float.
  replace (Qle_bool 0 (b64_pos (yi * 100))) with true
    by (symmetry; apply Qle_bool_iff, Qlt_le_weak, Wi).
  replace (Qle_bool 0 (b64_pos (yj * 100))) with true
    by (symmetry; apply Qle_bool_iff, Qlt_le_weak, Wj).
  apply Qfloor_resp_le, Wij.
Qed.

Lemma pct_full total : 0 < total -> App.pct total total = 100.
Proof.
  intros Ht. unfold App.pct, float_mul.
  assert (T : (0 < inject_Z total)%Q) by (rewrite Zlt_Qlt in Ht; exact Ht).
  assert (X : (inject_Z total / inject_Z total == 1)%Q).
  { field. intros C. rewrite C in T. discriminate. }
  assert (X0 : (0 < inject_Z total / inject_Z total)%Q) by (rewrite X; reflexivity).
  rewrite (b64_positive _ X0).
  assert (Y : (b64_pos (inject_Z total / inject_Z total) == 1)%Q).
  { rewrite (b64_pos_comp _ 1 X0 X). vm_compute. reflexivity. }
  assert (Z0 : (0 < b64_pos (inject_Z total / inject_Z total) * 100)%Q) by (rewrite Y; reflexivity).
  rewrite (b64_positive _ Z0).
  assert (V : (b64_pos (b64_pos (inject_Z total / inject_Z total) * 100) == 100)%Q).
  { rewrite (b64_pos_comp _ 100 Z0); [vm_compute; reflexivity | rewrite Y; reflexivity]. }
  unfold int_of_float.
  replace (Qle_bool 0 _) with true by (symmetry; apply Qle_bool_iff; rewrite V; discriminate).
  rewrite (Qfloor_comp _ _ V). reflexivity.
Qed.

Lemma pct_nonneg i total : 0 < i -> 0 < total -> 0 <= App.pct i total.
Proof.
  intros Hi Ht. unfold App.pct, float_mul.
  assert (T : (0 < inject_Z total)%Q) by (rewrite Zlt_Qlt in Ht; exact Ht).
  assert (Xi : (0 < inject_Z i / inject_Z total)%Q).
  { apply Qlt_shift_div_l; [exact T |]. rewrite Qmult_0_l. rewrite Zlt_Qlt in Hi. exact Hi. }
  rewrite (b64_positive _ Xi). pose proof (b64_pos_positive _ Xi) as Yi.
  assert (Zi : (0 < b64_pos (inject_Z i / inject_Z total) * 100)%Q) by lra.
  rewrite (b64_positive _ Zi). pose proof (b64_pos_positive _ Zi) as Wi.
  unfold int_of_float.
  replace (Qle_bool 0 _) with true by (symmetry; apply Qle_bool_iff, Qlt_le_weak, Wi).
  change 0 with (Qfloor 0). apply Qfloor_resp_le, Qlt_le_weak, Wi.
Qed.

End FloatFacts.

(** ** The poll loop *)
Section PollFacts.
Context {W : Type} (P : Platform W).

Lemma wait_loop_budget fuel rid B t0 attempts w :
  0 < B ->
  Services.wait_loop P (S fuel) rid (Some B) t0 attempts w =
  if float_gt_int (float_sub (time_time P w) t0) B then Some (Return "TIMEOUT", w)
  else
    match requests_get P Services.BLAST_URL (Services.status_params rid) 30 (time_sleep P 8 w) with
    | (Raise _, w2) => Services.wait_loop P fuel rid (Some B) t0 (attempts + 1) w2
    | (Return r, w2) =>
        if contains "Status=READY" (text r) then
          if contains "ThereAreHits=yes" (text r)
          then Some (Return "READY", w2)
          else Some (Return "NO_HITS", w2)
        else if contains "Status=FAILED" (text r) then Some (Return "FAILED", w2)
        else Services.wait_loop P fuel rid (Some B) t0 (attempts + 1) w2
    end.
Proof.
  intros HB. cbn [Services.wait_loop]. unfold and_then, gt_zero, float_gt.
  replace (0 <? B) with true by (symmetry; apply Z.ltb_lt, HB).
  destruct (float_gt_int _ B); reflexivity.
Qed.

Lemma float_gt_int_true x m : float_gt_int x m = true -> (inject_Z m < x)%Q.
Proof.
  unfold float_gt_int. intros H. apply Qnot_le_lt. intros C.
  apply Qle_bool_iff in C. rewrite C in H. discriminate.
Qed.

Lemma float_gt_int_false x m : float_gt_int x m = false -> (x <= inject_Z m)%Q.
Proof.
  unfold float_gt_int. intros H. apply Qle_bool_iff.
  destruct (Qle_bool x (inject_Z m)); [reflexivity | discriminate].
Qed.

Lemma wait_loop_times_out rid B t0 :
  App.clock_laws P -> App.never_terminal P rid -> 0 < B ->
  forall m attempts w,
    (inject_Z (2 * B) - inject_Z (8 * Z.of_nat m) <= time_time P w - t0)%Q ->
    exists w',
      (forall fuel, (m < fuel)%nat ->
         Services.wait_loop P fuel rid (Some B) t0 attempts w = Some (Return "TIMEOUT", w')) /\
      (inject_Z B < float_sub (time_time P w') t0)%Q.
Proof.
  intros [Hsleep Hget] Hnt HB. induction m as [| m IH]; intros attempts w Hw.
  - destruct (float_gt_int (float_sub (time_time P w) t0) B) eqn:T.
    + exists w. split; [| apply float_gt_int_true, T].
      intros [| fuel] Hf; [lia |]. rewrite wait_loop_budget by exact HB. rewrite T. reflexivity.
    + exfalso. apply float_gt_int_false in T. unfold float_sub in T.
      assert (HB' : (0 < inject_Z B)%Q) by (rewrite Zlt_Qlt in HB; exact HB).
      rewrite inject_Z_mult in Hw. change (inject_Z (8 * Z.of_nat 0)) with 0%Q in Hw.
      change (inject_Z 2) with 2%Q in Hw.
      assert (D : (0 < time_time P w - t0)%Q) by lra.
      pose proof (b64_above_half _ D). lra.
  - destruct (float_gt_int (float_sub (time_time P w) t0) B) eqn:T.
    + exists w. split; [| apply float_gt_int_true, T].
      intros [| fuel] Hf; [lia |]. rewrite wait_loop_budget by exact HB. rewrite T. reflexivity.
    + pose proof (Hsleep 8%Q w) as S1.
      pose proof (Hget Services.BLAST_URL (Services.status_params rid) 30 (time_sleep P 8 w)) as S2.
      destruct (requests_get P Services.BLAST_URL (Services.status_params rid) 30 (time_sleep P 8 w))
        as [o w2] eqn:G. cbn [snd] in S2.
      assert (Hw2 : (inject_Z (2 * B) - inject_Z (8 * Z.of_nat m) <= time_time P w2 - t0)%Q).
      { replace (8 * Z.of_nat (S m)) with (8 * Z.of_nat m + 8) in Hw by lia.
        rewrite inject_Z_plus in Hw. change (inject_Z 8) with 8%Q in Hw. lra. }
      destruct (IH (attempts + 1) w2 Hw2) as [w' [Hrun Hel]].
      exists w'. split; [| exact Hel].
      intros [| fuel] Hf; [lia |]. rewrite wait_loop_budget by exact HB. rewrite T, G.
      destruct o as [r | e].
      * destruct (Hnt _ _ _ G) as [R F]. rewrite R, F. apply Hrun. lia.
      * apply Hrun. lia.
Qed.

Lemma wait_loop_only_timeout rid B t0 :
  App.never_terminal P rid -> 0 < B ->
  forall fuel attempts w o w',
    Services.wait_loop P fuel rid (Some B) t0 attempts w = Some (o, w') ->
    o = Return "TIMEOUT" /\ (inject_Z B < float_sub (time_time P w') t0)%Q.
Proof.
  intros Hnt HB. induction fuel as [| fuel IH]; intros attempts w o w' H.
  - discriminate H.
  - rewrite wait_loop_budget in H by exact HB.
    destruct (float_gt_int (float_sub (time_time P w) t0) B) eqn:T.
    + injection H as <- <-. split; [reflexivity | apply float_gt_int_true, T].
    + destruct (requests_get P Services.BLAST_URL (Services.status_params rid) 30 (time_sleep P 8 w))
        as [[r | e] w2] eqn:G.
      * destruct (Hnt _ _ _ G) as [R F]. rewrite R, F in H. eapply IH, H.
      * eapply IH, H.
Qed.

(** C5.  With a positive budget [B], a clock that keeps time and a status
    service that never shows a terminal state (failed requests included),
    [wait_for_blast] returns: given enough iterations its result is
    ["TIMEOUT"].  Whenever it returns, the result is ["TIMEOUT"] and the
    elapsed time the loop measured, [time.time() - start_time], is above [B];
    for a budget that a float holds exactly, so is the difference of the two
    clock readings itself. *)
Theorem wait_for_blast_times_out (rid : string) (B : Z) (w : W) :
  App.clock_laws P -> App.never_terminal P rid -> 0 < B ->
  (exists n w',
     (forall fuel, (n <= fuel)%nat ->
        Services.wait_for_blast P fuel rid (Some B) w = Some (Return "TIMEOUT", w')) /\
     (inject_Z B < float_sub (time_time P w') (time_time P w))%Q) /\
  (forall fuel o w',
     Services.wait_for_blast P fuel rid (Some B) w = Some (o, w') ->
     o = Return "TIMEOUT" /\
     (inject_Z B < float_sub (time_time P w') (time_time P w))%Q /\
     (B <= 2 ^ 53 -> (inject_Z B < time_time P w' - time_time P w)%Q)).
Proof.
  intros Hc Hnt HB. split.
  - destruct (wait_loop_times_out rid B (time_time P w) Hc Hnt HB (Z.to_nat B) 0 w)
      as [w' [Hrun Hel]].
    { assert (E : (time_time P w - time_time P w == 0)%Q) by ring. rewrite E.
      rewrite Z2Nat.id by lia. rewrite !inject_Z_mult.
      assert (HB' : (0 < inject_Z B)%Q) by (rewrite Zlt_Qlt in HB; exact HB).
      change (inject_Z 2) with 2%Q. change (inject_Z 8) with 8%Q. lra. }
    exists (S (Z.to_nat B)), w'. split; [| exact Hel].
    intros fuel Hf. apply Hrun. lia.
  - intros fuel o w' H.
    destruct (wait_loop_only_timeout rid B (time_time P w) Hnt HB _ _ _ _ _ H) as [Ho Hel].
    split; [exact Ho |]. split; [exact Hel |].
    intros Hmax. apply Qnot_le_lt. intros C.
    apply (b64_le_int _ B (conj HB Hmax)) in C. unfold float_sub in Hel. lra.
Qed.

End PollFacts.

(** ** Searching for a bracketed substring *)
Section BracketFacts.
Import Bracket.
Local Arguments Ascii.eqb : simpl never.

Lemma startswith_append p b : startswith p (p +:+ b) = true.
Proof.
  induction p as [| x p IH]; [reflexivity |].
  simpl. rewrite Ascii.eqb_refl. exact IH.
Qed.

Lemma startswith_split p s : startswith p s = true -> exists b, s = p +:+ b.
Proof.
  revert s. induction p as [| x p IH]; intros s H.
  - exists s. reflexivity.
  - destruct s as [| y s]; [discriminate |]. simpl in H.
    destruct (Ascii.eqb_spec x y) as [-> | _]; [| discriminate].
    destruct (IH s H) as [b ->]. exists b. reflexivity.
Qed.

Lemma match_group_cons cls post c s :
  match_group cls post (String c s) =
  if cls c then
    match match_group cls post s with
    | Some g => Some (String c g)
    | None => if startswith post s then Some (String c "") else None
    end
  else None.
Proof. reflexivity. Qed.

(** The group [([^\]]+)\]] matches at the start of [s] exactly when [s] reads
    a non-empty text free of closing brackets and then a closing bracket. *)
Lemma match_group_bracket s g :
  match_group (not_char "]") "]" s = Some g <->
  exists b, s = g +:+ "]" +:+ b /\ g <> "" /\ all_chars (not_char "]") g = true.
Proof.
  revert g. induction s as [| c s IH]; intros g.
  - split; [discriminate |]. intros [b [E [N _]]]. destruct g; [congruence | discriminate].
  - rewrite match_group_cons. destruct (not_char "]" c) eqn:C.
    + destruct (match_group (not_char "]") "]" s) as [g' |].
      * destruct (proj1 (IH g') eq_refl) as [b [Es [N A]]]. split.
        -- intros [= <-]. exists b. split; [rewrite Es; reflexivity |].
           split; [discriminate | simpl; rewrite C, A; reflexivity].
        -- intros [b' [E [N' A']]]. destruct g as [| x g0]; [congruence |].
           simpl in E. injection E as <- E. simpl in A'. rewrite C in A'. simpl in A'.
           destruct g0 as [| y g0].
           ++ exfalso. destruct g' as [| z g']; [congruence |].
              rewrite Es in E. simpl in E. injection E as -> _. simpl in A. discriminate A.
           ++ assert (M' : Some g' = Some (String y g0)).
              { apply IH. exists b'. repeat split; [exact E | congruence | exact A']. }
              congruence.
      * destruct (startswith "]" s) eqn:S.
        -- apply startswith_split in S. destruct S as [b Es]. split.
           ++ intros [= <-]. exists b. split; [rewrite Es; reflexivity |].
              split; [discriminate | simpl; rewrite C; reflexivity].
           ++ intros [b' [E [N' A']]]. destruct g as [| x g0]; [congruence |].
              simpl in E. injection E as <- E. destruct g0 as [| y g0]; [reflexivity |].
              simpl in A'. rewrite C in A'. simpl in A'.
              assert (M' : None = Some (String y g0)); [| discriminate M'].
              apply IH. exists b'. repeat split; [exact E | congruence | exact A'].
        -- split; [discriminate |]. intros [b' [E [N' A']]]. exfalso.
           destruct g as [| x g0]; [congruence |]. simpl in E. injection E as <- E.
           simpl in A'. rewrite C in A'. simpl in A'. destruct g0 as [| y g0].
           ++ simpl in E. subst s. simpl in S. discriminate S.
           ++ assert (M' : None = Some (String y g0)); [| discriminate M'].
              apply IH. exists b'. repeat split; [exact E | congruence | exact A'].
    + split; [discriminate |]. intros [b' [E [N' A']]]. exfalso.
      destruct g as [| x g0]; [congruence |]. simpl in E. injection E as <- E.
      simpl in A'. rewrite C in A'. discriminate A'.
Qed.

Lemma match_here_bracketed s g :
  match_here "[" (not_char "]") "]" s = Some g <-> bracketed_at s 0 g.
Proof.
  unfold match_here, bracketed_at. split.
  - intros H. destruct s as [| c s]; [discriminate |]. simpl in H.
    destruct (Ascii.eqb_spec "[" c) as [<- | _]; [| discriminate].
    apply match_group_bracket in H. destruct H as [b [-> [N A]]].
    exists "", b. repeat split; trivial.
  - intros [a [b [-> [L [N A]]]]]. destruct a; [| discriminate]. cbn.
    apply match_group_bracket. exists b. repeat split; trivial.
Qed.

Lemma bracketed_at_tail c s n g : bracketed_at (String c s) (S n) g <-> bracketed_at s n g.
Proof.
  unfold bracketed_at. split.
  - intros [a [b [E [L R]]]]. destruct a as [| x a]; [discriminate |].
    cbn in E. injection E as <- ->. cbn in L. exists a, b. split; [reflexivity |].
    split; [lia | exact R].
  - intros [a [b [-> [L R]]]]. exists (String c a), b. split; [reflexivity |].
    split; [cbn; lia | exact R].
Qed.

Lemma bracketed_at_empty n g : ~ bracketed_at "" n g.
Proof. intros [a [b [E _]]]. destruct a; discriminate. Qed.

(** [re.search] finds the first bracketed substring, if there is one. *)
Lemma re_search_bracket s :
  match re_search "[" (not_char "]") "]" s with
  | Some g => first_bracketed s g
  | None => no_bracketed s
  end.
Proof.
  induction s as [| c s IH].
  - cbn. intros n g. apply bracketed_at_empty.
  - cbn [re_search]. destruct (match_here "[" (not_char "]") "]" (String c s)) as [g |] eqn:H.
    + exists 0%nat. split; [apply match_here_bracketed, H | intros; lia].
    + assert (N0 : forall g, ~ bracketed_at (String c s) 0 g).
      { intros g B. apply match_here_bracketed in B. congruence. }
      destruct (re_search "[" (not_char "]") "]" s) as [g |].
      * destruct IH as [n [B Min]]. exists (S n). split; [apply bracketed_at_tail, B |].
        intros [| m] g' B'; [destruct (N0 g' B') |].
        apply bracketed_at_tail in B'. specialize (Min m g' B'). lia.
      * intros [| n] g B; [destruct (N0 g B) |]. apply bracketed_at_tail in B.
        exact (IH n g B).
Qed.

Example search_skips_empty_brackets :
  re_search "[" (not_char "]") "]" "a [] [x]" = Some "x".
Proof. reflexivity. Qed.

Example search_keeps_inner_opening : re_search "[" (not_char "]") "]" "[[a]" = Some "[a".
Proof. reflexivity. Qed.

Example search_unclosed : re_search "[" (not_char "]") "]" "protein [Danio" = None.
Proof. reflexivity. Qed.

Example search_rid :
  re_search "RID = " nonspace "" "    RID = ABC123XYZ
    RTOE = 27" = Some "ABC123XYZ".
Proof. reflexivity. Qed.

(** The first element of a list that passes a test. *)
Lemma find_first {A} (p : A -> bool) (l : list A) x :
  List.find p l = Some x ->
  exists l1 l2, l = l1 ++ x :: l2 /\ p x = true /\ forallb (fun y => negb (p y)) l1 = true.
Proof.
  induction l as [| y l IH]; [discriminate |]. cbn. destruct (p y) eqn:E.
  - intros [= <-]. exists [], l. repeat split; trivial.
  - intros H. destruct (IH H) as [l1 [l2 [-> [Px F]]]].
    exists (y :: l1), l2. cbn. rewrite E. repeat split; trivial.
Qed.

Lemma find_descendant_first t e d :
  ET.find_descendant t e = Some d ->
  exists before after,
    ET.descendants e = before ++ d :: after /\
    ET.tag d = t /\
    forallb (fun x => negb (ET.has_tag t x)) before = true.
Proof.
  intros H. destruct (find_first _ _ _ H) as [l1 [l2 [E [T F]]]].
  exists l1, l2. repeat split; trivial. apply String.eqb_eq, T.
Qed.

End BracketFacts.

(** ** The result parser *)
Section ParserFacts.
Context {W : Type} (P : Platform W).

(** C6.  On a well-formed payload with no [Hit] element below the root the
    parser returns four ["NA"].  Otherwise, with [hit] the first [Hit] element
    in document order, the species is the first bracketed substring of the
    text of its [Hit_def] child (["NA"] when there is none, so that
    ["some protein [Danio rerio]"] gives ["Danio rerio"]), and bit score and
    e-value are the texts of the children [Hsp_bit-score] and [Hsp_evalue] of
    the first [Hsp] element below [hit], each ["NA"] when absent. *)
Theorem parse_top_hit_spec (xml_text : string) (root : ET.element) :
  ET_fromstring P xml_text = Return root ->
  match ET.find_descendant "Hit" root with
  | None => Services.parse_top_hit P xml_text = Return ("NA", "NA", "NA", "NA")
  | Some hit =>
      (exists before after,
         ET.descendants root = before ++ hit :: after /\
         ET.tag hit = "Hit" /\
         forallb (fun e => negb (ET.has_tag "Hit" e)) before = true) /\
      exists top species bit ev,
        Services.parse_top_hit P xml_text = Return (top, species, bit, ev) /\
        let description := ET.findtext "Hit_def" "" hit in
        (Bracket.first_bracketed description species \/
         Bracket.no_bracketed description /\ species = "NA") /\
        (description = "some protein [Danio rerio]" -> species = "Danio rerio") /\
        match ET.find_descendant "Hsp" hit with
        | None => bit = "NA" /\ ev = "NA"
        | Some hsp =>
            (exists before after,
               ET.descendants hit = before ++ hsp :: after /\
               ET.tag hsp = "Hsp" /\
               forallb (fun e => negb (ET.has_tag "Hsp" e)) before = true) /\
            bit = match ET.find_child "Hsp_bit-score" hsp with
                  | Some c => default "" (ET.text c)
                  | None => "NA"
                  end /\
            ev = match ET.find_child "Hsp_evalue" hsp with
                 | Some c => default "" (ET.text c)
                 | None => "NA"
                 end
        end
  end.
Proof.
  intros Hdoc. unfold Services.parse_top_hit, Services.parse_root. rewrite Hdoc.
  destruct (ET.find_descendant "Hit" root) as [hit |] eqn:Hhit; [| reflexivity].
  split; [apply find_descendant_first, Hhit |].
  pose proof (re_search_bracket (ET.findtext "Hit_def" "" hit)) as Hs.
  assert (Hsp : match ET.find_descendant "Hsp" hit with
                | Some hsp =>
                    exists before after,
                      ET.descendants hit = before ++ hsp :: after /\
                      ET.tag hsp = "Hsp" /\
                      forallb (fun e => negb (ET.has_tag "Hsp" e)) before = true
                | None => True
                end).
  { destruct (ET.find_descendant "Hsp" hit) as [hsp |] eqn:Hhsp; [| exact I].
    apply find_descendant_first, Hhsp. }
  destruct (re_search "[" (not_char "]") "]" (ET.findtext "Hit_def" "" hit))
    as [g |] eqn:R;
    destruct (ET.find_descendant "Hsp" hit) as [hsp |];
    do 4 eexists; (split; [reflexivity |]); cbn zeta;
    (split; [first [left; exact Hs | right; split; [exact Hs | reflexivity]] |]);
    (split; [intros D; rewrite D in R; cbn in R; congruence |]);
    repeat split; try reflexivity; exact Hsp.
Qed.

End ParserFacts.

(** ** The gene symbol lookup *)
Section GeneFacts.
Context {W : Type} (P : Platform W).

(** C7.  [fetch_gene_symbol] returns a string from every state of the world
    and never raises: when the request raises, when [raise_for_status]
    raises, and when the page has no [/gene="..."] entry, the string is
    ["NA"]; otherwise it is the quoted gene symbol. *)
Theorem fetch_gene_symbol_never_raises (accession : string) (w : W) :
  (exists g w', Services.fetch_gene_symbol P accession w = Some (Return g, w')) /\
  Services.fetch_gene_symbol P accession w =
  match
    requests_get P "https://eutils.ncbi.nlm.nih.gov/entrez/eutils/efetch.fcgi"
      [("db", "protein"); ("id", accession); ("rettype", "gb");
       ("retmode", "text"); ("email", Services.EMAIL)] 10 w
  with
  | (Raise _, w') => Some (Return "NA", w')
  | (Return r, w') =>
      match raise_for_status r with
      | Raise _ => Some (Return "NA", w')
      | Return _ =>
          Some (Return
                  (default "NA"
                     (re_search ("/gene=" +:+ String Services.dquote "")
                        (not_char Services.dquote) (String Services.dquote "") (text r))),
                w')
      end
  end.
Proof.
  unfold Services.fetch_gene_symbol, bind, try_except, call, pure, ret.
  destruct (requests_get P _ _ 10 w) as [[r | e] w'].
  - destruct (raise_for_status r) as [[] | e].
    + destruct (re_search _ _ _ (text r)) as [g |]; (split; [eauto | reflexivity]).
    + split; [eauto | reflexivity].
  - split; [eauto | reflexivity].
Qed.

End GeneFacts.

(** ** The CSV export *)
Section CsvFacts.
Context {W : Type} (P : Platform W).
Import Database.

Lemma map_lookup {A B} (f : A -> B) (l : list A) (k : nat) :
  List.map f l !! k = f <$> (l !! k).
Proof.
  revert k. induction l as [| x l IH]; intros [| k]; try reflexivity. apply IH.
Qed.

Lemma append_assoc (a b c : string) : (a +:+ b) +:+ c = a +:+ (b +:+ c).
Proof.
  induction a as [| x a IH]; [reflexivity |].
  change ((String x a +:+ b) +:+ c) with (String x ((a +:+ b) +:+ c)).
  rewrite IH. reflexivity.
Qed.

Lemma csv_values_fields (r : result) :
  App.csv_values r =
  [default "NA" (accession r); default "NA" (top_hit r); default "NA" (gene r);
   default "NA" (species r); default "NA" (bit_score r); default "NA" (evalue r)].
Proof.
  destruct r as [i j a t g s b e].
  destruct a, t, g, s, b, e; reflexivity.
Qed.

(** C8.  When the database answers, the export yields the header line
    [accession,top_hit,gene,species,bit_score,evalue] and then one line per
    stored row of the job, in order, each the six columns joined by commas
    with ["NA"] for a null column; every line ends with a newline.  For a
    job whose only row is the NO_HITS row of accession [acc], the one data
    line is [acc,No hit,No hit,No hit,No hit,No hit]. *)
Theorem download_csv_lines (sess : App.session) (job_id : string) (w w' : W) (st : store) :
  db_transaction P w = (Return tt, w') ->
  exists resp lines,
    App.download_csv P sess job_id (w, st) = (Return resp, w') /\
    App.content resp =
      App.Stream (("accession,top_hit,gene,species,bit_score,evalue" +:+ App.newline)
                  :: lines) /\
    length lines = length (select_results job_id st) /\
    (forall k r,
       select_results job_id st !! k = Some r ->
       lines !! k =
       Some (join ","
               [default "NA" (accession r); default "NA" (top_hit r);
                default "NA" (gene r); default "NA" (species r);
                default "NA" (bit_score r); default "NA" (evalue r)]
             +:+ App.newline)) /\
    (forall i acc,
       select_results job_id st =
         [mk_result i job_id (Some acc) (Some "No hit") (Some "No hit")
            (Some "No hit") (Some "No hit") (Some "No hit")] ->
       lines = [acc +:+ ",No hit,No hit,No hit,No hit,No hit" +:+ App.newline]).
Proof.
  intros Hdb. unfold App.download_csv. rewrite Hdb.
  eexists. exists (List.map (fun r => join "," (App.csv_values r) +:+ App.newline)
                     (select_results job_id st)).
  split; [reflexivity |]. split; [reflexivity |]. split; [apply length_map |]. split.
  - intros k r Hk. rewrite map_lookup, Hk. cbn [fmap option_fmap option_map].
    rewrite csv_values_fields. reflexivity.
  - intros i acc E. rewrite E. cbn [List.map]. rewrite csv_values_fields.
    cbn [accession top_hit gene species bit_score evalue default].
    f_equal. cbn [join]. rewrite append_assoc. reflexivity.
Qed.

(** *** Commas inside a column *)

Lemma split_nonempty sep s : (1 <= length (App.split sep s))%nat.
Proof.
  induction s as [| c s IH]; [cbn; lia |]. cbn [App.split].
  destruct (Ascii.eqb c sep); [cbn; lia |].
  destruct (App.split sep s); cbn in *; lia.
Qed.

Lemma split_cons_length sep c s :
  length (App.split sep (String c s)) =
  if Ascii.eqb c sep then S (length (App.split sep s)) else length (App.split sep s).
Proof.
  cbn [App.split]. destruct (Ascii.eqb c sep); [reflexivity |].
  pose proof (split_nonempty sep s). destruct (App.split sep s); cbn in *; lia.
Qed.

Lemma split_append_sep sep a b :
  length (App.split sep (a +:+ String sep b)) =
  (length (App.split sep a) + length (App.split sep b))%nat.
Proof.
  induction a as [| c a IH].
  - change ("" +:+ String sep b) with (String sep b).
    rewrite split_cons_length, Ascii.eqb_refl. reflexivity.
  - change (String c a +:+ String sep b) with (String c (a +:+ String sep b)).
    rewrite !split_cons_length, IH. destruct (Ascii.eqb c sep); lia.
Qed.

Lemma split_join sep a b :
  length (App.split sep (a +:+ String sep "" +:+ b)) =
  (length (App.split sep a) + length (App.split sep b))%nat.
Proof. apply split_append_sep. Qed.

Lemma split_contains sep s :
  contains (String sep "") s = true -> (2 <= length (App.split sep s))%nat.
Proof.
  induction s as [| c s IH]; [discriminate |].
  rewrite split_cons_length. pose proof (split_nonempty sep s).
  change (contains (String sep "") (String c s))
    with ((if Ascii.eqb sep c then true else false) || contains (String sep "") s).
  rewrite (Ascii.eqb_sym sep c). destruct (Ascii.eqb c sep); [lia |].
  cbn [orb]. intros H'. specialize (IH H'). lia.
Qed.

Lemma join_six_fields (a b c d e f : string) :
  length (App.split "," (join "," [a; b; c; d; e; f])) =
  (length (App.split "," a) + length (App.split "," b) + length (App.split "," c)
   + length (App.split "," d) + length (App.split "," e) + length (App.split "," f))%nat.
Proof.
  cbn [join]. rewrite !split_join. lia.
Qed.

(** C10.  The export joins the columns with commas and quotes or escapes
    nothing: the line of a stored row is its six columns as they are stored,
    joined by commas and followed by a newline.  So while the header line has
    six comma-separated fields, the line of a row whose species contains a
    comma has more than six. *)
Theorem csv_row_misaligned (sess : App.session) (job_id : string) (w w' : W) (st : store)
    (k : nat) (r : result) (sp : string) :
  db_transaction P w = (Return tt, w') ->
  select_results job_id st !! k = Some r ->
  species r = Some sp ->
  contains "," sp = true ->
  let header := "accession,top_hit,gene,species,bit_score,evalue" in
  let line :=
    join ","
      [default "NA" (accession r); default "NA" (top_hit r); default "NA" (gene r);
       sp; default "NA" (bit_score r); default "NA" (evalue r)] in
  exists resp lines,
    App.download_csv P sess job_id (w, st) = (Return resp, w') /\
    App.content resp = App.Stream ((header +:+ App.newline) :: lines) /\
    lines !! k = Some (line +:+ App.newline) /\
    length (App.split "," header) = 6%nat /\
    (6 < length (App.split "," line))%nat.
Proof.
  intros Hdb Hk Hsp Hc header line. unfold App.download_csv. rewrite Hdb.
  eexists.
  exists (List.map (fun r => join "," (App.csv_values r) +:+ App.newline)
            (select_results job_id st)).
  split; [reflexivity |]. split; [reflexivity |].
  split.
  { rewrite map_lookup, Hk. cbn [fmap option_fmap option_map].
    rewrite csv_values_fields, Hsp. reflexivity. }
  split; [reflexivity |].
  subst line. rewrite join_six_fields.
  pose proof (split_contains "," sp Hc).
  pose proof (split_nonempty "," (default "NA" (accession r))).
  pose proof (split_nonempty "," (default "NA" (top_hit r))).
  pose proof (split_nonempty "," (default "NA" (gene r))).
  pose proof (split_nonempty "," (default "NA" (bit_score r))).
  pose proof (split_nonempty "," (default "NA" (evalue r))).
  lia.
Qed.

(** C9.  The three read endpoints never look at the session: for any two
    requesters their answers are the same.  In particular a requester who is
    not logged in is given the progress and status of any job that exists,
    and all its result rows, as a page and as CSV lines. *)
Theorem read_endpoints_ignore_requester (s1 s2 : App.session) (job_id : string)
    (w : W) (st : store) :
  App.status P s1 job_id (w, st) = App.status P s2 job_id (w, st) /\
  App.results P s1 job_id (w, st) = App.results P s2 job_id (w, st) /\
  App.download_csv P s1 job_id (w, st) = App.download_csv P s2 job_id (w, st) /\
  let anonymous := App.mk_session None None in
  forall w',
    db_transaction P w = (Return tt, w') ->
    (forall j,
       jobs st !! job_id = Some j ->
       App.status P anonymous job_id (w, st) =
       (Return (App.mk_http_response 200 []
                  (App.Json [("progress", App.JInt (progress j));
                              ("status", App.JStr (status j))])), w')) /\
    App.results P anonymous job_id (w, st) =
    (Return (App.mk_http_response 200 []
               (App.ResultsPage (select_results job_id st) job_id)), w') /\
    exists hd, 
      App.download_csv P anonymous job_id (w, st) =
      (Return (App.mk_http_response 200 hd
                 (App.Stream (App.generate (select_results job_id st)))), w').
Proof.
  split; [reflexivity |]. split; [reflexivity |]. split; [reflexivity |].
  intros anonymous w' Hdb. unfold App.status, App.results, App.download_csv, select_job.
  rewrite Hdb. split; [| split].
  - intros j Hj. rewrite Hj. reflexivity.
  - reflexivity.
  - eexists. reflexivity.
Qed.

(** The deletion endpoint, for contrast, does depend on who asks. *)
Lemma delete_job_depends_on_requester (job_id : string) (w : W) (st : store) :
  fst (App.delete_job P (App.mk_session None None) job_id (w, st)) =
  Return (App.mk_http_response 403 [] (App.Text "Unauthorized")).
Proof. reflexivity. Qed.

End CsvFacts.

(** ** The job runner *)
Section RunnerFacts.
Context {W : Type} (P : Platform W).
Import Database.

(** *** Database blocks *)

Lemma transaction_cases stmts (w : W) st o w' st' :
  App.transaction P stmts (w, st) = (o, (w', st')) ->
  st' = st \/ (o = Return tt /\ fst (db_transaction P w) = Return tt /\ stmts st = Return st').
Proof.
  unfold App.transaction. destruct (db_transaction P w) as [[[] | e] w1].
  - destruct (stmts st) as [st1 | e].
    + intros [= <- <- <-]. right. repeat split.
    + intros [= <- <- <-]. left. reflexivity.
  - intros [= <- <- <-]. left. reflexivity.
Qed.

Lemma transaction_commits stmts (w : W) st st' :
  fst (db_transaction P w) = Return tt -> stmts st = Return st' ->
  App.transaction P stmts (w, st) = (Return tt, (snd (db_transaction P w), st')).
Proof.
  unfold App.transaction. destruct (db_transaction P w) as [[[] | e] w1]; cbn [fst snd].
  - intros _ ->. reflexivity.
  - discriminate.
Qed.

Lemma jobs_update_status_progress jid s p st :
  jobs (update_status_progress jid s p st) !! jid =
  (fun j => mk_job (user_id j) (organism j) p s) <$> jobs st !! jid.
Proof. apply lookup_alter_eq. Qed.

Lemma jobs_update_progress jid p st :
  jobs (update_progress jid p st) !! jid =
  (fun j => mk_job (user_id j) (organism j) p (status j)) <$> jobs st !! jid.
Proof. apply lookup_alter_eq. Qed.

Lemma select_results_insert jid acc th g sp bs ev st :
  select_results jid (insert_result jid acc th g sp bs ev st) =
  select_results jid st ++
  [mk_result (results_seq st + 1) jid (Some acc) (Some th) (Some g) (Some sp)
     (Some bs) (Some ev)].
Proof.
  unfold select_results, insert_result. cbn [results].
  rewrite List.filter_app. cbn [List.filter job_id]. rewrite String.eqb_refl. reflexivity.
Qed.

(** *** The percentage *)

Lemma progress_bound_next total i :
  (i < total)%nat -> App.percent i total = Return (App.progress_bound total (S i)).
Proof.
  intros H. rewrite percent_pct by lia. unfold App.progress_bound.
  rewrite Nat2Z.inj_succ. reflexivity.
Qed.

Lemma progress_bound_mono total i k :
  (i <= k <= total)%nat -> App.progress_bound total i <= App.progress_bound total k.
Proof.
  intros [Hik Hk]. unfold App.progress_bound. destruct i as [| i], k as [| k]; try lia.
  - apply pct_nonneg; lia.
  - apply pct_mono; lia.
Qed.

Lemma progress_bound_full total : (0 < total)%nat -> App.progress_bound total total = 100.
Proof.
  intros H. unfold App.progress_bound. destruct total; [lia |]. apply pct_full. lia.
Qed.

Lemma progress_bound_le_100 total i : (i <= total)%nat -> App.progress_bound total i <= 100.
Proof.
  intros H. destruct total as [| total].
  - replace i with 0%nat by lia. cbn. lia.
  - rewrite <- (progress_bound_full (S total)) by lia. apply progress_bound_mono. lia.
Qed.

(** *** The first [try] of the loop *)

Lemma search_fetch_fails fuel job_id acc taxid timeout w e w' :
  Services.fetch_fasta P acc (time_sleep P 3 w) = Some (Raise e, w') ->
  App.search P fuel job_id acc taxid timeout w = Some (Raise e, w').
Proof. intros H. unfold App.search, bind, App.sleep. rewrite H. reflexivity. Qed.

Lemma search_submit_fails fuel job_id acc taxid timeout w fasta w1 e w' :
  Services.fetch_fasta P acc (time_sleep P 3 w) = Some (Return fasta, w1) ->
  Services.submit_blast P fasta taxid w1 = Some (Raise e, w') ->
  App.search P fuel job_id acc taxid timeout w = Some (Raise e, w').
Proof.
  intros H1 H2. unfold App.search, bind, App.sleep. rewrite H1, H2. reflexivity.
Qed.

Lemma wait_for_blast_None fuel rid w :
  Services.wait_for_blast P (S fuel) rid None w =
  Some (Raise (mk_exn TypeError
                 "'>' not supported between instances of 'NoneType' and 'int'"), w).
Proof. reflexivity. Qed.

(** With a budget of zero the runner passes [None] to the poll loop, whose
    first comparison raises: the accession is recorded as an error and no
    status check is made. *)
Lemma process_accession_zero_budget fuel job_id acc taxid w fasta w1 rid w2 :
  Services.fetch_fasta P acc (time_sleep P 3 w) = Some (Return fasta, w1) ->
  Services.submit_blast P fasta taxid w1 = Some (Return rid, w2) ->
  App.process_accession P (S fuel) job_id acc taxid 0 w =
  Some (App.mk_fields "ERROR" "ERROR"
          "'>' not supported between instances of 'NoneType' and 'int'" "NA" "NA", w2).
Proof.
  intros H1 H2. unfold App.process_accession, App.search, bind, App.sleep.
  rewrite H1, H2. cbn [Z.eqb]. rewrite wait_for_blast_None. reflexivity.
Qed.

(** *** Along the life of a job *)

(** The row [run] inserts is the start of a life. *)
Lemma create_job_spawned job_id user org (w w' : W) st st' :
  App.create_job P job_id user org (w, st) = (Return tt, (w', st')) ->
  App.spawned job_id (App.mk_runner App.AtStart w' st') /\
  select_results job_id st' = select_results job_id st.
Proof.
  unfold App.create_job, App.transaction.
  destruct (db_transaction P w) as [[[] | e] w1]; [| discriminate].
  unfold insert_job. destruct (jobs st !! job_id); [discriminate |].
  intros [= <- <-]. split; [| reflexivity].
  split; [reflexivity |]. exists user, org. apply lookup_insert_eq.
Qed.

Lemma spawned_on_track job_id accessions (r : @App.runner W) :
  App.spawned job_id r -> App.on_track job_id accessions r.
Proof.
  intros [Hp [user [org Hj]]]. exists (mk_job user org 0 "RUNNING").
  split; [exact Hj |]. rewrite Hp. split; reflexivity.
Qed.

Lemma mark_running_cases job_id (w : W) st o w1 st1 :
  App.mark_running P job_id (w, st) = (o, (w1, st1)) ->
  st1 = st \/ st1 = update_status_progress job_id "RUNNING" 0 st.
Proof.
  intros H. apply transaction_cases in H. destruct H as [H | [_ [_ H]]]; [left; exact H |].
  right. congruence.
Qed.

Lemma mark_done_cases job_id (w : W) st :
  snd (App.mark_done P job_id (w, st)) = st \/
  fst (db_transaction P w) = Return tt /\
  snd (App.mark_done P job_id (w, st)) = update_status_progress job_id "DONE" 100 st.
Proof.
  unfold App.mark_done.
  destruct (App.transaction P _ (w, st)) as [o [w1 st1]] eqn:T. cbn [snd].
  apply transaction_cases in T. destruct T as [T | [_ [D T]]]; [left; exact T |].
  right. split; [exact D | congruence].
Qed.

Lemma save_result_cases job_id acc f i total (w : W) st :
  snd (App.save_result P job_id acc f i total (w, st)) = st \/
  exists p,
    fst (db_transaction P w) = Return tt /\
    App.percent i total = Return p /\
    snd (App.save_result P job_id acc f i total (w, st)) =
    update_progress job_id p
      (insert_result job_id acc (App.f_top_hit f) (App.f_gene f) (App.f_species f)
         (App.f_bit_score f) (App.f_evalue f) st).
Proof.
  unfold App.save_result.
  destruct (App.transaction P _ (w, st)) as [o [w1 st1]] eqn:T. cbn [snd].
  apply transaction_cases in T. destruct T as [T | [_ [D T]]]; [left; exact T |].
  right. unfold App.save_stmts in T.
  destruct (App.percent i total) as [p | e]; [| discriminate].
  exists p. split; [exact D |]. split; [reflexivity | congruence].
Qed.

Lemma step_on_track fuel job_id accessions taxid timeout r r' :
  App.on_track job_id accessions r ->
  App.step P fuel job_id accessions taxid timeout r = Some r' ->
  App.on_track job_id accessions r' /\
  forall j j',
    jobs (App.db r) !! job_id = Some j -> jobs (App.db r') !! job_id = Some j' ->
    progress j <= progress j'.
Proof.
  destruct r as [p w st]. intros [j [Hj Hp]] Hstep.
  unfold App.step in Hstep. cbn [App.at_point App.world App.db] in *.
  destruct p as [| i [| acc rest] |].
  - destruct Hp as [Hp Hs].
    destruct (App.mark_running P job_id (w, st)) as [o [w1 st1]] eqn:M.
    apply mark_running_cases in M.
    assert (Hj1 : exists j1, jobs st1 !! job_id = Some j1 /\
                             progress j1 = 0 /\ status j1 = "RUNNING").
    { destruct M as [-> | ->].
      - exists j. auto.
      - rewrite jobs_update_status_progress, Hj. eexists. split; [reflexivity |]. auto. }
    destruct Hj1 as [j1 [Hj1 [Hp1 Hs1]]].
    assert (Hmono : forall j0 j', jobs st !! job_id = Some j0 ->
                                  jobs st1 !! job_id = Some j' ->
                                  progress j0 <= progress j').
    { intros j0 j' Hj0 Hj'. rewrite Hj in Hj0. injection Hj0 as <-.
      rewrite Hj1 in Hj'. injection Hj' as <-. lia. }
    destruct o as [[] | e]; injection Hstep as <-; cbn [App.runner_of App.db fst snd];
      (split; [| exact Hmono]); exists j1; (split; [exact Hj1 |]);
      cbn [App.runner_of App.at_point].
    + split; [reflexivity |]. split; [exact Hs1 |]. cbn. lia.
    + right. split; [exact Hs1 | lia].
  - destruct Hp as [Hlen [Hs Hb]]. injection Hstep as <-. unfold App.on_track.
    cbn [App.runner_of App.db App.at_point]. cbn [length] in Hlen.
    pose proof (progress_bound_le_100 (length accessions) i ltac:(lia)) as H100.
    destruct (mark_done_cases job_id w st) as [E | [_ E]]; rewrite E.
    + split.
      * exists j. split; [exact Hj |]. right. split; [exact Hs | lia].
      * intros j0 j' Hj0 Hj'. rewrite Hj in Hj0. injection Hj0 as <-. rewrite Hj in Hj'. injection Hj' as <-. lia.
    + split.
      * rewrite jobs_update_status_progress, Hj. eexists. split; [reflexivity |].
        left. split; reflexivity.
      * intros j0 j' Hj0 Hj'. rewrite Hj in Hj0. injection Hj0 as <-. rewrite jobs_update_status_progress, Hj in Hj'.
        injection Hj' as <-. cbn [progress]. lia.
  - destruct Hp as [Hlen [Hs Hb]]. cbn [length] in Hlen.
    unfold App.iteration in Hstep. cbn [fst snd] in Hstep.
    destruct (App.process_accession P fuel job_id acc taxid timeout w) as [[f w1] |];
      [| discriminate].
    injection Hstep as <-. unfold App.on_track.
    cbn [App.runner_of App.db App.at_point].
    pose proof (progress_bound_mono (length accessions) i (S i) ltac:(lia)) as Hm.
    destruct (save_result_cases job_id acc f i (length accessions) w1 st)
      as [E | [p [_ [Hpct E]]]]; rewrite E.
    + split.
      * exists j. split; [exact Hj |]. split; [lia |]. split; [exact Hs | lia].
      * intros j0 j' Hj0 Hj'. rewrite Hj in Hj0. injection Hj0 as <-. rewrite Hj in Hj'. injection Hj' as <-. lia.
    + rewrite progress_bound_next in Hpct by lia. injection Hpct as <-.
      assert (L : jobs (update_progress job_id
                          (App.progress_bound (length accessions) (S i))
                          (insert_result job_id acc (App.f_top_hit f) (App.f_gene f)
                             (App.f_species f) (App.f_bit_score f) (App.f_evalue f) st))
                  !! job_id
                  = Some (mk_job (user_id j) (organism j)
                            (App.progress_bound (length accessions) (S i)) (status j))).
      { rewrite jobs_update_progress. cbn [insert_result jobs]. rewrite Hj. reflexivity. }
      split.
      * eexists. split; [exact L |]. split; [lia |]. split; [exact Hs |]. cbn [progress]. lia.
      * intros j0 j' Hj0 Hj'. rewrite Hj in Hj0. injection Hj0 as <-.
        assert (E' : Some j' = Some (mk_job (user_id j) (organism j)
                                       (App.progress_bound (length accessions) (S i))
                                       (status j)))
          by (rewrite <- Hj'; exact L).
        injection E' as ->.
        change (progress j <= App.progress_bound (length accessions) (S i)). lia.
  - discriminate Hstep.
Qed.

Lemma reach_on_track job_id accessions taxid timeout r r' :
  App.on_track job_id accessions r ->
  App.reach P job_id accessions taxid timeout r r' ->
  App.on_track job_id accessions r' /\
  forall j j',
    jobs (App.db r) !! job_id = Some j -> jobs (App.db r') !! job_id = Some j' ->
    progress j <= progress j'.
Proof.
  intros Hr Hreach. induction Hreach as [r | fuel r1 r2 r3 _ IH Hstep].
  - split; [exact Hr |]. intros j j' Hj Hj'. rewrite Hj in Hj'. injection Hj' as <-. lia.
  - destruct (IH Hr) as [H2 Hmono].
    destruct (step_on_track _ _ _ _ _ _ _ H2 Hstep) as [H3 Hmono'].
    split; [exact H3 |]. intros j j' Hj Hj'.
    destruct H2 as [j2 [Hj2 _]].
    specialize (Hmono j j2 Hj Hj2). specialize (Hmono' j2 j' Hj2 Hj'). lia.
Qed.

Lemma reach_trans job_id accessions taxid timeout r1 r2 r3 :
  App.reach P job_id accessions taxid timeout r1 r2 ->
  App.reach P job_id accessions taxid timeout r2 r3 ->
  App.reach P job_id accessions taxid timeout r1 r3.
Proof.
  intros H12 H23. induction H23 as [r | fuel r2 r3 r4 _ IH Hstep]; [exact H12 |].
  eapply App.reach_step; [apply IH, H12 | exact Hstep].
Qed.

(** *** When every database block commits *)

Lemma mark_running_commits job_id (w : W) st :
  App.store_writes_succeed P ->
  App.mark_running P job_id (w, st) =
  (Return tt, (snd (db_transaction P w), update_status_progress job_id "RUNNING" 0 st)).
Proof. intros H. apply transaction_commits; [apply H | reflexivity]. Qed.

Lemma mark_done_commits job_id (w : W) st :
  App.store_writes_succeed P ->
  App.mark_done P job_id (w, st) =
  (snd (db_transaction P w), update_status_progress job_id "DONE" 100 st).
Proof.
  intros H. unfold App.mark_done.
  erewrite transaction_commits; [reflexivity | apply H | reflexivity].
Qed.

Lemma save_result_commits job_id acc f i total (w : W) st :
  App.store_writes_succeed P -> (i < total)%nat ->
  App.save_result P job_id acc f i total (w, st) =
  (snd (db_transaction P w),
   update_progress job_id (App.progress_bound total (S i))
     (insert_result job_id acc (App.f_top_hit f) (App.f_gene f) (App.f_species f)
        (App.f_bit_score f) (App.f_evalue f) st)).
Proof.
  intros H Hi. unfold App.save_result.
  erewrite transaction_commits; [reflexivity | apply H |].
  unfold App.save_stmts. rewrite progress_bound_next by exact Hi. reflexivity.
Qed.

Lemma step_rows_on_track fuel job_id accessions taxid timeout r r' :
  App.store_writes_succeed P ->
  App.on_track job_id accessions r ->
  App.rows_on_track job_id accessions r ->
  App.step P fuel job_id accessions taxid timeout r = Some r' ->
  App.rows_on_track job_id accessions r'.
Proof.
  intros Hw. destruct r as [p w st]. intros [j [Hj Hp]] Hrows Hstep.
  unfold App.step in Hstep. unfold App.rows_on_track in *.
  cbn [App.at_point App.world App.db] in *.
  destruct p as [| i [| acc rest] |].
  - rewrite mark_running_commits in Hstep by exact Hw. injection Hstep as <-.
    cbn [App.runner_of App.at_point App.db fst snd].
    split; [| reflexivity]. change (length (select_results job_id st) = 0%nat).
    rewrite Hrows. reflexivity.
  - rewrite mark_done_commits in Hstep by exact Hw. injection Hstep as <-.
    cbn [App.runner_of App.at_point App.db fst snd]. destruct Hrows as [Hc Hlen].
    cbn [length] in Hlen. split.
    + change (length (select_results job_id st) = length accessions). lia.
    + rewrite jobs_update_status_progress, Hj. eexists. split; reflexivity.
  - destruct Hrows as [Hc Hlen]. cbn [length] in Hlen.
    unfold App.iteration in Hstep. cbn [fst snd] in Hstep.
    destruct (App.process_accession P fuel job_id acc taxid timeout w) as [[f w1] |];
      [| discriminate].
    rewrite save_result_commits in Hstep by (exact Hw || lia). injection Hstep as <-.
    cbn [App.runner_of App.at_point App.db fst snd]. split; [| lia].
    change (length (select_results job_id
                      (insert_result job_id acc (App.f_top_hit f) (App.f_gene f)
                         (App.f_species f) (App.f_bit_score f) (App.f_evalue f) st))
            = S i).
    rewrite select_results_insert, length_app, Hc. cbn [length]. lia.
  - discriminate Hstep.
Qed.

Lemma reach_rows_on_track job_id accessions taxid timeout r r' :
  App.store_writes_succeed P ->
  App.on_track job_id accessions r ->
  App.rows_on_track job_id accessions r ->
  App.reach P job_id accessions taxid timeout r r' ->
  App.on_track job_id accessions r' /\ App.rows_on_track job_id accessions r'.
Proof.
  intros Hw Ht Hr Hreach. induction Hreach as [r | fuel r1 r2 r3 _ IH Hstep].
  - split; assumption.
  - destruct (IH Ht Hr) as [Ht2 Hr2]. split.
    + eapply step_on_track; eassumption.
    + eapply step_rows_on_track; eassumption.
Qed.

(** *** [run_blast_job] goes through the steps *)

Lemma for_accessions_reach fuel job_id accessions taxid timeout r0 rest :
  forall i s s',
    App.for_accessions P fuel job_id taxid timeout (length accessions) i rest s = Some s' ->
    App.reach P job_id accessions taxid timeout r0 (App.runner_of (App.InLoop i rest) s) ->
    exists k,
      App.reach P job_id accessions taxid timeout r0 (App.runner_of (App.InLoop k []) s').
Proof.
  induction rest as [| acc rest IH]; intros i s s' H Hr.
  - injection H as <-. exists i. exact Hr.
  - cbn [App.for_accessions] in H.
    destruct (App.iteration P fuel job_id taxid timeout (length accessions) i acc s)
      as [s1 |] eqn:It; [| discriminate].
    apply (IH (S i) s1 s' H).
    eapply App.reach_step; [exact Hr |].
    unfold App.step. cbn [App.runner_of App.at_point App.world App.db].
    destruct s as [w st]. cbn [fst snd]. rewrite It. reflexivity.
Qed.

Lemma run_blast_job_reach fuel job_id accessions taxid timeout (w w' : W) st st' :
  App.run_blast_job P fuel job_id accessions taxid timeout (w, st) = Some (w', st') ->
  App.reach P job_id accessions taxid timeout
    (App.mk_runner App.AtStart w st) (App.mk_runner App.Returned w' st').
Proof.
  unfold App.run_blast_job. intros H.
  destruct (App.mark_running P job_id (w, st)) as [o s1] eqn:M.
  assert (S1 : forall p,
             App.step P fuel job_id accessions taxid timeout (App.mk_runner App.AtStart w st)
             = Some p ->
             App.reach P job_id accessions taxid timeout (App.mk_runner App.AtStart w st) p).
  { intros p Hp. eapply App.reach_step; [apply App.reach_refl | exact Hp]. }
  unfold App.step in S1. cbn [App.at_point App.world App.db] in S1. rewrite M in S1.
  destruct o as [[] | e].
  - destruct (App.for_accessions P fuel job_id taxid timeout (length accessions) 0
                accessions s1) as [s2 |] eqn:F; [| discriminate].
    injection H as H.
    destruct (for_accessions_reach _ _ _ _ _ _ _ _ _ _ F (S1 _ eq_refl)) as [k Hk].
    replace (App.mk_runner App.Returned w' st')
      with (App.runner_of App.Returned (App.mark_done P job_id s2))
      by (rewrite H; reflexivity).
    eapply (App.reach_step P _ _ _ _ fuel); [exact Hk |].
    unfold App.step. cbn [App.runner_of App.at_point App.world App.db].
    destruct s2 as [w2 st2]. reflexivity.
  - injection H as ->. apply (S1 _ eq_refl).
Qed.

(** C3.  When every database block commits and no result row carries the
    identifier of the job when it is created: whenever the row of the job
    says DONE, the job has as many result rows as accessions were submitted
    (the loop adds one per accession before the row is marked DONE); and a
    call of [run_blast_job] that returns leaves the job DONE with that many
    rows. *)
Theorem done_job_has_a_row_per_accession (job_id : string) (accessions : list string)
    (taxid : string) (timeout : Z) (r0 : @App.runner W) :
  App.store_writes_succeed P ->
  App.spawned job_id r0 ->
  select_results job_id (App.db r0) = [] ->
  (forall r j,
     App.reach P job_id accessions taxid timeout r0 r ->
     jobs (App.db r) !! job_id = Some j ->
     status j = "DONE" ->
     length (select_results job_id (App.db r)) = length accessions) /\
  (forall fuel w' st',
     App.run_blast_job P fuel job_id accessions taxid timeout (App.world r0, App.db r0)
     = Some (w', st') ->
     (exists j, jobs st' !! job_id = Some j /\ status j = "DONE") /\
     length (select_results job_id st') = length accessions).
Proof.
  intros Hw Hs Hnone.
  assert (Hr0 : App.rows_on_track job_id accessions r0).
  { unfold App.rows_on_track. destruct Hs as [-> _]. exact Hnone. }
  pose proof (spawned_on_track _ accessions _ Hs) as Ht0. split.
  - intros r j Hreach Hj Hdone.
    destruct (reach_rows_on_track _ _ _ _ _ _ Hw Ht0 Hr0 Hreach) as [[j1 [Hj1 Ht]] Hr].
    rewrite Hj in Hj1. injection Hj1 as <-. unfold App.rows_on_track in Hr.
    destruct (App.at_point r) as [| i rest |].
    + destruct Ht as [_ Hst]. rewrite Hst in Hdone. discriminate.
    + destruct Ht as [_ [Hst _]]. rewrite Hst in Hdone. discriminate.
    + apply Hr.
  - intros fuel w' st' Hrun. destruct r0 as [p0 w0 st0]. destruct Hs as [Hp0 Hs].
    cbn [App.at_point App.world App.db] in *. subst p0.
    apply run_blast_job_reach in Hrun.
    destruct (reach_rows_on_track _ _ _ _ _ _ Hw Ht0 Hr0 Hrun) as [_ Hr].
    unfold App.rows_on_track in Hr. cbn [App.at_point App.db] in Hr.
    destruct Hr as [Hlen Hj]. split; assumption.
Qed.

End RunnerFacts.

(** ** The code at work on the simulated world *)
Section Scenarios.
Import Database.

Ltac by_running := vm_compute; reflexivity.

Lemma run_steps_reach {W} (P : Platform W) fuel job_id accessions taxid timeout n :
  forall r r',
    App.run_steps P fuel job_id accessions taxid timeout n r = Some r' ->
    App.reach P job_id accessions taxid timeout r r'.
Proof.
  induction n as [| n IH]; intros r r' H.
  - injection H as <-. apply App.reach_refl.
  - cbn [App.run_steps] in H.
    destruct (App.step P fuel job_id accessions taxid timeout r) as [r1 |] eqn:S1;
      [| discriminate].
    eapply reach_trans; [| apply IH, H].
    eapply App.reach_step; [apply App.reach_refl | exact S1].
Qed.

Lemma sim_clock_laws sc : App.clock_laws (Sim.platform sc).
Proof.
  split.
  - intros d w. apply Qle_refl.
  - intros url params t w. cbn [requests_get Sim.platform time_time].
    destruct (String.eqb url Services.BLAST_URL).
    + destruct (existsb _ params); apply Qle_refl.
    + destruct (startswith _ url); apply Qle_refl.
Qed.

Lemma stuck_never_terminal rid : App.never_terminal (Sim.platform Sim.stuck) rid.
Proof.
  intros w r w'. cbn. destruct (Nat.even (Sim.checks w)); [| discriminate].
  intros [= <- _]. split; reflexivity.
Qed.

Lemma spawn_spawned job_id : App.spawned job_id (Sim.spawn job_id).
Proof.
  split; [reflexivity |]. exists 1, "human". apply lookup_singleton_eq.
Qed.

Lemma sim_writes_succeed : App.store_writes_succeed (Sim.platform Sim.ready).
Proof. intros w. reflexivity. Qed.

(** The poll loop of C5 run with a budget of 5: it gives up at the second
    reading of the clock, 8 after the first. *)
Example stuck_search_times_out :
  Services.wait_for_blast (Sim.platform Sim.stuck) 10 "ABC123XYZ" (Some 5) Sim.start
  = Some (Return "TIMEOUT", Sim.mk_world 8 1).
Proof. by_running. Qed.

Lemma wait_for_blast_times_out_witness :
  (exists n w',
     (forall fuel, (n <= fuel)%nat ->
        Services.wait_for_blast (Sim.platform Sim.stuck) fuel "ABC123XYZ" (Some 5) Sim.start
        = Some (Return "TIMEOUT", w')) /\
     (inject_Z 5 < float_sub (Sim.now w') (Sim.now Sim.start))%Q) /\
  (inject_Z 5 < Sim.now (Sim.mk_world 8 1) - Sim.now Sim.start)%Q.
Proof.
  destruct (wait_for_blast_times_out (Sim.platform Sim.stuck) "ABC123XYZ" 5 Sim.start
              (sim_clock_laws Sim.stuck) (stuck_never_terminal "ABC123XYZ") ltac:(lia))
    as [H1 H2].
  split; [exact H1 |].
  destruct (H2 10%nat _ _ stuck_search_times_out) as [_ [_ H3]].
  apply H3. lia.
Defined.

Lemma parse_top_hit_spec_witness :
  ET_fromstring (Sim.platform Sim.ready) "<BlastOutput>...</BlastOutput>"
  = Return Sim.blast_xml /\
  exists top bit ev,
    Services.parse_top_hit (Sim.platform Sim.ready) "<BlastOutput>...</BlastOutput>"
    = Return (top, "Danio rerio", bit, ev).
Proof.
  split; [reflexivity |].
  pose proof (parse_top_hit_spec (Sim.platform Sim.ready)
                "<BlastOutput>...</BlastOutput>" Sim.blast_xml eq_refl) as H.
  change (ET.find_descendant "Hit" Sim.blast_xml) with (Some Sim.hit_xml) in H.
  destruct H as [_ [top [species [bit [ev [E [_ [D _]]]]]]]].
  rewrite (D eq_refl) in E. exists top, bit, ev. exact E.
Defined.

(** With a positive budget the same service gives the NA row, at the third
    check.  What is shown of a run: the world, the result rows, the job row. *)
Example failed_search_with_budget :
  option_map (fun s : Sim.world * store => (fst s, results (snd s), select_job "job1" (snd s)))
    (App.run_blast_job (Sim.platform Sim.failed_third) 10 "job1" ["P01308"] "9606" 900
       (Sim.start, Sim.created "job1"))
  = Some (Sim.mk_world 27 3,
          [mk_result 1 "job1" (Some "P01308") (Some "NA") (Some "NA") (Some "NA")
             (Some "NA") (Some "NA")],
          Some (100, "DONE")).
Proof. by_running. Qed.

(** Called with the budget 0 itself, the poll loop does wait without bound
    and returns FAILED at the third check. *)
Example wait_for_blast_zero :
  Services.wait_for_blast (Sim.platform Sim.failed_third) 10 "ABC123XYZ" (Some 0) Sim.start
  = Some (Return "FAILED", Sim.mk_world 24 3).
Proof. by_running. Qed.

(** C1, on the code.  With a poll budget of zero and a status service that
    answers FAILED at the third check, [run_blast_job] does not wait for that
    answer: it passes [None] to [wait_for_blast], whose first comparison
    [max_wait_time > 0] raises a [TypeError], and the row recorded for the
    accession is the ERROR row carrying that message, with no status check
    made. *)
Theorem zero_budget_records_ERROR :
  option_map (fun s : Sim.world * store => (fst s, results (snd s), select_job "job1" (snd s)))
    (App.run_blast_job (Sim.platform Sim.failed_third) 10 "job1" ["P01308"] "9606" 0
       (Sim.start, Sim.created "job1"))
  = Some (Sim.mk_world 3 0,
          [mk_result 1 "job1" (Some "P01308") (Some "ERROR") (Some "ERROR")
             (Some "'>' not supported between instances of 'NoneType' and 'int'")
             (Some "NA") (Some "NA")],
          Some (100, "DONE")).
Proof. by_running. Qed.

(** C2, as stated, fails: after the only accession of a job is saved, the job
    row shows progress 100 while its status is still RUNNING. *)
Lemma progress_100_before_DONE :
  ~ (forall r j,
       App.reach (Sim.platform Sim.ready) "job1" ["P01308"] "9606" 900 (Sim.spawn "job1") r ->
       jobs (App.db r) !! "job1" = Some j ->
       (progress j = 100 <-> status j = "DONE")).
Proof.
  intros H.
  assert (E : exists r j,
             App.run_steps (Sim.platform Sim.ready) 10 "job1" ["P01308"] "9606" 900 2
               (Sim.spawn "job1") = Some r /\
             jobs (App.db r) !! "job1" = Some j /\
             progress j = 100 /\ status j = "RUNNING").
  { eexists. eexists. split; [by_running |].
    split; [by_running |]. split; reflexivity. }
  destruct E as [r [j [Hr [Hj [Hp Hs]]]]].
  apply run_steps_reach in Hr.
  destruct (H r j Hr Hj) as [H1 _]. specialize (H1 Hp). rewrite Hs in H1. discriminate.
Qed.

Lemma done_job_has_a_row_per_accession_witness :
  exists w st j,
    App.run_blast_job (Sim.platform Sim.ready) 10 "job1" ["P01308"; "BAD1"] "9606" 900
      (Sim.start, Sim.created "job1") = Some (w, st) /\
    jobs st !! "job1" = Some j /\ status j = "DONE" /\
    length (select_results "job1" st) = 2%nat.
Proof.
  destruct (done_job_has_a_row_per_accession (Sim.platform Sim.ready) "job1"
              ["P01308"; "BAD1"] "9606" 900 (Sim.spawn "job1")
              sim_writes_succeed (spawn_spawned "job1") eq_refl) as [_ H].
  destruct (App.run_blast_job (Sim.platform Sim.ready) 10 "job1" ["P01308"; "BAD1"]
              "9606" 900 (Sim.start, Sim.created "job1")) as [[w st] |] eqn:R.
  - destruct (H 10%nat w st R) as [[j [Hj Hd]] Hlen].
    exists w, st, j. repeat split; assumption.
  - vm_compute in R. discriminate R.
Defined.

Lemma download_csv_lines_witness :
  exists w st resp,
    App.run_blast_job (Sim.platform Sim.no_hits) 10 "job1" ["ACC"] "9606" 900
      (Sim.start, Sim.created "job1") = Some (w, st) /\
    fst (App.download_csv (Sim.platform Sim.no_hits) Sim.anonymous "job1" (w, st))
    = Return resp /\
    App.content resp =
    App.Stream
      ["accession,top_hit,gene,species,bit_score,evalue" +:+ App.newline;
       "ACC,No hit,No hit,No hit,No hit,No hit" +:+ App.newline].
Proof.
  destruct (App.run_blast_job (Sim.platform Sim.no_hits) 10 "job1" ["ACC"] "9606" 900
              (Sim.start, Sim.created "job1")) as [[w st] |] eqn:R;
    [| vm_compute in R; discriminate R].
  assert (S : select_results "job1" st =
              [mk_result 1 "job1" (Some "ACC") (Some "No hit") (Some "No hit")
                 (Some "No hit") (Some "No hit") (Some "No hit")])
    by (vm_compute in R; injection R as _ <-; reflexivity).
  destruct (download_csv_lines (Sim.platform Sim.no_hits) Sim.anonymous "job1" w w st
              eq_refl) as [resp [lines [E [C [_ [_ L]]]]]].
  exists w, st, resp. split; [reflexivity |]. rewrite E. split; [reflexivity |].
  rewrite C, (L 1 "ACC" S). reflexivity.
Defined.

Lemma csv_row_misaligned_witness :
  exists w st resp lines,
    App.run_blast_job (Sim.platform Sim.ready) 10 "job1" ["BAD1,BAD2"] "9606" 900
      (Sim.start, Sim.created "job1") = Some (w, st) /\
    App.download_csv (Sim.platform Sim.ready) Sim.anonymous "job1" (w, st)
    = (Return resp, w) /\
    App.content resp =
    App.Stream (("accession,top_hit,gene,species,bit_score,evalue" +:+ App.newline)
                :: lines) /\
    lines !! 0%nat =
    Some ("BAD1,BAD2,ERROR,ERROR,Failed to fetch FASTA for BAD1,BAD2,NA,NA" +:+ App.newline) /\
    (6 < length (App.split ","
                   "BAD1,BAD2,ERROR,ERROR,Failed to fetch FASTA for BAD1,BAD2,NA,NA"))%nat.
Proof.
  destruct (App.run_blast_job (Sim.platform Sim.ready) 10 "job1" ["BAD1,BAD2"] "9606" 900
              (Sim.start, Sim.created "job1")) as [[w st] |] eqn:R;
    [| vm_compute in R; discriminate R].
  pose (r := mk_result 1 "job1" (Some "BAD1,BAD2") (Some "ERROR") (Some "ERROR")
               (Some "Failed to fetch FASTA for BAD1,BAD2") (Some "NA") (Some "NA")).
  assert (S : select_results "job1" st !! 0%nat = Some r)
    by (vm_compute in R; injection R as _ <-; reflexivity).
  destruct (csv_row_misaligned (Sim.platform Sim.ready) Sim.anonymous "job1" w w st 0 r
              "Failed to fetch FASTA for BAD1,BAD2" eq_refl S eq_refl eq_refl)
    as [resp [lines [E [C [L [_ H7]]]]]].
  exists w, st, resp, lines. split; [reflexivity |]. split; [exact E |].
  split; [exact C |]. split; [exact L | exact H7].
Defined.

Lemma read_endpoints_ignore_requester_witness :
  let P := Sim.platform Sim.ready in
  let admin := App.mk_session (Some 1) (Some 1) in
  let s := (Sim.start, Sim.created "job1") in
  App.status P admin "job1" s = App.status P Sim.anonymous "job1" s /\
  App.status P Sim.anonymous "job1" s =
  (Return (App.mk_http_response 200 []
             (App.Json [("progress", App.JInt 0); ("status", App.JStr "RUNNING")])),
   Sim.start).
Proof.
  intros P admin s.
  destruct (read_endpoints_ignore_requester P admin Sim.anonymous "job1" Sim.start
              (Sim.created "job1")) as [H1 [_ [_ H4]]].
  split; [exact H1 |].
  destruct (H4 Sim.start eq_refl) as [H5 _].
  apply (H5 (mk_job 1 "human" 0 "RUNNING")). apply lookup_singleton_eq.
Defined.

End Scenarios.

(** * Further properties of the code *)

(** ** services.py *)
Section ServiceFacts.
Context {W : Type} (P : Platform W).
Local Arguments Ascii.eqb : simpl never.

(** *** [str.strip] *)

Lemma lstrip_head s :
  lstrip s = "" \/ exists c r, lstrip s = String c r /\ isspace c = false.
Proof.
  induction s as [| c s IH]; [left; reflexivity |].
  cbn [lstrip]. destruct (isspace c) eqn:E; [exact IH |]. right. eauto.
Qed.

Lemma rstrip_cons c s :
  rstrip (String c s) =
  match rstrip s with
  | EmptyString => if isspace c then EmptyString else String c EmptyString
  | r => String c r
  end.
Proof. reflexivity. Qed.

Lemma rstrip_head c s : isspace c = false -> exists r, rstrip (String c s) = String c r.
Proof.
  intros E. rewrite rstrip_cons. destruct (rstrip s); [rewrite E |]; eauto.
Qed.

Lemma rstrip_idem s : rstrip (rstrip s) = rstrip s.
Proof.
  induction s as [| c s IH]; [reflexivity |]. rewrite rstrip_cons.
  destruct (rstrip s) as [| d r] eqn:R.
  - destruct (isspace c) eqn:E; [reflexivity |]. rewrite rstrip_cons. cbn [rstrip].
    rewrite E. reflexivity.
  - rewrite rstrip_cons, IH. reflexivity.
Qed.

Lemma lstrip_strip s : lstrip (strip s) = strip s.
Proof.
  unfold strip. destruct (lstrip_head s) as [-> | [c [r [-> E]]]]; [reflexivity |].
  destruct (rstrip_head c r E) as [r' ->]. cbn [lstrip]. rewrite E. reflexivity.
Qed.

Lemma strip_keeps_marker s : startswith ">" s = true -> startswith ">" (strip s) = true.
Proof.
  destruct s as [| c s]; [discriminate |]. simpl.
  destruct (Ascii.eqb_spec ">" c) as [<- | _]; [| discriminate]. intros _.
  unfold strip. cbn [lstrip]. change (isspace ">") with false. cbn iota.
  destruct (rstrip_head ">" s eq_refl) as [r ->]. reflexivity.
Qed.

(** X1.  [fetch_fasta] returns exactly when the answer has status 200 and a
    body that begins with [>]; the text it returns is that body without
    surrounding white space, and still begins with [>].  Every other answer
    raises [Failed to fetch FASTA for] followed by the accession, and a
    request that raises is passed on. *)
Theorem fetch_fasta_outcomes (accession : string) (w : W) :
  let url :=
    "https://www.ncbi.nlm.nih.gov/sviewer/viewer.fcgi"
    +:+ "?id=" +:+ accession +:+ "&db=protein&report=fasta&retmode=text" in
  match requests_get P url [] 10 w with
  | (Raise e, w') => Services.fetch_fasta P accession w = Some (Raise e, w')
  | (Return r, w') =>
      if (status_code r =? 200) && startswith ">" (text r) then
        exists fasta,
          Services.fetch_fasta P accession w = Some (Return fasta, w') /\
          fasta = strip (text r) /\
          startswith ">" fasta = true /\
          lstrip fasta = fasta /\ rstrip fasta = fasta
      else
        Services.fetch_fasta P accession w =
        Some (Raise (mk_exn Exception ("Failed to fetch FASTA for " +:+ accession)), w')
  end.
Proof.
  cbv zeta. unfold Services.fetch_fasta, bind, call.
  destruct (requests_get P _ [] 10 w) as [[r | e] w']; [| reflexivity].
  destruct (status_code r =? 200); [| reflexivity].
  destruct (startswith ">" (text r)) eqn:S; [| reflexivity].
  cbn. exists (strip (text r)). split; [reflexivity |]. split; [reflexivity |].
  split; [apply strip_keeps_marker, S |]. split; [apply lstrip_strip |].
  unfold strip. apply rstrip_idem.
Qed.

(** *** [re.search] with one group *)

Lemma match_lit_split lit s r : match_lit lit s = Some r -> s = lit +:+ r.
Proof.
  revert s. induction lit as [| a lit IH]; intros s H.
  - injection H as <-. reflexivity.
  - destruct s as [| b s]; [discriminate |]. simpl in H.
    destruct (Ascii.eqb_spec a b) as [<- | _]; [| discriminate].
    rewrite (IH s H). reflexivity.
Qed.

Lemma match_group_sound cls post s g :
  match_group cls post s = Some g ->
  exists b, s = g +:+ post +:+ b /\ g <> "" /\ Bracket.all_chars cls g = true.
Proof.
  revert g. induction s as [| c s IH]; intros g H; [discriminate |].
  rewrite match_group_cons in H. destruct (cls c) eqn:C; [| discriminate].
  destruct (match_group cls post s) as [g' |].
  - injection H as <-. destruct (IH g' eq_refl) as [b [-> [N A]]].
    exists b. split; [reflexivity |]. split; [discriminate |]. simpl. rewrite C, A. reflexivity.
  - destruct (startswith post s) eqn:S; [| discriminate]. injection H as <-.
    apply startswith_split in S. destruct S as [b ->].
    exists b. split; [reflexivity |]. split; [discriminate |]. simpl. rewrite C. reflexivity.
Qed.

Lemma re_search_sound pre cls post s g :
  re_search pre cls post s = Some g ->
  exists a b,
    s = a +:+ pre +:+ g +:+ post +:+ b /\ g <> "" /\ Bracket.all_chars cls g = true.
Proof.
  induction s as [| c s IH]; cbn [re_search]; unfold match_here.
  - destruct (match_lit pre "") as [r |] eqn:L; [| discriminate].
    intros H. apply match_lit_split in L. destruct (match_group cls post r) as [g' |] eqn:M;
      [| discriminate]. injection H as <-.
    destruct (match_group_sound _ _ _ _ M) as [b [-> R]].
    exists "", b. split; [exact L | exact R].
  - destruct (match_lit pre (String c s)) as [r |] eqn:L.
    + destruct (match_group cls post r) as [g' |] eqn:M.
      * intros [= <-]. apply match_lit_split in L.
        destruct (match_group_sound _ _ _ _ M) as [b [-> R]].
        exists "", b. split; [exact L | exact R].
      * intros H. destruct (IH H) as [a [b [-> R]]].
        exists (String c a), b. split; [reflexivity | exact R].
    + intros H. destruct (IH H) as [a [b [-> R]]].
      exists (String c a), b. split; [reflexivity | exact R].
Qed.

(** With nothing after the group, the group takes every character of its
    class that follows. *)
Lemma match_group_longest cls s g :
  match_group cls "" s = Some g ->
  exists b,
    s = g +:+ b /\
    (b = "" \/ exists c b', b = String c b' /\ cls c = false).
Proof.
  revert g. induction s as [| c s IH]; intros g H; [discriminate |].
  rewrite match_group_cons in H. destruct (cls c) eqn:C; [| discriminate].
  destruct (match_group cls "" s) as [g' |] eqn:M.
  - injection H as <-. destruct (IH g' eq_refl) as [b [-> R]].
    exists b. split; [reflexivity | exact R].
  - injection H as <-. exists s. split; [reflexivity |].
    destruct s as [| d s']; [left; reflexivity |]. right. exists d, s'.
    split; [reflexivity |]. rewrite match_group_cons in M.
    destruct (cls d); [| reflexivity].
    destruct (match_group cls "" s'); discriminate.
Qed.

Lemma re_search_longest pre cls s g :
  re_search pre cls "" s = Some g ->
  exists a b,
    s = a +:+ pre +:+ g +:+ b /\
    g <> "" /\ Bracket.all_chars cls g = true /\
    (b = "" \/ exists c b', b = String c b' /\ cls c = false).
Proof.
  induction s as [| c s IH]; cbn [re_search]; unfold match_here.
  - destruct (match_lit pre "") as [r |] eqn:L; [| discriminate].
    intros H. apply match_lit_split in L. destruct (match_group cls "" r) as [g' |] eqn:M;
      [| discriminate]. injection H as <-.
    destruct (match_group_sound _ _ _ _ M) as [_ [_ [N A]]].
    destruct (match_group_longest _ _ _ M) as [b [-> R]].
    exists "", b. split; [exact L |]. auto.
  - destruct (match_lit pre (String c s)) as [r |] eqn:L.
    + destruct (match_group cls "" r) as [g' |] eqn:M.
      * intros [= <-]. apply match_lit_split in L.
        destruct (match_group_sound _ _ _ _ M) as [_ [_ [N A]]].
        destruct (match_group_longest _ _ _ M) as [b [-> R]].
        exists "", b. split; [exact L |]. auto.
      * intros H. destruct (IH H) as [a [b [-> R]]].
        exists (String c a), b. split; [reflexivity | exact R].
    + intros H. destruct (IH H) as [a [b [-> R]]].
      exists (String c a), b. split; [reflexivity | exact R].
Qed.

(** X2.  A submission identifier that [submit_blast] returns is read from the
    body of an answer that passed [raise_for_status]: it stands right after
    [RID = ], is not empty, holds no white space, and runs up to the next
    white space or the end of the body. *)
Theorem submit_blast_rid (fasta taxid rid : string) (w w' : W) :
  Services.submit_blast P fasta taxid w = Some (Return rid, w') ->
  exists r data a b,
    requests_post P Services.BLAST_URL data 10 w = (Return r, w') /\
    In ("QUERY", fasta) data /\
    In ("ENTREZ_QUERY", "txid" +:+ taxid +:+ "[Organism]") data /\
    raise_for_status r = Return tt /\
    text r = a +:+ "RID = " +:+ rid +:+ b /\
    rid <> "" /\
    Bracket.all_chars nonspace rid = true /\
    (b = "" \/ exists c b', b = String c b' /\ isspace c = true).
Proof.
  unfold Services.submit_blast, bind, call, pure.
  match goal with
  | |- context [requests_post P _ ?d 10 w] => set (data := d)
  end.
  destruct (requests_post P Services.BLAST_URL data 10 w) as [[r | e] w1] eqn:Hp;
    [| discriminate].
  destruct (raise_for_status r) as [[] | e] eqn:Hs; [| discriminate].
  destruct (re_search "RID = " nonspace "" (text r)) as [g |] eqn:R; [| discriminate].
  intros [= <- <-].
  destruct (re_search_longest _ _ _ _ R) as [a [b [E [N [A L]]]]].
  exists r, data, a, b. split; [exact Hp |].
  split; [unfold data; cbn; tauto |]. split; [unfold data; cbn; tauto |].
  split; [exact Hs |]. split; [exact E |]. split; [exact N |]. split; [exact A |].
  destruct L as [-> | [c [b' [-> C]]]]; [left; reflexivity |].
  right. exists c, b'. split; [reflexivity |].
  unfold nonspace in C. destruct (isspace c); [reflexivity | discriminate].
Qed.

End ServiceFacts.

(** ** The poll loop, for any budget and any status service *)
Section PollOutcomes.
Context {W : Type} (P : Platform W).

Lemma wait_loop_unfold fuel rid B t0 attempts w :
  Services.wait_loop P (S fuel) rid (Some B) t0 attempts w =
  if (0 <? B) && float_gt_int (float_sub (time_time P w) t0) B
  then Some (Return "TIMEOUT", w)
  else
    match requests_get P Services.BLAST_URL (Services.status_params rid) 30
            (time_sleep P 8 w) with
    | (Raise _, w2) => Services.wait_loop P fuel rid (Some B) t0 (attempts + 1) w2
    | (Return r, w2) =>
        if contains "Status=READY" (text r) then
          if contains "ThereAreHits=yes" (text r)
          then Some (Return "READY", w2)
          else Some (Return "NO_HITS", w2)
        else if contains "Status=FAILED" (text r) then Some (Return "FAILED", w2)
        else Services.wait_loop P fuel rid (Some B) t0 (attempts + 1) w2
    end.
Proof.
  cbn [Services.wait_loop]. unfold and_then, gt_zero, float_gt.
  destruct (0 <? B); [destruct (float_gt_int _ B) |]; reflexivity.
Qed.

Lemma wait_loop_justified rid B t0 :
  forall fuel attempts w o w',
    Services.wait_loop P fuel rid (Some B) t0 attempts w = Some (o, w') ->
    o = Return "TIMEOUT" /\ 0 < B /\
      (inject_Z B < float_sub (time_time P w') t0)%Q \/
    exists w0 r,
      requests_get P Services.BLAST_URL (Services.status_params rid) 30 w0
      = (Return r, w') /\
      (o = Return "READY" /\ contains "Status=READY" (text r) = true /\
         contains "ThereAreHits=yes" (text r) = true \/
       o = Return "NO_HITS" /\ contains "Status=READY" (text r) = true /\
         contains "ThereAreHits=yes" (text r) = false \/
       o = Return "FAILED" /\ contains "Status=READY" (text r) = false /\
         contains "Status=FAILED" (text r) = true).
Proof.
  induction fuel as [| fuel IH]; intros attempts w o w' H; [discriminate |].
  rewrite wait_loop_unfold in H.
  destruct (0 <? B) eqn:HB; cbn [andb] in H.
  - destruct (float_gt_int (float_sub (time_time P w) t0) B) eqn:T.
    + injection H as <- <-. left. split; [reflexivity |].
      split; [apply Z.ltb_lt, HB | apply float_gt_int_true, T].
    + destruct (requests_get P Services.BLAST_URL (Services.status_params rid) 30
                  (time_sleep P 8 w)) as [[r | e] w2] eqn:G; [| eapply IH, H].
      destruct (contains "Status=READY" (text r)) eqn:R.
      * destruct (contains "ThereAreHits=yes" (text r)) eqn:Hh; injection H as <- <-;
          right; exists (time_sleep P 8 w), r; (split; [exact G |]); tauto.
      * destruct (contains "Status=FAILED" (text r)) eqn:F; [| eapply IH, H].
        injection H as <- <-. right. exists (time_sleep P 8 w), r. split; [exact G |]. tauto.
  - destruct (requests_get P Services.BLAST_URL (Services.status_params rid) 30
                (time_sleep P 8 w)) as [[r | e] w2] eqn:G; [| eapply IH, H].
    destruct (contains "Status=READY" (text r)) eqn:R.
    + destruct (contains "ThereAreHits=yes" (text r)) eqn:Hh; injection H as <- <-;
        right; exists (time_sleep P 8 w), r; (split; [exact G |]); tauto.
    + destruct (contains "Status=FAILED" (text r)) eqn:F; [| eapply IH, H].
      injection H as <- <-. right. exists (time_sleep P 8 w), r. split; [exact G |]. tauto.
Qed.

(** X3.  [wait_for_blast] with an [int] budget never raises, and each of its
    results is backed by what it saw: [TIMEOUT] only under a positive budget,
    with the measured elapsed time above it, and [READY], [NO_HITS] and
    [FAILED] only on a status answer that carries the markers of that state
    (a body with both the ready and the failed marker counts as ready).  So a
    budget of zero or below never gives [TIMEOUT]. *)
Theorem wait_for_blast_justified (fuel : nat) (rid : string) (B : Z) (w w' : W)
    (o : outcome string) :
  Services.wait_for_blast P fuel rid (Some B) w = Some (o, w') ->
  (o = Return "TIMEOUT" /\ 0 < B /\
     (inject_Z B < float_sub (time_time P w') (time_time P w))%Q \/
   exists w0 r,
     requests_get P Services.BLAST_URL (Services.status_params rid) 30 w0
     = (Return r, w') /\
     (o = Return "READY" /\ contains "Status=READY" (text r) = true /\
        contains "ThereAreHits=yes" (text r) = true \/
      o = Return "NO_HITS" /\ contains "Status=READY" (text r) = true /\
        contains "ThereAreHits=yes" (text r) = false \/
      o = Return "FAILED" /\ contains "Status=READY" (text r) = false /\
        contains "Status=FAILED" (text r) = true)) /\
  (B <= 0 -> o <> Return "TIMEOUT").
Proof.
  intros H. pose proof (wait_loop_justified _ _ _ _ _ _ _ _ H) as J.
  split; [exact J |]. intros HB.
  destruct J as [[_ [Hpos _]] | [_ [_ [_ [[-> _] | [[-> _] | [-> _]]]]]]];
    [lia | discriminate ..].
Qed.

Lemma wait_loop_returns rid B t0 :
  App.clock_laws P -> 0 < B ->
  forall m attempts w,
    (inject_Z (2 * B) - inject_Z (8 * Z.of_nat m) <= time_time P w - t0)%Q ->
    exists o w',
      forall fuel, (m < fuel)%nat ->
        Services.wait_loop P fuel rid (Some B) t0 attempts w = Some (o, w').
Proof.
  intros [Hsleep Hget] HB. induction m as [| m IH]; intros attempts w Hw.
  - destruct (float_gt_int (float_sub (time_time P w) t0) B) eqn:T.
    + exists (Return "TIMEOUT"), w.
      intros [| fuel] Hf; [lia |]. rewrite wait_loop_budget by exact HB. rewrite T. reflexivity.
    + exfalso. apply float_gt_int_false in T. unfold float_sub in T.
      assert (HB' : (0 < inject_Z B)%Q) by (rewrite Zlt_Qlt in HB; exact HB).
      rewrite inject_Z_mult in Hw. change (inject_Z (8 * Z.of_nat 0)) with 0%Q in Hw.
      change (inject_Z 2) with 2%Q in Hw.
      assert (D : (0 < time_time P w - t0)%Q) by lra.
      pose proof (b64_above_half _ D). lra.
  - destruct (float_gt_int (float_sub (time_time P w) t0) B) eqn:T.
    + exists (Return "TIMEOUT"), w.
      intros [| fuel] Hf; [lia |]. rewrite wait_loop_budget by exact HB. rewrite T. reflexivity.
    + pose proof (Hsleep 8%Q w) as S1.
      pose proof (Hget Services.BLAST_URL (Services.status_params rid) 30
                    (time_sleep P 8 w)) as S2.
      destruct (requests_get P Services.BLAST_URL (Services.status_params rid) 30
                  (time_sleep P 8 w)) as [o w2] eqn:G. cbn [snd] in S2.
      assert (Hw2 : (inject_Z (2 * B) - inject_Z (8 * Z.of_nat m)
                     <= time_time P w2 - t0)%Q).
      { replace (8 * Z.of_nat (S m)) with (8 * Z.of_nat m + 8) in Hw by lia.
        rewrite inject_Z_plus in Hw. change (inject_Z 8) with 8%Q in Hw. lra. }
      destruct (IH (attempts + 1) w2 Hw2) as [o' [w' Hrun]].
      assert (Step : forall res,
                 (forall fuel, Services.wait_loop P (S fuel) rid (Some B) t0 attempts w
                               = res fuel) ->
                 (exists o1 w1, forall fuel, (S m < S fuel)%nat -> res fuel = Some (o1, w1)) ->
                 exists o1 w1, forall fuel, (S m < fuel)%nat ->
                   Services.wait_loop P fuel rid (Some B) t0 attempts w = Some (o1, w1)).
      { intros res Hres [o1 [w1 H1]]. exists o1, w1. intros [| fuel] Hf; [lia |].
        rewrite Hres. apply H1, Hf. }
      eapply Step.
      * intros fuel. rewrite wait_loop_budget by exact HB. rewrite T, G. reflexivity.
      * destruct o as [r | e].
        -- destruct (contains "Status=READY" (text r)).
           ++ destruct (contains "ThereAreHits=yes" (text r)); eauto.
           ++ destruct (contains "Status=FAILED" (text r)); [eauto |].
              exists o', w'. intros fuel Hf. apply Hrun. lia.
        -- exists o', w'. intros fuel Hf. apply Hrun. lia.
Qed.

Lemma wait_for_blast_returns rid B w :
  App.clock_laws P -> 0 < B ->
  exists o w',
    forall fuel, (Z.to_nat B < fuel)%nat ->
      Services.wait_for_blast P fuel rid (Some B) w = Some (o, w').
Proof.
  intros Hc HB. apply (wait_loop_returns rid B (time_time P w) Hc HB (Z.to_nat B) 0 w).
  assert (E : (time_time P w - time_time P w == 0)%Q) by ring. rewrite E.
  rewrite Z2Nat.id by lia. rewrite !inject_Z_mult.
  assert (HB' : (0 < inject_Z B)%Q) by (rewrite Zlt_Qlt in HB; exact HB).
  change (inject_Z 2) with 2%Q. change (inject_Z 8) with 8%Q. lra.
Qed.

(** X4.  With a positive budget [B] and a clock that keeps time,
    [wait_for_blast] ends whatever the status service answers: its result is
    reached within [B + 1] turns of the loop, hence after at most [B + 1]
    status checks. *)
Theorem wait_for_blast_ends (rid : string) (B : Z) (w : W) :
  App.clock_laws P -> 0 < B ->
  exists o w',
    (forall fuel, (Z.to_nat B < fuel)%nat ->
       Services.wait_for_blast P fuel rid (Some B) w = Some (Return o, w')) /\
    (o = "READY" \/ o = "NO_HITS" \/ o = "FAILED" \/ o = "TIMEOUT").
Proof.
  intros Hc HB. destruct (wait_for_blast_returns rid B w Hc HB) as [o [w' H]].
  pose proof (H (S (Z.to_nat B)) ltac:(lia)) as H1.
  apply wait_loop_justified in H1.
  destruct H1 as [[-> _] | [_ [_ [_ [[-> _] | [[-> _] | [-> _]]]]]]];
    eexists; exists w'; (split; [exact H |]); tauto.
Qed.

End PollOutcomes.

(** ** The runner: what a run leaves in the tables *)
Section RunEffects.
Context {W : Type} (P : Platform W).
Import Database Effects.

Lemma same_jobs_refl jid st : same_jobs_but jid st st.
Proof. split; [intros; reflexivity | reflexivity]. Qed.

Lemma same_jobs_trans jid st1 st2 st3 :
  same_jobs_but jid st1 st2 -> same_jobs_but jid st2 st3 -> same_jobs_but jid st1 st3.
Proof.
  intros [A1 B1] [A2 B2]. split.
  - intros j Hj. rewrite (A2 j Hj). apply A1, Hj.
  - rewrite B2. exact B1.
Qed.

Lemma same_jobs_update_status_progress jid s p st :
  same_jobs_but jid st (update_status_progress jid s p st).
Proof.
  split.
  - intros j Hj. apply lookup_alter_ne. congruence.
  - rewrite jobs_update_status_progress. destruct (jobs st !! jid); reflexivity.
Qed.

Lemma same_jobs_save jid p acc th g sp bs ev st :
  same_jobs_but jid st (update_progress jid p (insert_result jid acc th g sp bs ev st)).
Proof.
  split.
  - intros j Hj. unfold update_progress. cbn [jobs insert_result].
    apply lookup_alter_ne. congruence.
  - rewrite jobs_update_progress. cbn [jobs insert_result].
    destruct (jobs st !! jid); reflexivity.
Qed.

(** One turn of the loop adds no row or the row of its accession. *)
Lemma iteration_effect fuel jid taxid timeout total i acc (w w' : W) st st' :
  App.iteration P fuel jid taxid timeout total i acc (w, st) = Some (w', st') ->
  same_jobs_but jid st st' /\
  (results st' = results st \/
   exists f,
     results st' =
     results st ++
     [mk_result (results_seq st + 1) jid (Some acc) (Some (App.f_top_hit f))
        (Some (App.f_gene f)) (Some (App.f_species f)) (Some (App.f_bit_score f))
        (Some (App.f_evalue f))]) /\
  (App.store_writes_succeed P -> (i < total)%nat -> results st' <> results st).
Proof.
  unfold App.iteration. cbn [fst snd].
  destruct (App.process_accession P fuel jid acc taxid timeout w) as [[f w1] |];
    [| discriminate].
  intros H. injection H as H.
  assert (E : st' = snd (App.save_result P jid acc f i total (w1, st)))
    by (rewrite H; reflexivity).
  destruct (save_result_cases P jid acc f i total w1 st) as [C | [p [_ [_ C]]]].
  - rewrite C in E. subst st'. split; [apply same_jobs_refl |]. split; [left; reflexivity |].
    intros Hw Hi. exfalso. rewrite (save_result_commits P) in C by assumption.
    cbn [snd] in C. apply (f_equal results) in C. cbn [results update_progress insert_result] in C.
    apply (f_equal (@length _)) in C. rewrite length_app in C. cbn in C. lia.
  - rewrite C in E. subst st'. split; [apply same_jobs_save |]. split.
    + right. exists f. reflexivity.
    + intros _ _ C'. cbn [results update_progress insert_result] in C'.
      apply (f_equal (@length _)) in C'. rewrite length_app in C'. cbn in C'. lia.
Qed.

Lemma for_accessions_effect fuel jid taxid timeout total rest :
  forall i (w w' : W) st st',
    App.for_accessions P fuel jid taxid timeout total i rest (w, st) = Some (w', st') ->
    same_jobs_but jid st st' /\
    exists new,
      results st' = results st ++ new /\
      Forall (fun r => job_id r = jid) new /\
      sublist (accession <$> new) (Some <$> rest) /\
      (App.store_writes_succeed P -> (i + length rest <= total)%nat ->
       accession <$> new = Some <$> rest).
Proof.
  induction rest as [| acc rest IH]; intros i w w' st st' H.
  - injection H as <- <-. split; [apply same_jobs_refl |].
    exists []. rewrite app_nil_r. repeat split; constructor.
  - cbn [App.for_accessions] in H.
    destruct (App.iteration P fuel jid taxid timeout total i acc (w, st))
      as [[w1 st1] |] eqn:It; [| discriminate].
    destruct (iteration_effect _ _ _ _ _ _ _ _ _ _ _ It) as [J1 [R1 N1]].
    destruct (IH _ _ _ _ _ H) as [J2 [new [R2 [F2 [S2 O2]]]]].
    split; [eapply same_jobs_trans; eassumption |].
    destruct R1 as [R1 | [f R1]].
    + exists new. split; [rewrite R2, R1; reflexivity |]. split; [exact F2 |].
      split; [cbn [fmap list_fmap]; apply sublist_cons_r; left; exact S2 |].
      intros Hw Hlen. cbn [length] in Hlen. exfalso. apply N1; [exact Hw | lia | exact R1].
    + eexists (_ :: new). split; [rewrite R2, R1, <- app_assoc; reflexivity |].
      split; [constructor; [reflexivity | exact F2] |].
      split; [cbn [fmap list_fmap accession]; apply sublist_skip, S2 |].
      intros Hw Hlen. cbn [length] in Hlen. cbn [fmap list_fmap accession].
      f_equal. apply O2; [exact Hw | lia].
Qed.

Lemma select_results_app jid st new :
  List.filter (fun r => String.eqb (job_id r) jid) (results st ++ new) =
  select_results jid st ++ List.filter (fun r => String.eqb (job_id r) jid) new.
Proof. apply List.filter_app. Qed.

Lemma filter_other_job jid j new :
  j <> jid -> Forall (fun r => job_id r = jid) new ->
  List.filter (fun r => String.eqb (job_id r) j) new = [].
Proof.
  intros Hj. induction 1 as [| r new Hr _ IH]; [reflexivity |].
  cbn [List.filter]. rewrite Hr.
  destruct (String.eqb_spec jid j); [congruence | exact IH].
Qed.

Lemma filter_own_job jid new :
  Forall (fun r => job_id r = jid) new ->
  List.filter (fun r => String.eqb (job_id r) jid) new = new.
Proof.
  induction 1 as [| r new Hr _ IH]; [reflexivity |].
  cbn [List.filter]. rewrite Hr, String.eqb_refl, IH. reflexivity.
Qed.

(** X5.  A run of [run_blast_job] only appends to [results]: the rows that
    were there stay as they are and in place, every new row carries the
    identifier of the job, and the accessions of the new rows are, in order,
    a subsequence of the accession list (a row is missing only where a store
    block failed).  In [jobs] no row is added or removed, no other job is
    touched, and the row of the job keeps its user and organism.  So the
    result rows and the job row of every other job are the same before and
    after. *)
Theorem run_blast_job_frame (fuel : nat) (job_id : string) (accessions : list string)
    (taxid : string) (timeout : Z) (w w' : W) (st st' : store) :
  App.run_blast_job P fuel job_id accessions taxid timeout (w, st) = Some (w', st') ->
  (exists new,
     results st' = results st ++ new /\
     Forall (fun r => Database.job_id r = job_id) new /\
     sublist (accession <$> new) (Some <$> accessions)) /\
  same_jobs_but job_id st st' /\
  (forall j, j <> job_id ->
     select_results j st' = select_results j st /\ select_job j st' = select_job j st).
Proof.
  unfold App.run_blast_job. intros H.
  destruct (App.mark_running P job_id (w, st)) as [o [w1 st1]] eqn:M.
  assert (J1 : same_jobs_but job_id st st1 /\ results st1 = results st).
  { apply mark_running_cases in M. destruct M as [-> | ->].
    - split; [apply same_jobs_refl | reflexivity].
    - split; [apply same_jobs_update_status_progress | reflexivity]. }
  destruct J1 as [J1 R1].
  assert (Main : (exists new,
                    results st' = results st ++ new /\
                    Forall (fun r => Database.job_id r = job_id) new /\
                    sublist (accession <$> new) (Some <$> accessions)) /\
                 same_jobs_but job_id st st').
  { destruct o as [[] | e].
    - destruct (App.for_accessions P fuel job_id taxid timeout (length accessions) 0
                  accessions (w1, st1)) as [[w2 st2] |] eqn:F; [| discriminate].
      injection H as H.
      destruct (for_accessions_effect _ _ _ _ _ _ _ _ _ _ _ F) as [J2 [new [R2 [F2 [S2 _]]]]].
      assert (E : st' = snd (App.mark_done P job_id (w2, st2))) by (rewrite H; reflexivity).
      assert (J3 : same_jobs_but job_id st2 st' /\ results st' = results st2).
      { rewrite E. destruct (mark_done_cases P job_id w2 st2) as [-> | [_ ->]].
        - split; [apply same_jobs_refl | reflexivity].
        - split; [apply same_jobs_update_status_progress | reflexivity]. }
      destruct J3 as [J3 R3]. split.
      + exists new. rewrite R3, R2, R1. auto.
      + eapply same_jobs_trans; [| exact J3]. eapply same_jobs_trans; eassumption.
    - injection H as <- <-. split; [| exact J1].
      exists []. rewrite app_nil_r, R1.
      split; [reflexivity |]. split; [apply Forall_nil_2 | apply sublist_nil_l]. }
  destruct Main as [[new [R [F S]]] J]. split; [exists new; auto |]. split; [exact J |].
  intros j Hj. split.
  - unfold select_results at 1. rewrite R, select_results_app.
    rewrite (filter_other_job job_id j new Hj F). apply app_nil_r.
  - unfold select_job. destruct J as [J _]. rewrite (J j Hj). reflexivity.
Qed.

(** X6.  When every store block commits, the rows a run adds are exactly one
    per accession, in the order of the accession list: the accession column of
    the rows of a new job reads as the list that was submitted. *)
Theorem rows_follow_accessions (fuel : nat) (job_id : string) (accessions : list string)
    (taxid : string) (timeout : Z) (w w' : W) (st st' : store) :
  App.store_writes_succeed P ->
  select_results job_id st = [] ->
  App.run_blast_job P fuel job_id accessions taxid timeout (w, st) = Some (w', st') ->
  accession <$> select_results job_id st' = Some <$> accessions.
Proof.
  intros Hw Hnone. unfold App.run_blast_job. rewrite mark_running_commits by exact Hw.
  destruct (App.for_accessions P fuel job_id taxid timeout (length accessions) 0
              accessions _) as [[w2 st2] |] eqn:F; [| discriminate].
  rewrite mark_done_commits by exact Hw. intros [= _ <-].
  destruct (for_accessions_effect _ _ _ _ _ _ _ _ _ _ _ F) as [_ [new [R2 [F2 [_ O2]]]]].
  unfold select_results. cbn [results update_status_progress] in *.
  rewrite R2, List.filter_app. fold (select_results job_id st). rewrite Hnone.
  cbn [app]. rewrite (filter_own_job _ _ F2). apply O2; [exact Hw | cbn; lia].
Qed.

(** X7.  When the first store block fails, [run_blast_job] returns at once:
    the tables are as they were and the only thing the outside world saw is
    that attempt, so no request is sent and no accession is looked at. *)
Theorem run_blast_job_aborts (fuel : nat) (job_id : string) (accessions : list string)
    (taxid : string) (timeout : Z) (w w' : W) (st : store) (e : exn) :
  db_transaction P w = (Raise e, w') ->
  App.run_blast_job P fuel job_id accessions taxid timeout (w, st) = Some (w', st).
Proof.
  intros H. unfold App.run_blast_job, App.mark_running, App.transaction. rewrite H.
  reflexivity.
Qed.

End RunEffects.

(** ** The further properties on the simulated world *)
Section ServiceScenarios.
Import Database.

Lemma submit_blast_rid_witness :
  exists r data a b,
    requests_post (Sim.platform Sim.ready) Services.BLAST_URL data 10 Sim.start
    = (Return r, Sim.start) /\
    In ("QUERY", ">sp|P01308|INS_HUMAN Insulin") data /\
    In ("ENTREZ_QUERY", "txid" +:+ "9606" +:+ "[Organism]") data /\
    raise_for_status r = Return tt /\
    text r = a +:+ "RID = " +:+ "ABC123XYZ" +:+ b /\
    "ABC123XYZ" <> "" /\
    Bracket.all_chars nonspace "ABC123XYZ" = true /\
    (b = "" \/ exists c b', b = String c b' /\ isspace c = true).
Proof.
  apply (submit_blast_rid (Sim.platform Sim.ready) ">sp|P01308|INS_HUMAN Insulin" "9606"
           "ABC123XYZ" Sim.start Sim.start).
  vm_compute. reflexivity.
Defined.

Lemma wait_for_blast_justified_witness :
  exists w0 r,
    requests_get (Sim.platform Sim.failed_third) Services.BLAST_URL
      (Services.status_params "ABC123XYZ") 30 w0 = (Return r, Sim.mk_world 24 3) /\
    contains "Status=READY" (text r) = false /\
    contains "Status=FAILED" (text r) = true.
Proof.
  destruct (wait_for_blast_justified (Sim.platform Sim.failed_third) 10 "ABC123XYZ" 900
              Sim.start (Sim.mk_world 24 3) (Return "FAILED")) as [H _].
  - vm_compute. reflexivity.
  - destruct H as [[H _] | [w0 [r [G H]]]]; [discriminate H |].
    exists w0, r. split; [exact G |].
    destruct H as [[H _] | [[H _] | [_ H]]]; [discriminate H | discriminate H | exact H].
Defined.

Lemma wait_for_blast_ends_witness :
  exists o w',
    (forall fuel, (5 < fuel)%nat ->
       Services.wait_for_blast (Sim.platform Sim.stuck) fuel "ABC123XYZ" (Some 5) Sim.start
       = Some (Return o, w')) /\
    (o = "READY" \/ o = "NO_HITS" \/ o = "FAILED" \/ o = "TIMEOUT").
Proof.
  apply (wait_for_blast_ends (Sim.platform Sim.stuck) "ABC123XYZ" 5 Sim.start
           (sim_clock_laws Sim.stuck)).
  lia.
Defined.

Lemma run_blast_job_frame_witness :
  exists w' st',
    App.run_blast_job (Sim.platform Sim.ready) 10 "job1" ["P01308"; "BAD1"] "9606" 900
      (Sim.start, Lab.two_jobs) = Some (w', st') /\
    (exists new,
       results st' = results Lab.two_jobs ++ new /\
       Forall (fun r => job_id r = "job1") new /\
       sublist (accession <$> new) (Some <$> ["P01308"; "BAD1"])) /\
    select_results "job0" st' = select_results "job0" Lab.two_jobs /\
    select_job "job0" st' = Some (100, "DONE").
Proof.
  destruct (App.run_blast_job (Sim.platform Sim.ready) 10 "job1" ["P01308"; "BAD1"]
              "9606" 900 (Sim.start, Lab.two_jobs)) as [[w st] |] eqn:R.
  - destruct (run_blast_job_frame (Sim.platform Sim.ready) 10 "job1" ["P01308"; "BAD1"]
                "9606" 900 Sim.start w Lab.two_jobs st R) as [H1 [_ H2]].
    exists w, st. split; [reflexivity |]. split; [exact H1 |].
    destruct (H2 "job0") as [H3 H4]; [discriminate |].
    split; [exact H3 | rewrite H4; reflexivity].
  - vm_compute in R. discriminate R.
Defined.

Lemma rows_follow_accessions_witness :
  exists w' st',
    App.run_blast_job (Sim.platform Sim.ready) 10 "job1" ["P01308"; "BAD1"] "9606" 900
      (Sim.start, Lab.two_jobs) = Some (w', st') /\
    accession <$> select_results "job1" st' = [Some "P01308"; Some "BAD1"].
Proof.
  destruct (App.run_blast_job (Sim.platform Sim.ready) 10 "job1" ["P01308"; "BAD1"]
              "9606" 900 (Sim.start, Lab.two_jobs)) as [[w st] |] eqn:R.
  - exists w, st. split; [reflexivity |].
    apply (rows_follow_accessions (Sim.platform Sim.ready) 10 "job1" ["P01308"; "BAD1"]
             "9606" 900 Sim.start w Lab.two_jobs st sim_writes_succeed eq_refl R).
  - vm_compute in R. discriminate R.
Defined.

Lemma run_blast_job_aborts_witness :
  App.run_blast_job (Sim.platform Lab.database_down) 10 "job1" ["P01308"; "BAD1"] "9606" 900
    (Sim.start, Lab.two_jobs) = Some (Sim.start, Lab.two_jobs).
Proof.
  apply (run_blast_job_aborts (Sim.platform Lab.database_down) 10 "job1" ["P01308"; "BAD1"]
           "9606" 900 Sim.start Sim.start Lab.two_jobs
           (mk_exn Exception "unable to open database file")).
  reflexivity.
Defined.

End ServiceScenarios.

(** ** The runner: when it comes back *)
Section RunnerEnds.
Context {W : Type} (P : Platform W).
Import Database.

(** X8.  With a budget of zero or below [wait_for_blast] never gives up: as
    long as the status service shows no terminal state the loop goes on, so
    no amount of turns brings a result. *)
Theorem wait_for_blast_waits_forever (rid : string) (B : Z) :
  B <= 0 -> App.never_terminal P rid ->
  forall fuel w, Services.wait_for_blast P fuel rid (Some B) w = None.
Proof.
  intros HB Hnt fuel w. unfold Services.wait_for_blast.
  generalize (time_time P w) at 1 as t0. generalize 0 as attempts. revert w.
  induction fuel as [| fuel IH]; intros w attempts t0; [reflexivity |].
  rewrite wait_loop_unfold.
  replace (0 <? B) with false by (symmetry; apply Z.ltb_ge, HB).
  cbn [andb].
  destruct (requests_get P Services.BLAST_URL (Services.status_params rid) 30
              (time_sleep P 8 w)) as [[r | e] w2] eqn:G.
  - destruct (Hnt _ _ _ G) as [H1 H2]. rewrite H1, H2. apply IH.
  - apply IH.
Qed.

Lemma fetch_fasta_total acc (w : W) : is_Some (Services.fetch_fasta P acc w).
Proof.
  unfold Services.fetch_fasta, bind, call.
  destruct (requests_get P _ [] 10 w) as [[r | e] w1]; [| eexists; reflexivity].
  destruct (negb _ || negb _); eexists; reflexivity.
Qed.

Lemma submit_blast_total fasta taxid (w : W) :
  is_Some (Services.submit_blast P fasta taxid w).
Proof.
  unfold Services.submit_blast, bind, call, pure.
  destruct (requests_post P _ _ 10 w) as [[r | e] w1]; [| eexists; reflexivity].
  destruct (raise_for_status r) as [[] | e]; [| eexists; reflexivity].
  destruct (re_search _ _ _ _); eexists; reflexivity.
Qed.

Lemma fetch_result_total rid (w : W) : is_Some (Services.fetch_result P rid w).
Proof.
  unfold Services.fetch_result, bind, call, pure.
  destruct (requests_get P _ _ 10 w) as [[r | e] w1]; [| eexists; reflexivity].
  destruct (raise_for_status r) as [[] | e]; eexists; reflexivity.
Qed.

Lemma fetch_gene_symbol_total acc (w : W) :
  exists g w', Services.fetch_gene_symbol P acc w = Some (Return g, w').
Proof.
  unfold Services.fetch_gene_symbol, bind, try_except, call, pure, ret.
  destruct (requests_get P _ _ 10 w) as [[r | e] w1]; [| do 2 eexists; reflexivity].
  destruct (raise_for_status r) as [[] | e]; [| do 2 eexists; reflexivity].
  destruct (re_search _ _ _ _); do 2 eexists; reflexivity.
Qed.

Lemma save_xml_total job_id acc xml (w : W) : is_Some (App.save_xml P job_id acc xml w).
Proof.
  unfold App.save_xml.
  destruct (write_file P _ xml w) as [[[] | e] w1]; [eexists; reflexivity |].
  destruct (isinstance_OSError e); eexists; reflexivity.
Qed.

(** What follows the poll loop in [search] needs no fuel. *)
Lemma after_wait_total job_id acc rid status (w : W) :
  is_Some
    ((if String.eqb status "READY" then
        bind (Services.fetch_result P rid) (fun xml =>
        bind (pure (Services.parse_top_hit P xml)) (fun x =>
          match x with
          | (top_hit, species, bit_score, evalue) =>
              bind (Services.fetch_gene_symbol P top_hit) (fun gene =>
              bind (App.save_xml P job_id acc xml) (fun _ =>
              ret (App.mk_fields top_hit gene species bit_score evalue)))
          end))
      else if String.eqb status "NO_HITS" then
        ret (App.mk_fields "No hit" "No hit" "No hit" "No hit" "No hit")
      else if String.eqb status "TIMEOUT" then
        ret (App.mk_fields "TIMEOUT" "TIMEOUT" "BLAST search timed out" "NA" "NA")
      else ret (App.mk_fields "NA" "NA" "NA" "NA" "NA")) w).
Proof.
  destruct (String.eqb status "READY").
  - unfold bind at 1.
    destruct (fetch_result_total rid w) as [[[xml | e] w1] ->]; [| eexists; reflexivity].
    unfold bind at 1, pure.
    destruct (Services.parse_top_hit P xml) as [[[[top sp] bs] ev] | e];
      [| eexists; reflexivity].
    unfold bind at 1.
    destruct (fetch_gene_symbol_total top w1) as [g [w2 ->]].
    unfold bind at 1.
    destruct (save_xml_total job_id acc xml w2) as [[[[] | e] w3] ->];
      eexists; reflexivity.
  - destruct (String.eqb status "NO_HITS"); [eexists; reflexivity |].
    destruct (String.eqb status "TIMEOUT"); eexists; reflexivity.
Qed.

Lemma search_returns job_id acc taxid timeout (w : W) :
  App.clock_laws P -> 0 <= timeout ->
  exists r, forall fuel, (Z.to_nat timeout < fuel)%nat ->
    App.search P fuel job_id acc taxid timeout w = Some r.
Proof.
  intros Hc Ht. unfold App.search, App.sleep. unfold bind at 1.
  unfold bind at 1.
  destruct (fetch_fasta_total acc (time_sleep P 3 w)) as [[[fasta | e] w1] ->];
    [| eexists; intros; reflexivity].
  unfold bind at 1.
  destruct (submit_blast_total fasta taxid w1) as [[[rid | e] w2] ->];
    [| eexists; intros; reflexivity].
  unfold bind at 1.
  destruct (Z.eqb_spec timeout 0) as [-> | Hne].
  - eexists. intros fuel Hf. destruct fuel as [| fuel]; [cbn in Hf; lia |].
    rewrite wait_for_blast_None. reflexivity.
  - destruct (wait_for_blast_returns P rid timeout w2 Hc ltac:(lia)) as [o [w3 Hw]].
    destruct o as [status | e].
    + destruct (after_wait_total job_id acc rid status w3) as [r Hr].
      exists r. intros fuel Hf. rewrite (Hw fuel Hf). exact Hr.
    + eexists. intros fuel Hf. rewrite (Hw fuel Hf). reflexivity.
Qed.

Lemma for_accessions_returns job_id taxid timeout total :
  App.clock_laws P -> 0 <= timeout ->
  forall rest i (s : W * store),
    exists s', forall fuel, (Z.to_nat timeout < fuel)%nat ->
      App.for_accessions P fuel job_id taxid timeout total i rest s = Some s'.
Proof.
  intros Hc Ht. induction rest as [| acc rest IH]; intros i s.
  - exists s. intros; reflexivity.
  - destruct (search_returns job_id acc taxid timeout (fst s) Hc Ht) as [[o w1] Hs].
    set (f := match o with Return f => f | Raise e => App.error_fields e end).
    destruct (IH (S i) (App.save_result P job_id acc f i total (w1, snd s))) as [s' Hr].
    exists s'. intros fuel Hf. cbn [App.for_accessions].
    unfold App.iteration, App.process_accession. rewrite (Hs fuel Hf).
    subst f. destruct o; apply Hr, Hf.
Qed.

(** X9.  With a timeout of zero or more and a clock that keeps time,
    [run_blast_job] comes back whatever the services and the database do:
    every poll loop ends within [timeout + 1] turns, and the tables it leaves
    do not depend on how many more turns were allowed. *)
Theorem run_blast_job_ends (job_id : string) (accessions : list string) (taxid : string)
    (timeout : Z) (s : W * store) :
  App.clock_laws P -> 0 <= timeout ->
  exists s',
    forall fuel, (Z.to_nat timeout < fuel)%nat ->
      App.run_blast_job P fuel job_id accessions taxid timeout s = Some s'.
Proof.
  intros Hc Ht. unfold App.run_blast_job.
  destruct (App.mark_running P job_id s) as [[[] | e] s1].
  - destruct (for_accessions_returns job_id taxid timeout (length accessions) Hc Ht
                accessions 0%nat s1) as [s2 H].
    exists (App.mark_done P job_id s2). intros fuel Hf. rewrite (H fuel Hf). reflexivity.
  - exists s1. intros; reflexivity.
Qed.

(** X10.  What a search that did not come back ready leaves in the row, once
    the sequence was fetched and the search submitted: [No hit] in all five
    columns for [NO_HITS]; [TIMEOUT], [TIMEOUT], [BLAST search timed out],
    [NA], [NA] for [TIMEOUT]; and [NA] in all five for any other status, so
    for [FAILED].  No further request is made. *)
Theorem unready_search_row (fuel : nat) (job_id acc taxid : string) (timeout : Z)
    (w w1 w2 w3 : W) (fasta rid status : string) :
  Services.fetch_fasta P acc (time_sleep P 3 w) = Some (Return fasta, w1) ->
  Services.submit_blast P fasta taxid w1 = Some (Return rid, w2) ->
  Services.wait_for_blast P fuel rid (if timeout =? 0 then None else Some timeout) w2
  = Some (Return status, w3) ->
  status <> "READY" ->
  App.process_accession P fuel job_id acc taxid timeout w =
  Some (if String.eqb status "NO_HITS" then
          App.mk_fields "No hit" "No hit" "No hit" "No hit" "No hit"
        else if String.eqb status "TIMEOUT" then
          App.mk_fields "TIMEOUT" "TIMEOUT" "BLAST search timed out" "NA" "NA"
        else App.mk_fields "NA" "NA" "NA" "NA" "NA",
        w3).
Proof.
  intros Hf Hs Hw Hn. unfold App.process_accession, App.search, App.sleep.
  unfold bind at 1. unfold bind at 1. rewrite Hf.
  unfold bind at 1. rewrite Hs.
  unfold bind at 1. rewrite Hw.
  destruct (String.eqb_spec status "READY") as [E | _]; [contradiction |].
  destruct (String.eqb status "NO_HITS"); [reflexivity |].
  destruct (String.eqb status "TIMEOUT"); reflexivity.
Qed.

(** X11.  The row of a search that came back ready: the top hit, species,
    score and e-value parsed from the result, and the gene symbol looked up
    for the top hit.  Saving the XML file does not change the row when it
    succeeds or fails with an [OSError]; any other exception of the write
    turns the row into [ERROR], [ERROR], the text of the exception, [NA],
    [NA], and what was fetched is dropped. *)
Theorem ready_search_row (fuel : nat) (job_id acc taxid : string) (timeout : Z)
    (w w1 w2 w3 w4 w5 w6 : W) (fasta rid xml top_hit species bit_score evalue gene : string)
    (saved : outcome unit) :
  Services.fetch_fasta P acc (time_sleep P 3 w) = Some (Return fasta, w1) ->
  Services.submit_blast P fasta taxid w1 = Some (Return rid, w2) ->
  Services.wait_for_blast P fuel rid (if timeout =? 0 then None else Some timeout) w2
  = Some (Return "READY", w3) ->
  Services.fetch_result P rid w3 = Some (Return xml, w4) ->
  Services.parse_top_hit P xml = Return (top_hit, species, bit_score, evalue) ->
  Services.fetch_gene_symbol P top_hit w4 = Some (Return gene, w5) ->
  write_file P ("blast_results_ncbi/" +:+ job_id +:+ "_" +:+ acc +:+ ".xml") xml w5
  = (saved, w6) ->
  App.process_accession P fuel job_id acc taxid timeout w =
  Some (match saved with
        | Return _ => App.mk_fields top_hit gene species bit_score evalue
        | Raise e =>
            if isinstance_OSError e
            then App.mk_fields top_hit gene species bit_score evalue
            else App.mk_fields "ERROR" "ERROR" (exn_str e) "NA" "NA"
        end,
        w6).
Proof.
  intros Hf Hs Hw Hr Hp Hg Hx. unfold App.process_accession, App.search, App.sleep.
  unfold bind at 1. unfold bind at 1. rewrite Hf.
  unfold bind at 1. rewrite Hs.
  unfold bind at 1. rewrite Hw.
  change (String.eqb "READY" "READY") with true. cbv iota.
  unfold bind at 1. rewrite Hr.
  unfold bind at 1, pure. rewrite Hp.
  unfold bind at 1. rewrite Hg.
  unfold bind at 1, App.save_xml. rewrite Hx.
  destruct saved as [[] | e]; [reflexivity |].
  destruct (isinstance_OSError e); reflexivity.
Qed.

(** X12.  From the row [run] creates to the end of the run, the job row
    shows a progress between 0 and 100 and a status that is [RUNNING] or
    [DONE]. *)
Theorem progress_in_range (job_id : string) (accessions : list string) (taxid : string)
    (timeout : Z) (r0 r : @App.runner W) (j : job) :
  App.spawned job_id r0 ->
  App.reach P job_id accessions taxid timeout r0 r ->
  jobs (App.db r) !! job_id = Some j ->
  0 <= progress j <= 100 /\ (status j = "RUNNING" \/ status j = "DONE").
Proof.
  intros Hs Hr Hj.
  destruct (reach_on_track P job_id accessions taxid timeout r0 r
              (spawned_on_track job_id accessions r0 Hs) Hr) as [[j' [Hj' Ht]] Hm].
  rewrite Hj in Hj'. injection Hj' as <-.
  destruct Hs as [_ [user [org H0]]].
  pose proof (Hm _ _ H0 Hj) as Hge. cbn [progress] in Hge.
  destruct (App.at_point r) as [| i rest |].
  - destruct Ht as [Hp Hst]. split; [lia | left; exact Hst].
  - destruct Ht as [Hlen [Hst Hp]]. split; [| left; exact Hst].
    split; [exact Hge |].
    etransitivity; [exact Hp |]. apply progress_bound_le_100. lia.
  - destruct Ht as [[Hst Hp] | [Hst Hp]].
    + split; [lia | right; exact Hst].
    + split; [lia | left; exact Hst].
Qed.

End RunnerEnds.

Section RunnerScenarios.
Import Database.

Lemma wait_for_blast_waits_forever_witness :
  Services.wait_for_blast (Sim.platform Sim.stuck) 1000 "ABC123XYZ" (Some (-1)) Sim.start
  = None.
Proof.
  apply (wait_for_blast_waits_forever (Sim.platform Sim.stuck) "ABC123XYZ" (-1));
    [lia | apply stuck_never_terminal].
Defined.

Lemma run_blast_job_ends_witness :
  exists s',
    forall fuel, (5 < fuel)%nat ->
      App.run_blast_job (Sim.platform Sim.stuck) fuel "job1" ["P01308"; "BAD1"] "9606" 5
        (Sim.start, Lab.two_jobs) = Some s'.
Proof.
  apply (run_blast_job_ends (Sim.platform Sim.stuck) "job1" ["P01308"; "BAD1"] "9606" 5
           (Sim.start, Lab.two_jobs) (sim_clock_laws Sim.stuck)).
  lia.
Defined.

Lemma unready_search_row_witness :
  App.process_accession (Sim.platform Sim.no_hits) 10 "job1" "P01308" "9606" 900 Sim.start =
  Some (App.mk_fields "No hit" "No hit" "No hit" "No hit" "No hit", Sim.mk_world 11 1).
Proof.
  apply (unready_search_row (Sim.platform Sim.no_hits) 10 "job1" "P01308" "9606" 900
           Sim.start (Sim.mk_world 3 0) (Sim.mk_world 3 0) (Sim.mk_world 11 1)
           ">sp|P01308|INS_HUMAN Insulin" "ABC123XYZ" "NO_HITS");
    [vm_compute; reflexivity | vm_compute; reflexivity | vm_compute; reflexivity
    | discriminate].
Defined.

Lemma ready_search_row_witness :
  App.process_accession (Sim.platform Lab.read_only_disk) 10 "job1" "P01308" "9606" 900
    Sim.start =
  Some (App.mk_fields "NP_571131" "ins" "Danio rerio" "215.3" "2e-70", Sim.mk_world 19 2).
Proof.
  apply (ready_search_row (Sim.platform Lab.read_only_disk) 10 "job1" "P01308" "9606" 900
           Sim.start (Sim.mk_world 3 0) (Sim.mk_world 3 0) (Sim.mk_world 19 2)
           (Sim.mk_world 19 2) (Sim.mk_world 19 2) (Sim.mk_world 19 2)
           ">sp|P01308|INS_HUMAN Insulin" "ABC123XYZ" "<BlastOutput>...</BlastOutput>"
           "NP_571131" "Danio rerio" "215.3" "2e-70" "ins"
           (Raise (mk_exn OSError "[Errno 30] Read-only file system")));
    vm_compute; reflexivity.
Defined.

Lemma progress_in_range_witness :
  exists r j,
    App.run_steps (Sim.platform Sim.ready) 10 "job1" ["P01308"; "BAD1"] "9606" 900 2
      (Sim.spawn "job1") = Some r /\
    jobs (App.db r) !! "job1" = Some j /\
    (progress j, status j) = (50, "RUNNING") /\
    0 <= progress j <= 100 /\ (status j = "RUNNING" \/ status j = "DONE").
Proof.
  destruct (App.run_steps (Sim.platform Sim.ready) 10 "job1" ["P01308"; "BAD1"] "9606" 900 2
              (Sim.spawn "job1")) as [r |] eqn:R; [| vm_compute in R; discriminate R].
  destruct (jobs (App.db r) !! "job1") as [j |] eqn:J.
  - exists r, j. split; [reflexivity |]. split; [exact J |]. split.
    + vm_compute in R. injection R as <-. vm_compute in J. injection J as <-. reflexivity.
    + apply (progress_in_range (Sim.platform Sim.ready) "job1" ["P01308"; "BAD1"] "9606" 900
               (Sim.spawn "job1") r j (spawn_spawned "job1")
               (run_steps_reach _ _ _ _ _ _ _ _ _ R) J).
  - vm_compute in R. injection R as <-. vm_compute in J. discriminate J.
Defined.

End RunnerScenarios.

(** ** Deleting a job *)
Section DeleteFacts.
Context {W : Type} (P : Platform W).
Import Database.

(** X13.  Without a true [is_admin] in the session, [delete_job] answers 403
    and touches nothing: the tables and the outside world are as before, so
    the database is not even opened.  Being logged in, or owning the job,
    makes no difference. *)
Theorem delete_job_needs_admin (sess : App.session) (job_id : string) (s : W * store) :
  (forall a, App.session_is_admin sess = Some a -> a = 0) ->
  App.delete_job P sess job_id s =
  (Return (App.mk_http_response 403 [] (App.Text "Unauthorized")), s).
Proof.
  intros H. unfold App.delete_job.
  destruct (App.session_is_admin sess) as [a |]; [| reflexivity].
  rewrite (H a eq_refl). reflexivity.
Qed.

Lemma select_results_delete_same jid st : select_results jid (delete_job_rows jid st) = [].
Proof.
  unfold select_results, delete_job_rows. cbn [results].
  induction (results st) as [| r l IH]; [reflexivity |].
  cbn [List.filter]. destruct (String.eqb (job_id r) jid) eqn:E; cbn [negb]; [exact IH |].
  cbn [List.filter]. rewrite E. exact IH.
Qed.

Lemma select_results_delete_other jid j st :
  j <> jid -> select_results j (delete_job_rows jid st) = select_results j st.
Proof.
  intros Hj. unfold select_results, delete_job_rows. cbn [results].
  induction (results st) as [| r l IH]; [reflexivity |].
  cbn [List.filter]. destruct (String.eqb_spec (job_id r) jid) as [E | E]; cbn [negb].
  - destruct (String.eqb_spec (job_id r) j) as [E' | _]; [congruence | exact IH].
  - cbn [List.filter]. rewrite IH. reflexivity.
Qed.

(** X14.  With a true [is_admin] in the session and a database block that
    commits, [delete_job] removes the job whoever owns it: afterwards the job
    has no row in [jobs] and none in [results], every other job has the rows
    it had, [/status] answers 404 for the job and its CSV export is the
    header line alone. *)
Theorem admin_delete_removes_job (sess sess' : App.session) (job_id : string) (a : Z)
    (w : W) (st : store) :
  App.session_is_admin sess = Some a -> a <> 0 ->
  fst (db_transaction P w) = Return tt ->
  exists st',
    App.delete_job P sess job_id (w, st) =
    (Return (App.mk_http_response 302 [] (App.Redirect "dashboard")),
     (snd (db_transaction P w), st')) /\
    select_job job_id st' = None /\
    select_results job_id st' = [] /\
    (forall j, j <> job_id ->
       select_job j st' = select_job j st /\ select_results j st' = select_results j st) /\
    (forall w1, fst (db_transaction P w1) = Return tt ->
       fst (App.status P sess' job_id (w1, st')) =
       Return (App.mk_http_response 404 [] (App.Json [("error", App.JStr "Invalid job ID")])) /\
       exists resp,
         fst (App.download_csv P sess' job_id (w1, st')) = Return resp /\
         App.content resp =
         App.Stream ["accession,top_hit,gene,species,bit_score,evalue" +:+ App.newline]).
Proof.
  intros Ha Hne Hdb. exists (delete_job_rows job_id st).
  assert (Hj : select_job job_id (delete_job_rows job_id st) = None).
  { unfold select_job, delete_job_rows. cbn [jobs]. rewrite lookup_delete_eq. reflexivity. }
  split; [| split; [exact Hj | split; [apply select_results_delete_same | split]]].
  - unfold App.delete_job. rewrite Ha. change (default 0 (Some a)) with a.
    destruct (Z.eqb_spec a 0) as [E | _]; [contradiction |].
    rewrite (transaction_commits P _ w st (delete_job_rows job_id st) Hdb eq_refl).
    reflexivity.
  - intros j Hne'. split; [| apply select_results_delete_other, Hne'].
    unfold select_job, delete_job_rows. cbn [jobs].
    rewrite lookup_delete_ne by congruence. reflexivity.
  - intros w1 H1. unfold App.status, App.download_csv.
    destruct (db_transaction P w1) as [o w2]. cbn [fst] in H1. subst o.
    rewrite Hj, select_results_delete_same. split; [reflexivity |].
    eexists. split; reflexivity.
Qed.

Lemma run_blast_job_commits fuel jid accessions taxid timeout (w w' : W) st st' :
  App.store_writes_succeed P ->
  App.run_blast_job P fuel jid accessions taxid timeout (w, st) = Some (w', st') ->
  Effects.same_jobs_but jid st st' /\
  exists new,
    results st' = results st ++ new /\
    Forall (fun r => Database.job_id r = jid) new /\
    accession <$> new = Some <$> accessions.
Proof.
  intros Hw. unfold App.run_blast_job. rewrite mark_running_commits by exact Hw.
  destruct (App.for_accessions P fuel jid taxid timeout (length accessions) 0
              accessions _) as [[w2 st2] |] eqn:F; [| discriminate].
  rewrite mark_done_commits by exact Hw. intros [= _ <-].
  destruct (for_accessions_effect _ _ _ _ _ _ _ _ _ _ _ _ F) as [J [new [R2 [F2 [_ O2]]]]].
  split.
  - eapply same_jobs_trans; [apply same_jobs_update_status_progress |].
    eapply same_jobs_trans; [exact J | apply same_jobs_update_status_progress].
  - exists new. cbn [results update_status_progress] in *.
    repeat split; [exact R2 | exact F2 | apply O2; [exact Hw | cbn; lia]].
Qed.




End DeleteFacts.

Section DeleteScenarios.
Import Database.

Lemma delete_job_needs_admin_witness :
  App.delete_job (Sim.platform Sim.ready) (Lab.user_session 1) "job1" (Sim.start, Lab.two_jobs)
  = (Return (App.mk_http_response 403 [] (App.Text "Unauthorized")),
     (Sim.start, Lab.two_jobs)).
Proof.
  apply (delete_job_needs_admin (Sim.platform Sim.ready) (Lab.user_session 1) "job1"
           (Sim.start, Lab.two_jobs)).
  intros a H. vm_compute in H. injection H as <-. reflexivity.
Defined.

Lemma admin_delete_removes_job_witness :
  exists st',
    App.delete_job (Sim.platform Sim.ready) Lab.admin_session "job0" (Sim.start, Lab.two_jobs)
    = (Return (App.mk_http_response 302 [] (App.Redirect "dashboard")), (Sim.start, st')) /\
    select_job "job0" st' = None /\
    select_results "job0" st' = [] /\
    select_job "job1" st' = Some (0, "RUNNING").
Proof.
  destruct (admin_delete_removes_job (Sim.platform Sim.ready) Lab.admin_session
              Sim.anonymous "job0" 1 Sim.start Lab.two_jobs eq_refl ltac:(lia) eq_refl)
    as [st' [H1 [H2 [H3 [H4 _]]]]].
  exists st'. split; [exact H1 |]. split; [exact H2 |]. split; [exact H3 |].
  destruct (H4 "job1") as [H5 _]; [discriminate |]. rewrite H5. reflexivity.
Defined.


End DeleteScenarios.

(** ** The form of [/run] *)
Section FormFacts.
Import Forms.
Local Arguments Ascii.eqb : simpl never.

Lemma linebreak_isspace c : is_linebreak c = true -> isspace c = true.
Proof. destruct c as [[] [] [] [] [] [] [] []]; vm_compute; congruence. Qed.





Lemma lstrip_blank s : Bracket.all_chars isspace s = true -> lstrip s = "".
Proof.
  induction s as [| c s IH]; [reflexivity |]. cbn [Bracket.all_chars lstrip].
  intros H. apply andb_prop in H. destruct H as [-> H]. apply IH, H.
Qed.

Lemma rstrip_blank s : rstrip s = "" <-> Bracket.all_chars isspace s = true.
Proof.
  induction s as [| c s IH]; [split; reflexivity |].
  rewrite rstrip_cons. cbn [Bracket.all_chars]. destruct (rstrip s) as [| d r].
  - destruct (isspace c).
    + split; [intros _; apply IH; reflexivity | reflexivity].
    + split; discriminate.
  - split; [discriminate |]. intros H. apply andb_prop in H. destruct H as [_ H].
    apply IH in H. discriminate H.
Qed.

Lemma blank_lstrip s :
  Bracket.all_chars isspace (lstrip s) = Bracket.all_chars isspace s.
Proof.
  induction s as [| c s IH]; [reflexivity |]. cbn [lstrip].
  destruct (isspace c) eqn:E; [| reflexivity].
  cbn [Bracket.all_chars]. rewrite E. exact IH.
Qed.

(** [s.strip()] is empty exactly when [s] holds white space only. *)
Lemma strip_blank s : nonempty (strip s) = negb (Bracket.all_chars isspace s).
Proof.
  rewrite <- blank_lstrip. unfold strip.
  destruct (Bracket.all_chars isspace (lstrip s)) eqn:E.
  - apply rstrip_blank in E. rewrite E. reflexivity.
  - destruct (rstrip (lstrip s)) eqn:R; [| reflexivity].
    assert (H : rstrip (lstrip s) = "") by exact R.
    apply rstrip_blank in H. congruence.
Qed.

Lemma segments_cons c rest :
  segments (String c rest) =
  if is_linebreak c then
    match rest with
    | String d rest' =>
        if Ascii.eqb c CR && Ascii.eqb d LF
        then EmptyString :: segments rest'
        else EmptyString :: segments rest
    | EmptyString => EmptyString :: segments rest
    end
  else
    match segments rest with
    | x :: l => String c x :: l
    | [] => [String c EmptyString]
    end.
Proof. reflexivity. Qed.

Lemma string_ind2 (Q : string -> Prop) :
  Q "" ->
  (forall c rest,
     Q rest -> (forall d rest', rest = String d rest' -> Q rest') -> Q (String c rest)) ->
  forall s, Q s.
Proof.
  intros H0 Hs s.
  assert (H : Q s /\ forall d r, s = String d r -> Q r); [| exact (proj1 H)].
  induction s as [| c s [IH1 IH2]].
  - split; [exact H0 | discriminate].
  - split; [apply Hs; assumption |]. intros d r [= _ <-]. exact IH1.
Qed.

Lemma segments_blank s :
  forallb (fun a => Bracket.all_chars isspace a) (segments s) = Bracket.all_chars isspace s.
Proof.
  induction s as [| c rest IH IH'] using string_ind2; [reflexivity |].
  rewrite segments_cons. destruct (is_linebreak c) eqn:Hc.
  - apply linebreak_isspace in Hc. cbn [Bracket.all_chars]. rewrite Hc. cbn [andb].
    destruct rest as [| d rest']; [reflexivity |].
    destruct (Ascii.eqb c CR && Ascii.eqb d LF) eqn:E.
    + cbn [forallb Bracket.all_chars andb]. rewrite (IH' d rest' eq_refl).
      apply andb_prop in E. destruct E as [_ E]. apply Ascii.eqb_eq in E. subst d.
      reflexivity.
    + cbn [forallb Bracket.all_chars andb]. rewrite IH. reflexivity.
  - cbn [Bracket.all_chars]. rewrite <- IH.
    destruct (segments rest) as [| x l]; cbn [forallb Bracket.all_chars].
    + rewrite andb_true_r. reflexivity.
    + rewrite andb_assoc. reflexivity.
Qed.


Lemma drop_last_empty_blank l :
  forallb (fun a => Bracket.all_chars isspace a) (drop_last_empty l) =
  forallb (fun a => Bracket.all_chars isspace a) l.
Proof.
  induction l as [| x l IH]; [reflexivity |].
  destruct l as [| y l'].
  - destruct x; reflexivity.
  - change (drop_last_empty (x :: y :: l')) with (x :: drop_last_empty (y :: l')).
    cbn [forallb]. rewrite IH. reflexivity.
Qed.



Lemma forallb_pointwise {A} (f g : A -> bool) l :
  (forall a, f a = g a) -> forallb f l = forallb g l.
Proof.
  intros H. induction l as [| x l IH]; [reflexivity |].
  cbn [forallb]. rewrite H, IH. reflexivity.
Qed.

Lemma filter_nil_forallb {A} (p : A -> bool) l :
  List.filter p l = [] <-> forallb (fun a => negb (p a)) l = true.
Proof.
  induction l as [| x l IH]; [split; reflexivity |].
  cbn [List.filter forallb]. destruct (p x); cbn [negb andb].
  - split; discriminate.
  - exact IH.
Qed.

Lemma parse_accessions_nil accession_input :
  parse_accessions accession_input = [] <-> strip accession_input = "".
Proof.
  unfold parse_accessions.
  assert (E : forallb (fun a => negb (nonempty (strip a))) (splitlines accession_input)
              = negb (nonempty (strip accession_input))).
  { rewrite strip_blank, negb_involutive, <- segments_blank.
    unfold splitlines. rewrite <- drop_last_empty_blank.
    apply forallb_pointwise. intros a. rewrite strip_blank, negb_involutive. reflexivity. }
  split.
  - intros H. apply map_eq_nil in H. apply filter_nil_forallb in H.
    rewrite E in H. destruct (strip accession_input); [reflexivity | discriminate H].
  - intros H.
    replace (List.filter _ _) with (@nil string); [reflexivity |].
    symmetry. apply filter_nil_forallb. rewrite E, H. reflexivity.
Qed.


End FormFacts.

(** ** [/run] *)
Section RunFacts.
Context {W : Type} (P : Platform W) (L : Accounts.Library W).
Import Database.

Lemma taxid_of_organism organism :
  default "7955" (Web.TAXID_CHOICES !! organism) =
  if String.eqb organism "human" then "9606" else "7955".
Proof.
  unfold Web.TAXID_CHOICES.
  destruct (String.eqb_spec organism "human") as [-> | Hh].
  - rewrite lookup_insert_eq. reflexivity.
  - rewrite lookup_insert_ne by congruence.
    destruct (decide (organism = "zebrafish")) as [-> | Hz].
    + rewrite lookup_insert_eq. reflexivity.
    + rewrite lookup_insert_ne by congruence. rewrite lookup_empty. reflexivity.
Qed.

Lemma logged_in_Some v user :
  Web.logged_in v = Some user -> v = Some user /\ user <> 0.
Proof.
  unfold Web.logged_in. destruct v as [[| p | p] |]; intros [= <-]; split;
    (reflexivity || discriminate).
Qed.

Lemma create_job_inserts job_id user org (w w' : W) st st' :
  App.create_job P job_id user org (w, st) = (Return tt, (w', st')) ->
  jobs st !! job_id = None /\
  jobs st' = <[job_id := mk_job user org 0 "RUNNING"]> (jobs st) /\
  results st' = results st.
Proof.
  unfold App.create_job, App.transaction.
  destruct (db_transaction P w) as [[[] | e] w1]; [| discriminate].
  unfold insert_job. destruct (jobs st !! job_id); [discriminate |].
  intros [= _ <-]. repeat split.
Qed.

Lemma create_job_fails job_id user org (w w' : W) st st' e :
  App.create_job P job_id user org (w, st) = (Raise e, (w', st')) -> st' = st.
Proof.
  unfold App.create_job, App.transaction.
  destruct (db_transaction P w) as [[[] | e'] w1]; [| intros [= _ _ <-]; reflexivity].
  destruct (insert_job job_id user org st); [discriminate | intros [= _ _ <-]; reflexivity].
Qed.

(** X17.  When [run] starts a thread it answers with the redirect to the
    dashboard, and the thread is given what the form said: the identifier
    just drawn, under which the job row was inserted for the user of the
    session with the organism of the form, progress 0 and status [RUNNING];
    the accessions of the field, at least one; taxon 9606 when the organism
    is [human] and 7955 for every other organism; and the integer the
    timeout field reads as, 900 when the field is missing.  No other row of
    [jobs] and no row of [results] changes. *)
Theorem run_starts_job (req : Web.request) (sess : App.session) (w w' : W)
    (st st' : store) (rep : Web.reply) (t : Web.thread) :
  Web.run P L req sess (w, st) = (rep, Some t, (w', st')) ->
  let organism := default "zebrafish" (Web.form req !! "organism") in
  rep = Web.Answer (Web.RedirectTo "dashboard") /\
  (exists user,
     App.session_user_id sess = Some user /\ user <> 0 /\
     jobs st' = <[Web.t_job_id t := mk_job user organism 0 "RUNNING"]> (jobs st)) /\
  jobs st !! Web.t_job_id t = None /\
  results st' = results st /\
  Web.t_job_id t = fst (Accounts.uuid4_hex L w) /\
  Web.t_accessions t = Forms.parse_accessions (default "" (Web.form req !! "accessions")) /\
  Web.t_accessions t <> [] /\
  Web.t_taxid t = (if String.eqb organism "human" then "9606" else "7955") /\
  Forms.int_of_str (default "900" (Web.form req !! "timeout")) = Some (Web.t_timeout t) /\
  App.spawned (Web.t_job_id t) (App.mk_runner App.AtStart w' st').
Proof.
  unfold Web.run. cbn [fst snd].
  destruct (Web.logged_in (App.session_user_id sess)) as [user |] eqn:Hl; [| discriminate].
  apply logged_in_Some in Hl. destruct Hl as [Hu Hne].
  destruct (Forms.nonempty (strip (default "" (Web.form req !! "accessions")))) eqn:Hb;
    cbn [negb]; [| discriminate].
  destruct (Forms.int_of_str (default "900" (Web.form req !! "timeout"))) as [timeout |]
    eqn:Hi; [| discriminate].
  destruct (Accounts.uuid4_hex L w) as [job_id w1] eqn:Hid.
  destruct (App.create_job P job_id user _ (w1, st)) as [[[] | e] [w2 st2]] eqn:Hc;
    [| discriminate].
  intros [= <- <- <- <-].
  destruct (create_job_inserts _ _ _ _ _ _ _ Hc) as [Hnone [Hjobs Hres]].
  cbn [Web.t_job_id Web.t_accessions Web.t_taxid Web.t_timeout fst].
  split; [reflexivity |]. split; [exists user; auto |].
  split; [exact Hnone |]. split; [exact Hres |]. split; [reflexivity |].
  split; [reflexivity |]. split.
  - intros E. apply parse_accessions_nil in E. rewrite E in Hb. discriminate Hb.
  - split; [apply taxid_of_organism |]. split; [reflexivity |].
    apply (create_job_spawned P _ _ _ _ _ _ _ Hc).
Qed.

(** X18.  When [run] starts no thread the tables are as they were.  It
    happens in four ways: nobody is logged in (redirect to the login page),
    the accessions field holds white space only (400), the timeout field is
    no integer ([ValueError]), or the insertion of the job row raised.  In
    the first three nothing outside was touched either: no identifier was
    drawn and the database was not opened. *)
Theorem run_without_thread (req : Web.request) (sess : App.session) (w w' : W)
    (st st' : store) (rep : Web.reply) :
  Web.run P L req sess (w, st) = (rep, None, (w', st')) ->
  st' = st /\
  (rep = Web.Answer (Web.RedirectTo "login") /\ w' = w /\
     (forall user, App.session_user_id sess = Some user -> user = 0) \/
   rep = Web.Answer (Web.Send 400 "No accession numbers provided") /\ w' = w /\
     strip (default "" (Web.form req !! "accessions")) = "" \/
   rep = Web.Fails Web.ValueError /\ w' = w /\
     Forms.int_of_str (default "900" (Web.form req !! "timeout")) = None \/
   exists e, rep = Web.Fails (Web.Uncaught e)).
Proof.
  unfold Web.run. cbn [fst snd].
  destruct (Web.logged_in (App.session_user_id sess)) as [user |] eqn:Hl.
  - destruct (Forms.nonempty (strip (default "" (Web.form req !! "accessions")))) eqn:Hb;
      cbn [negb].
    + destruct (Forms.int_of_str (default "900" (Web.form req !! "timeout")))
        as [timeout |] eqn:Hi.
      * destruct (Accounts.uuid4_hex L w) as [job_id w1].
        destruct (App.create_job P job_id user _ (w1, st)) as [[[] | e] [w2 st2]] eqn:Hc;
          [discriminate |].
        intros [= <- <- <-]. split; [eapply create_job_fails, Hc |].
        right. right. right. exists e. reflexivity.
      * intros [= <- <- <-]. split; [reflexivity |]. right. right. left. auto.
    + intros [= <- <- <-]. split; [reflexivity |]. right. left.
      split; [reflexivity |]. split; [reflexivity |].
      destruct (strip _); [reflexivity | discriminate Hb].
  - intros [= <- <- <-]. split; [reflexivity |]. left.
    split; [reflexivity |]. split; [reflexivity |].
    intros user Hu. rewrite Hu in Hl. destruct user; [reflexivity | discriminate ..].
Qed.

Lemma run_blast_job_done fuel jid accessions taxid timeout (w w' : W) st st' j :
  App.store_writes_succeed P ->
  jobs st !! jid = Some j ->
  App.run_blast_job P fuel jid accessions taxid timeout (w, st) = Some (w', st') ->
  select_job jid st' = Some (100, "DONE").
Proof.
  intros Hw Hj. unfold App.run_blast_job. rewrite mark_running_commits by exact Hw.
  destruct (App.for_accessions P fuel jid taxid timeout (length accessions) 0
              accessions _) as [[w2 st2] |] eqn:F; [| discriminate].
  rewrite mark_done_commits by exact Hw. intros [= _ <-].
  destruct (for_accessions_effect _ _ _ _ _ _ _ _ _ _ _ _ F) as [[_ J] _].
  unfold select_job. rewrite jobs_update_status_progress.
  rewrite jobs_update_status_progress, Hj in J. cbn in J.
  destruct (jobs st2 !! jid); [reflexivity | discriminate J].
Qed.

(** X19.  From the form to the finished job: when [run] has started a
    thread under an identifier that has no result rows yet, every store block
    commits and the thread comes back, the job is [DONE] at progress 100 and
    its result rows are, in order, one for each accession of the form.  The
    rows of every other job are as they were before the request. *)
Theorem submitted_job_completes (fuel : nat) (req : Web.request) (sess : App.session)
    (w w1 w2 : W) (st st1 st2 : store) (rep : Web.reply) (t : Web.thread) :
  App.store_writes_succeed P ->
  Web.run P L req sess (w, st) = (rep, Some t, (w1, st1)) ->
  select_results (Web.t_job_id t) st = [] ->
  Web.run_thread P fuel t (w1, st1) = Some (w2, st2) ->
  select_job (Web.t_job_id t) st2 = Some (100, "DONE") /\
  accession <$> select_results (Web.t_job_id t) st2 =
  Some <$> Forms.parse_accessions (default "" (Web.form req !! "accessions")) /\
  (forall j, j <> Web.t_job_id t ->
     select_job j st2 = select_job j st /\ select_results j st2 = select_results j st).
Proof.
  intros Hw Hrun Hfresh Ht. unfold Web.run_thread in Ht.
  assert (H1 : jobs st !! Web.t_job_id t = None /\
               (exists j, jobs st1 = <[Web.t_job_id t := j]> (jobs st)) /\
               results st1 = results st /\
               Web.t_accessions t =
               Forms.parse_accessions (default "" (Web.form req !! "accessions"))).
  { revert Hrun. unfold Web.run. cbn [fst snd].
    destruct (Web.logged_in (App.session_user_id sess)) as [user |]; [| discriminate].
    destruct (negb _); [discriminate |].
    destruct (Forms.int_of_str _) as [timeout |]; [| discriminate].
    destruct (Accounts.uuid4_hex L w) as [job_id w0].
    destruct (App.create_job P job_id user _ (w0, st)) as [[[] | e] [w3 st3]] eqn:Hc;
      [| discriminate].
    intros [= <- <- <- <-].
    destruct (create_job_inserts _ _ _ _ _ _ _ Hc) as [Hnone [Hjobs Hres]].
    cbn [Web.t_job_id Web.t_accessions]. repeat split; eauto. }
  destruct H1 as [Hnone [[j0 Hjobs] [Hres Hacc]]].
  destruct (run_blast_job_commits P _ _ _ _ _ _ _ _ _ Hw Ht) as [[Jo _] [new [R2 [F2 O2]]]].
  assert (Hj0 : jobs st1 !! Web.t_job_id t = Some j0)
    by (rewrite Hjobs; apply lookup_insert_eq).
  split; [eapply run_blast_job_done; eassumption |]. split.
  - unfold select_results. rewrite R2, Hres, List.filter_app.
    fold (select_results (Web.t_job_id t) st). rewrite Hfresh. cbn [app].
    rewrite (filter_own_job _ _ F2), O2, Hacc. reflexivity.
  - intros j Hj. split.
    + unfold select_job. rewrite (Jo j Hj), Hjobs.
      rewrite lookup_insert_ne by congruence. reflexivity.
    + unfold select_results. rewrite R2, Hres, List.filter_app.
      rewrite (filter_other_job _ _ _ Hj F2). apply app_nil_r.
Qed.

(** X20.  Once the session is cleared by [logout], [run] sends to the login
    page without creating anything, and [delete_job] answers 403 without
    deleting anything, whatever the session was. *)
Theorem logout_ends_session (sess : App.session) (req : Web.request) (job_id : string)
    (s : W * store) :
  Web.run P L req (snd (Web.logout sess)) s =
  (Web.Answer (Web.RedirectTo "login"), None, s) /\
  App.delete_job P (snd (Web.logout sess)) job_id s =
  (Return (App.mk_http_response 403 [] (App.Text "Unauthorized")), s).
Proof. split; reflexivity. Qed.

End RunFacts.

Section RunScenarios.
Import Database.

Lemma run_starts_job_witness :
  let req :=
    Lab.post [("accessions", "P01308" +:+ App.newline +:+ "  BAD1 " +:+ App.newline);
              ("organism", "human"); ("timeout", "-5")] in
  exists w' st' t,
    Web.run (Sim.platform Sim.ready) Lab.library req (Lab.user_session 7)
      (Sim.start, Lab.two_jobs)
    = (Web.Answer (Web.RedirectTo "dashboard"), Some t, (w', st')) /\
    Web.t_accessions t = ["P01308"; "BAD1"] /\
    Web.t_taxid t = "9606" /\
    Web.t_timeout t = -5 /\
    App.spawned (Web.t_job_id t) (App.mk_runner App.AtStart w' st').
Proof.
  intros req.
  destruct (Web.run (Sim.platform Sim.ready) Lab.library req (Lab.user_session 7)
              (Sim.start, Lab.two_jobs)) as [[rep [t |]] [w' st']] eqn:R;
    [| vm_compute in R; discriminate R].
  pose proof (run_starts_job (Sim.platform Sim.ready) Lab.library req (Lab.user_session 7)
                Sim.start w' Lab.two_jobs st' rep t R) as H.
  cbv zeta in H.
  destruct H as [-> [_ [_ [_ [_ [Hacc [_ [Htax [Hint Hsp]]]]]]]]].
  exists w', st', t. split; [reflexivity |].
  split; [rewrite Hacc; vm_compute; reflexivity |].
  split; [rewrite Htax; vm_compute; reflexivity |].
  split; [| exact Hsp].
  assert (E : Forms.int_of_str "-5" = Some (-5)) by (vm_compute; reflexivity).
  change (default "900" (Web.form req !! "timeout")) with "-5" in Hint.
  rewrite E in Hint. injection Hint as <-. reflexivity.
Defined.

Lemma run_without_thread_witness :
  let req := Lab.post [("accessions", "P01308"); ("timeout", "15 min")] in
  Web.run (Sim.platform Sim.ready) Lab.library req (Lab.user_session 7)
    (Sim.start, Lab.two_jobs)
  = (Web.Fails Web.ValueError, None, (Sim.start, Lab.two_jobs)) /\
  Forms.int_of_str "15 min" = None.
Proof.
  intros req.
  assert (R : Web.run (Sim.platform Sim.ready) Lab.library req (Lab.user_session 7)
                (Sim.start, Lab.two_jobs)
              = (Web.Fails Web.ValueError, None, (Sim.start, Lab.two_jobs)))
    by (vm_compute; reflexivity).
  split; [exact R |].
  destruct (run_without_thread (Sim.platform Sim.ready) Lab.library req (Lab.user_session 7)
              Sim.start Sim.start Lab.two_jobs Lab.two_jobs (Web.Fails Web.ValueError) R)
    as [_ [[H _] | [[H _] | [[_ [_ H]] | [e H]]]]];
    [discriminate H | discriminate H | exact H | discriminate H].
Defined.

Lemma submitted_job_completes_witness :
  let req :=
    Lab.post [("accessions", "P01308" +:+ App.newline +:+ "  BAD1 " +:+ App.newline)] in
  exists rep t w1 st1 w2 st2,
    Web.run (Sim.platform Sim.ready) Lab.library req (Lab.user_session 7)
      (Sim.start, Lab.two_jobs) = (rep, Some t, (w1, st1)) /\
    Web.run_thread (Sim.platform Sim.ready) 10 t (w1, st1) = Some (w2, st2) /\
    select_job (Web.t_job_id t) st2 = Some (100, "DONE") /\
    accession <$> select_results (Web.t_job_id t) st2 = [Some "P01308"; Some "BAD1"].
Proof.
  intros req.
  destruct (Web.run (Sim.platform Sim.ready) Lab.library req (Lab.user_session 7)
              (Sim.start, Lab.two_jobs)) as [[rep [t |]] [w1 st1]] eqn:R;
    [| vm_compute in R; discriminate R].
  destruct (Web.run_thread (Sim.platform Sim.ready) 10 t (w1, st1)) as [[w2 st2] |] eqn:T.
  - exists rep, t, w1, st1, w2, st2. split; [reflexivity |]. split; [exact T |].
    assert (F : select_results (Web.t_job_id t) Lab.two_jobs = []).
    { vm_compute in R. injection R as _ <- _ _. reflexivity. }
    destruct (submitted_job_completes (Sim.platform Sim.ready) Lab.library 10 req
                (Lab.user_session 7) Sim.start w1 w2 Lab.two_jobs st1 st2 rep t
                sim_writes_succeed R F T) as [H1 [H2 _]].
    split; [exact H1 |]. rewrite H2. vm_compute. reflexivity.
  - vm_compute in R. injection R as _ <- <- <-. vm_compute in T. discriminate T.
Defined.

End RunScenarios.

(** ** Accounts *)
Section AccountFacts.
Context {W : Type} (P : Platform W) (L : Accounts.Library W).
Import Accounts.

Lemma select_user_Some name u r :
  select_user name u = Some r -> In r (rows u) /\ username r = name.
Proof.
  unfold select_user. intros H. apply List.find_some in H. destruct H as [H1 H2].
  split; [exact H1 | apply String.eqb_eq, H2].
Qed.

Lemma select_user_None name u :
  select_user name u = None -> forall r, In r (rows u) -> username r <> name.
Proof.
  unfold select_user. intros H r Hr E.
  pose proof (List.find_none _ _ H r Hr) as H'. cbv beta in H'.
  rewrite E, String.eqb_refl in H'. discriminate H'.
Qed.

Lemma select_user_taken name u :
  (exists r, In r (rows u) /\ username r = name) <-> select_user name u <> None.
Proof.
  split.
  - intros [r [Hr E]] H. exact (select_user_None name u H r Hr E).
  - intros H. destruct (select_user name u) as [r |] eqn:S; [| contradiction].
    exists r. apply select_user_Some, S.
Qed.

Lemma select_user_app name l r s :
  (forall x, In x l -> username x <> name) ->
  username r = name ->
  select_user name (mk_users (l ++ [r]) s) = Some r.
Proof.
  intros Hl Hr. unfold select_user. cbn [rows].
  induction l as [| x l IH]; cbn [app List.find].
  - rewrite Hr, String.eqb_refl. reflexivity.
  - destruct (String.eqb_spec (username x) name) as [E | _].
    + exfalso. apply (Hl x); [left; reflexivity | exact E].
    + apply IH. intros y Hy. apply Hl. right. exact Hy.
Qed.

Lemma insert_user_cases name hash admin u :
  match insert_user name hash admin u with
  | None => select_user name u <> None
  | Some u' =>
      select_user name u = None /\
      u' = mk_users (rows u ++ [mk_user (seq u + 1) name hash admin]) (seq u + 1)
  end.
Proof.
  unfold insert_user. destruct (select_user name u); [discriminate | split; reflexivity].
Qed.

Lemma users_ok_insert name hash admin u :
  Effects.users_ok u -> select_user name u = None ->
  Effects.users_ok (mk_users (rows u ++ [mk_user (seq u + 1) name hash admin]) (seq u + 1)).
Proof.
  intros [Hs [Hn [Hi Hb]]] Hnone. unfold Effects.users_ok. cbn [rows seq].
  rewrite !fmap_app. cbn [fmap list_fmap username id].
  split; [lia |]. split; [| split].
  - apply NoDup_app. split; [exact Hn |]. split; [| apply NoDup_singleton].
    intros x Hx Hx'. apply list_elem_of_singleton in Hx'. subst x.
    apply list_elem_of_fmap in Hx. destruct Hx as [r [E Hr]].
    apply (select_user_None name u Hnone r); [apply list_elem_of_In, Hr | congruence].
  - apply NoDup_app. split; [exact Hi |]. split; [| apply NoDup_singleton].
    intros x Hx Hx'. apply list_elem_of_singleton in Hx'. subst x.
    apply list_elem_of_fmap in Hx. destruct Hx as [r [E Hr]].
    rewrite Forall_forall in Hb. specialize (Hb r Hr). lia.
  - apply Forall_app. split.
    + eapply Forall_impl; [exact Hb |]. cbv beta. intros r Hr. lia.
    + constructor; [cbn [id]; lia | constructor].
Qed.

(** X21.  [create_user] answers [False] exactly when the user name is taken,
    and then leaves the table as it was.  When it answers [True] the table
    has one more row, at its end: the next id, the name, the hash made of the
    password and the admin flag given.  Either way user names stay unique and
    ids stay unique, positive and in step with the counter. *)
Theorem create_user_effect (name password : string) (admin : Z) (w w' : W)
    (u u' : users) (b : bool) :
  create_user P L name password admin (w, u) = (Return b, (w', u')) ->
  (b = false <-> exists r, In r (rows u) /\ username r = name) /\
  (b = false -> u' = u) /\
  (b = true ->
     u' = mk_users
            (rows u ++
             [mk_user (seq u + 1) name
                (fst (generate_password_hash L password (snd (db_transaction P w)))) admin])
            (seq u + 1)) /\
  (Effects.users_ok u -> Effects.users_ok u').
Proof.
  unfold create_user.
  destruct (db_transaction P w) as [[[] | e] w1]; [| discriminate]. cbn [snd].
  destruct (generate_password_hash L password w1) as [hash w2]. cbn [fst].
  pose proof (insert_user_cases name hash admin u) as C.
  destruct (insert_user name hash admin u) as [u1 |].
  - destruct C as [Hnone ->]. intros [= <- <- <-].
    split; [| split; [discriminate | split; [reflexivity |]]].
    + split; [discriminate |]. intros H. apply select_user_taken in H. contradiction.
    + intros Hok. apply users_ok_insert; assumption.
  - intros [= <- <- <-].
    split; [| split; [reflexivity | split; [discriminate | exact (fun H => H)]]].
    split; [intros _; apply select_user_taken, C | reflexivity].
Qed.

(** X22.  [login] puts a user into the session only for a row of [users]
    with the name of the form whose stored hash checks against the password
    of the form: the session then holds the id and the admin flag of that
    row, and the answer is the redirect to the dashboard.  In every other
    case the session is left as it was. *)
Theorem login_sound (req : Web.request) (sess sess' : App.session) (w w' : W)
    (u : users) (rep : Web.reply) :
  Web.login P L req sess (w, u) = (rep, sess', w') ->
  sess' = sess /\ rep <> Web.Answer (Web.RedirectTo "dashboard") \/
  rep = Web.Answer (Web.RedirectTo "dashboard") /\
  exists name password r,
    Web.form req !! "username" = Some name /\
    Web.form req !! "password" = Some password /\
    In r (rows u) /\ username r = name /\
    check_password_hash L (password_hash r) password = true /\
    sess' = App.mk_session (Some (id r)) (Some (is_admin r)).
Proof.
  unfold Web.login. cbn [fst].
  destruct (String.eqb (Web.method req) "POST");
    [| intros [= <- <- <-]; left; split; [reflexivity | discriminate]].
  destruct (Web.form req !! "username") as [name |];
    [| intros [= <- <- <-]; left; split; [reflexivity | discriminate]].
  destruct (Web.form req !! "password") as [password |];
    [| intros [= <- <- <-]; left; split; [reflexivity | discriminate]].
  unfold verify_user.
  destruct (db_transaction P w) as [[[] | e] w1];
    [| intros [= <- <- <-]; left; split; [reflexivity | discriminate]].
  destruct (select_user name u) as [r |] eqn:S;
    [| cbn [Web.logged_in]; intros [= <- <- <-]; left; split; [reflexivity | discriminate]].
  destruct (check_password_hash L (password_hash r) password) eqn:C;
    [| cbn [Web.logged_in]; intros [= <- <- <-]; left; split; [reflexivity | discriminate]].
  apply select_user_Some in S. destruct S as [Hin Hname].
  destruct (Web.logged_in (Some (id r)));
    intros [= <- <- <-]; [| left; split; [reflexivity | discriminate]].
  right. split; [reflexivity |]. exists name, password, r. auto 10.
Qed.

(** X23.  Register, then log in: once [register] has accepted a form, [login]
    with the same form (the database answering) redirects to the dashboard
    and the session holds the id of the new row and the admin flag 0.  It
    rests on the hashing library accepting the password a hash was made of,
    and on the id counter not being negative.  So no account made through
    [register] is an admin. *)
Theorem register_then_login (req : Web.request) (sess : App.session) (w w1 w2 : W)
    (u u1 : users) :
  (forall p w, check_password_hash L (fst (generate_password_hash L p w)) p = true) ->
  0 <= seq u ->
  Web.register P L req (w, u) = (Web.Answer (Web.RedirectTo "login"), (w1, u1)) ->
  fst (db_transaction P w2) = Return tt ->
  Web.login P L req sess (w2, u1) =
  (Web.Answer (Web.RedirectTo "dashboard"),
   App.mk_session (Some (seq u + 1)) (Some 0),
   snd (db_transaction P w2)).
Proof.
  intros Hlib Hseq. unfold Web.register, Web.login.
  destruct (String.eqb (Web.method req) "POST"); [| discriminate].
  destruct (Web.form req !! "username") as [name |]; [| discriminate].
  destruct (Web.form req !! "password") as [password |]; [| discriminate].
  unfold create_user, verify_user.
  destruct (db_transaction P w) as [[[] | e] w0]; [| discriminate].
  destruct (generate_password_hash L password w0) as [hash w0'] eqn:G.
  pose proof (insert_user_cases name hash 0 u) as C.
  destruct (insert_user name hash 0 u) as [u' |]; [| discriminate].
  destruct C as [Hnone ->]. intros [= <- <-] Hdb.
  destruct (db_transaction P w2) as [o w3]. cbn [fst snd] in *. subst o.
  rewrite (select_user_app name (rows u) (mk_user (seq u + 1) name hash 0) (seq u + 1)
             (select_user_None name u Hnone) eq_refl).
  cbn [password_hash id is_admin].
  replace hash with (fst (generate_password_hash L password w0)) by (rewrite G; reflexivity).
  rewrite Hlib. unfold Web.logged_in.
  destruct (seq u + 1) eqn:E; [lia | reflexivity | reflexivity].
Qed.

(** X24.  After [create_admin] there is a user named [admin].  If there was
    one already the table is untouched, whatever that user's password and
    flag are; if not, the new row is an admin whose hash is made of the
    password [admin]. *)
Theorem create_admin_ensures_admin (w w' : W) (u u' : users) :
  create_admin P L (w, u) = (Return tt, (w', u')) ->
  (exists r, select_user "admin" u' = Some r) /\
  match select_user "admin" u with
  | Some _ => u' = u
  | None =>
      exists w1,
        u' = mk_users
               (rows u ++
                [mk_user (seq u + 1) "admin"
                   (fst (generate_password_hash L "admin" w1)) 1])
               (seq u + 1)
  end.
Proof.
  unfold create_admin.
  destruct (db_transaction P w) as [[[] | e] w1]; [| discriminate].
  destruct (select_user "admin" u) as [r |] eqn:S.
  - intros [= <- <-]. rewrite S. split; [exists r; reflexivity | reflexivity].
  - unfold create_user.
    destruct (db_transaction P w1) as [[[] | e] w2]; [| discriminate].
    destruct (generate_password_hash L "admin" w2) as [hash w3] eqn:G.
    pose proof (insert_user_cases "admin" hash 1 u) as C.
    destruct (insert_user "admin" hash 1 u) as [u1 |].
    + destruct C as [_ ->]. intros [= <- <-]. split.
      * eexists. apply select_user_app; [apply select_user_None, S | reflexivity].
      * exists w2. rewrite G. reflexivity.
    + exfalso. apply C, S.
Qed.

End AccountFacts.

Section AccountScenarios.
Import Accounts.

Lemma no_users_ok : Effects.users_ok Lab.no_users.
Proof. split; [reflexivity |]. repeat split; constructor. Qed.

Lemma library_checks p w :
  check_password_hash Lab.library (fst (generate_password_hash Lab.library p w)) p = true.
Proof. apply String.eqb_refl. Qed.

Lemma create_user_effect_witness :
  let u1 := mk_users [mk_user 1 "ann" "salted:pw" 0] 1 in
  create_user (Sim.platform Sim.ready) Lab.library "ann" "pw" 0 (Sim.start, Lab.no_users)
  = (Return true, (Sim.start, u1)) /\
  Effects.users_ok u1.
Proof.
  intros u1.
  assert (R : create_user (Sim.platform Sim.ready) Lab.library "ann" "pw" 0
                (Sim.start, Lab.no_users) = (Return true, (Sim.start, u1)))
    by (vm_compute; reflexivity).
  split; [exact R |].
  destruct (create_user_effect (Sim.platform Sim.ready) Lab.library "ann" "pw" 0
              Sim.start Sim.start Lab.no_users u1 true R) as [_ [_ [_ H]]].
  apply H, no_users_ok.
Defined.

Lemma login_sound_witness :
  let u1 := mk_users [mk_user 1 "ann" "salted:pw" 0] 1 in
  let req := Lab.post [("username", "ann"); ("password", "pw")] in
  Web.login (Sim.platform Sim.ready) Lab.library req Sim.anonymous (Sim.start, u1)
  = (Web.Answer (Web.RedirectTo "dashboard"), App.mk_session (Some 1) (Some 0), Sim.start) /\
  exists r,
    In r (rows u1) /\ username r = "ann" /\
    check_password_hash Lab.library (password_hash r) "pw" = true.
Proof.
  intros u1 req.
  assert (R : Web.login (Sim.platform Sim.ready) Lab.library req Sim.anonymous
                (Sim.start, u1)
              = (Web.Answer (Web.RedirectTo "dashboard"),
                 App.mk_session (Some 1) (Some 0), Sim.start))
    by (vm_compute; reflexivity).
  split; [exact R |].
  destruct (login_sound (Sim.platform Sim.ready) Lab.library req Sim.anonymous
              (App.mk_session (Some 1) (Some 0)) Sim.start Sim.start u1 _ R)
    as [[H _] | [_ [name [password [r [Hn [Hp [Hin [Hname [Hc _]]]]]]]]]];
    [discriminate H |].
  assert (En : Web.form req !! "username" = Some "ann") by (vm_compute; reflexivity).
  assert (Ep : Web.form req !! "password" = Some "pw") by (vm_compute; reflexivity).
  rewrite En in Hn. rewrite Ep in Hp. injection Hn as <-. injection Hp as <-.
  exists r. auto.
Defined.

Lemma register_then_login_witness :
  let req := Lab.post [("username", "ann"); ("password", "pw")] in
  let u1 := mk_users [mk_user 1 "ann" "salted:pw" 0] 1 in
  Web.register (Sim.platform Sim.ready) Lab.library req (Sim.start, Lab.no_users)
  = (Web.Answer (Web.RedirectTo "login"), (Sim.start, u1)) /\
  Web.login (Sim.platform Sim.ready) Lab.library req Sim.anonymous (Sim.start, u1)
  = (Web.Answer (Web.RedirectTo "dashboard"), App.mk_session (Some 1) (Some 0), Sim.start).
Proof.
  intros req u1.
  assert (R : Web.register (Sim.platform Sim.ready) Lab.library req
                (Sim.start, Lab.no_users)
              = (Web.Answer (Web.RedirectTo "login"), (Sim.start, u1)))
    by (vm_compute; reflexivity).
  split; [exact R |].
  apply (register_then_login (Sim.platform Sim.ready) Lab.library req Sim.anonymous
           Sim.start Sim.start Sim.start Lab.no_users u1 library_checks);
    [vm_compute; discriminate | exact R | reflexivity].
Defined.

Lemma create_admin_ensures_admin_witness :
  create_admin (Sim.platform Sim.ready) Lab.library (Sim.start, Lab.no_users)
  = (Return tt, (Sim.start, mk_users [mk_user 1 "admin" "salted:admin" 1] 1)) /\
  exists r,
    select_user "admin" (mk_users [mk_user 1 "admin" "salted:admin" 1] 1) = Some r.
Proof.
  assert (R : create_admin (Sim.platform Sim.ready) Lab.library (Sim.start, Lab.no_users)
              = (Return tt, (Sim.start, mk_users [mk_user 1 "admin" "salted:admin" 1] 1)))
    by (vm_compute; reflexivity).
  split; [exact R |].
  exact (proj1 (create_admin_ensures_admin (Sim.platform Sim.ready) Lab.library
                  Sim.start Sim.start Lab.no_users _ R)).
Defined.

End AccountScenarios.

(** ** How exact the progress is *)
Section PercentFacts.

Lemma rint_near y :
  (inject_Z (rint y) - y <= 1 # 2)%Q /\ (y - inject_Z (rint y) <= 1 # 2)%Q.
Proof.
  unfold rint. pose proof (Qfloor_le y) as H1. pose proof (Qlt_floor y) as H2.
  rewrite inject_Z_plus in H2. change (inject_Z 1) with 1%Q in H2.
  destruct (Qcompare_spec (y - inject_Z (Qfloor y)) (1 # 2)) as [E | E | E].
  - destruct (Z.even (Qfloor y));
      [| rewrite inject_Z_plus; change (inject_Z 1) with 1%Q]; lra.
  - lra.
  - rewrite inject_Z_plus. change (inject_Z 1) with 1%Q. lra.
Qed.

(** Rounding to binary64 moves a positive number by at most one part in
    [2^53]. *)
Lemma b64_pos_near x :
  (0 < x)%Q ->
  (x * (1 - (1 # 9007199254740992)) <= b64_pos x)%Q /\
  (b64_pos x <= x * (1 + (1 # 9007199254740992)))%Q.
Proof.
  intros Hx. destruct (ilog2_spec x Hx) as [J1 _]. unfold b64_pos.
  set (e := ilog2 x - 52). pose proof (pow2_pos e) as He.
  assert (S1 : (4503599627370496 * 2 ^ e <= x)%Q).
  { replace (ilog2 x) with (52 + e) in J1 by (unfold e; lia).
    rewrite Qpower_plus in J1 by discriminate. exact J1. }
  destruct (rint_near (x / 2 ^ e)) as [A B].
  set (m := inject_Z (rint (x / 2 ^ e))) in *.
  set (t := (2 ^ e)%Q) in *.
  assert (Hy : (x / t * t == x)%Q) by (field; lra).
  set (y := (x / t)%Q) in *.
  assert (A' : ((m - y) * t <= (1 # 2) * t)%Q)
    by (apply Qmult_le_compat_r; [exact A | lra]).
  assert (B' : ((y - m) * t <= (1 # 2) * t)%Q)
    by (apply Qmult_le_compat_r; [exact B | lra]).
  split; lra.
Qed.

Lemma Qfloor_lt_Z r n : (r < inject_Z (n + 1))%Q -> Qfloor r <= n.
Proof.
  intros H. pose proof (Qfloor_le r) as F.
  assert (L : (inject_Z (Qfloor r) < inject_Z (n + 1))%Q) by lra.
  rewrite <- Zlt_Qlt in L. lia.
Qed.

Lemma Qfloor_ge_Z r n : (inject_Z n <= r)%Q -> n <= Qfloor r.
Proof.
  intros H. pose proof (Qlt_floor r) as F.
  assert (L : (inject_Z n < inject_Z (Qfloor r + 1))%Q) by lra.
  rewrite <- Zlt_Qlt in L. lia.
Qed.

(** What [int(n / total * 100)] is, for [0 < n <= total <= 2^45]. *)
Lemma pct_accuracy n total :
  0 < n <= total -> total <= 2 ^ 45 ->
  (100 * n) / total - 1 <= App.pct n total <= (100 * n) / total /\
  ((100 * n) mod total <> 0 -> App.pct n total = (100 * n) / total).
Proof.
  intros [Hn Hnt] Hbig. assert (Ht : 0 < total) by lia.
  unfold App.pct, float_mul.
  assert (T : (0 < inject_Z total)%Q) by (rewrite Zlt_Qlt in Ht; exact Ht).
  assert (N : (0 < inject_Z n)%Q) by (rewrite Zlt_Qlt in Hn; exact Hn).
  assert (Xq : (0 < inject_Z n / inject_Z total)%Q).
  { apply Qlt_shift_div_l; [exact T |]. rewrite Qmult_0_l. exact N. }
  rewrite (b64_positive _ Xq). pose proof (b64_pos_positive _ Xq) as Yq.
  destruct (b64_pos_near _ Xq) as [Q1 Q2].
  set (q := (inject_Z n / inject_Z total)%Q) in *.
  set (q' := b64_pos q) in *.
  assert (Zp : (0 < q' * 100)%Q) by lra.
  rewrite (b64_positive _ Zp). pose proof (b64_pos_positive _ Zp) as Wr.
  destruct (b64_pos_near _ Zp) as [R1 R2].
  set (r := b64_pos (q' * 100)) in *.
  unfold int_of_float.
  replace (Qle_bool 0 r) with true by (symmetry; apply Qle_bool_iff, Qlt_le_weak, Wr).
  (* the exact quotient *)
  set (d := (100 * n) / total). set (m := (100 * n) mod total).
  assert (Hdm : 100 * n = total * d + m) by (apply Z.div_mod; lia).
  assert (Hm : 0 <= m < total) by (apply Z.mod_pos_bound; lia).
  assert (Hd : 0 <= d <= 100).
  { split; [apply Z.div_pos; lia |]. apply Z.div_le_upper_bound; lia. }
  assert (Eq : (q * inject_Z total == inject_Z n)%Q) by (unfold q; field; lra).
  assert (EZ : (100 * inject_Z n == inject_Z total * inject_Z d + inject_Z m)%Q).
  { rewrite <- (inject_Z_mult total d), <- inject_Z_plus, <- Hdm, inject_Z_mult.
    reflexivity. }
  assert (Tle : (inject_Z total <= 35184372088832)%Q).
  { change 35184372088832%Q with (inject_Z (2 ^ 45)). rewrite <- Zle_Qle. exact Hbig. }
  assert (T1 : (1 <= inject_Z total)%Q).
  { change 1%Q with (inject_Z 1). rewrite <- Zle_Qle. lia. }
  assert (Mlo : (0 <= inject_Z m)%Q).
  { change 0%Q with (inject_Z 0). rewrite <- Zle_Qle. lia. }
  assert (Mhi : (inject_Z m + 1 <= inject_Z total)%Q).
  { change 1%Q with (inject_Z 1). rewrite <- inject_Z_plus, <- Zle_Qle. lia. }
  assert (Dlo : (0 <= inject_Z d)%Q).
  { change 0%Q with (inject_Z 0). rewrite <- Zle_Qle. lia. }
  assert (Dhi : (inject_Z d <= 100)%Q).
  { change 100%Q with (inject_Z 100). rewrite <- Zle_Qle. lia. }
  assert (Qle1 : (q <= 1)%Q).
  { unfold q. apply Qle_shift_div_r; [exact T |]. rewrite Qmult_1_l.
    rewrite <- Zle_Qle. exact Hnt. }
  (* r against 100 q *)
  clearbody r q' q d m.
  assert (Rhi : (r <= 100 * q + (1 # 40000000000000))%Q).
  { assert (A : (r <= 100 * (1 + (1 # 9007199254740992)) * q')%Q) by lra.
    assert (B : (100 * (1 + (1 # 9007199254740992)) * q' <=
                 100 * (1 + (1 # 9007199254740992)) * (q * (1 + (1 # 9007199254740992))))%Q)
      by (apply Qmult_le_l; [reflexivity | exact Q2]).
    lra. }
  assert (Rlo : (100 * q - (1 # 40000000000000) <= r)%Q).
  { assert (A : (100 * (1 - (1 # 9007199254740992)) * q' <= r)%Q) by lra.
    assert (B : (100 * (1 - (1 # 9007199254740992)) * (q * (1 - (1 # 9007199254740992))) <=
                 100 * (1 - (1 # 9007199254740992)) * q')%Q)
      by (apply Qmult_le_l; [reflexivity | exact Q1]).
    lra. }
  set (T' := inject_Z total) in *. set (D := inject_Z d) in *. set (M := inject_Z m) in *.
  assert (EQT : (100 * q * T' == T' * D + M)%Q) by nra.
  assert (Small : ((1 # 40000000000000) * T' < 1)%Q) by lra.
  split; [split |].
  - apply Qfloor_ge_Z.
    assert (E1 : (inject_Z (d - 1) == D - 1)%Q).
    { unfold Z.sub. rewrite inject_Z_plus, inject_Z_opp. reflexivity. }
    rewrite E1.
    assert (G : ((D - 1) * T' <= r * T')%Q) by nra.
    apply Qmult_le_r with (z := T'); [exact T | exact G].
  - apply Qfloor_lt_Z. rewrite inject_Z_plus. fold D. change (inject_Z 1) with 1%Q.
    assert (G : (r * T' < (D + 1) * T')%Q) by nra.
    apply Qmult_lt_r with (z := T'); [exact T | exact G].
  - intros Hm0. apply Z.le_antisymm.
    + apply Qfloor_lt_Z. rewrite inject_Z_plus. fold D. change (inject_Z 1) with 1%Q.
      assert (G : (r * T' < (D + 1) * T')%Q) by nra.
      apply Qmult_lt_r with (z := T'); [exact T | exact G].
    + apply Qfloor_ge_Z. fold D.
      assert (M1 : (1 <= M)%Q).
      { unfold M. change 1%Q with (inject_Z 1). rewrite <- Zle_Qle. lia. }
      assert (G : (D * T' <= r * T')%Q) by nra.
      apply Qmult_le_r with (z := T'); [exact T | exact G].
Qed.

(** X25.  The progress written after accession [i + 1] of [total], for up to
    [2^45] accessions, is the exact percentage [100 (i + 1) / total] rounded
    down, except that it can be one less when the exact percentage is a
    whole number: the two roundings of the floating-point computation can
    leave the product just below it, as 28 for 29 of 100. *)
Theorem percent_accuracy (i total : nat) :
  (i < total)%nat -> Z.of_nat total <= 2 ^ 45 ->
  exists p,
    App.percent i total = Return p /\
    (100 * (Z.of_nat i + 1)) / Z.of_nat total - 1 <= p <=
    (100 * (Z.of_nat i + 1)) / Z.of_nat total /\
    ((100 * (Z.of_nat i + 1)) mod Z.of_nat total <> 0 ->
     p = (100 * (Z.of_nat i + 1)) / Z.of_nat total).
Proof.
  intros Hi Hbig. exists (App.pct (Z.of_nat i + 1) (Z.of_nat total)).
  split; [apply percent_pct; lia |].
  apply pct_accuracy; lia.
Qed.

End PercentFacts.

Section PercentScenarios.

Lemma percent_accuracy_witness :
  App.percent 28 100 = Return 28 /\
  exists p,
    App.percent 2 7 = Return p /\
    (100 * (Z.of_nat 2 + 1)) / Z.of_nat 7 - 1 <= p <= (100 * (Z.of_nat 2 + 1)) / Z.of_nat 7 /\
    ((100 * (Z.of_nat 2 + 1)) mod Z.of_nat 7 <> 0 ->
     p = (100 * (Z.of_nat 2 + 1)) / Z.of_nat 7).
Proof.
  split; [vm_compute; reflexivity |].
  apply (percent_accuracy 2 7); [lia | vm_compute; discriminate].
Defined.

End PercentScenarios.

(** ** Reading the export back, and where a gene symbol comes from *)
Section ExportFacts.
Context {W : Type} (P : Platform W).
Import Database.
Local Arguments Ascii.eqb : simpl never.

Lemma contains_sep_cons sep c s :
  contains (String sep "") (String c s) = Ascii.eqb sep c || contains (String sep "") s.
Proof.
  cbn [contains startswith]. destruct (Ascii.eqb sep c); [| reflexivity].
  destruct s; reflexivity.
Qed.

Lemma split_no_sep sep s : contains (String sep "") s = false -> App.split sep s = [s].
Proof.
  induction s as [| c s IH]; [reflexivity |].
  rewrite contains_sep_cons. intros H. apply orb_false_elim in H. destruct H as [Hc Hs].
  cbn [App.split]. rewrite Ascii.eqb_sym, Hc, (IH Hs). reflexivity.
Qed.

Lemma split_app_sep sep a b :
  contains (String sep "") a = false ->
  App.split sep (a +:+ String sep b) = a :: App.split sep b.
Proof.
  induction a as [| c a IH].
  - intros _. change ("" +:+ String sep b) with (String sep b).
    cbn [App.split]. rewrite Ascii.eqb_refl. reflexivity.
  - rewrite contains_sep_cons. intros H. apply orb_false_elim in H. destruct H as [Hc Ha].
    change (String c a +:+ String sep b) with (String c (a +:+ String sep b)).
    cbn [App.split]. rewrite Ascii.eqb_sym, Hc, (IH Ha). reflexivity.
Qed.

Lemma split_join_back sep l :
  l <> [] ->
  Forall (fun v => contains (String sep "") v = false) l ->
  App.split sep (join (String sep "") l) = l.
Proof.
  intros Hne H. induction H as [| x l Hx Hl IH]; [contradiction |].
  destruct l as [| y l'].
  - apply split_no_sep, Hx.
  - change (join (String sep "") (x :: y :: l'))
      with (x +:+ String sep (join (String sep "") (y :: l'))).
    rewrite (split_app_sep _ _ _ Hx), IH by discriminate. reflexivity.
Qed.

(** X26.  A line of the export reads back as the row it was written from
    when no column of the row holds a comma: splitting the line at the commas
    gives the six columns in the order of the header, [NA] standing for a
    [NULL]. *)
Theorem csv_line_reads_back (sess : App.session) (job_id : string) (w w' : W)
    (st : store) (k : nat) (r : result) :
  db_transaction P w = (Return tt, w') ->
  select_results job_id st !! k = Some r ->
  Forall (fun v => contains "," v = false) (App.csv_values r) ->
  exists resp header lines line,
    App.download_csv P sess job_id (w, st) = (Return resp, w') /\
    App.content resp = App.Stream ((header +:+ App.newline) :: lines) /\
    App.split "," header = App.csv_headers /\
    lines !! k = Some (line +:+ App.newline) /\
    App.split "," line =
    [default "NA" (accession r); default "NA" (top_hit r); default "NA" (gene r);
     default "NA" (species r); default "NA" (bit_score r); default "NA" (evalue r)].
Proof.
  intros Hdb Hk Hc. unfold App.download_csv. rewrite Hdb.
  eexists. exists (join "," App.csv_headers).
  exists (List.map (fun r => join "," (App.csv_values r) +:+ App.newline)
            (select_results job_id st)).
  exists (join "," (App.csv_values r)).
  split; [reflexivity |]. split; [reflexivity |]. split; [reflexivity |]. split.
  - rewrite map_lookup, Hk. reflexivity.
  - rewrite <- csv_values_fields. apply split_join_back; [| exact Hc].
    rewrite csv_values_fields. discriminate.
Qed.

(** X27.  A gene symbol other than [NA] that [fetch_gene_symbol] returns is
    read from the body of an answer that passed [raise_for_status]: it
    stands there between [/gene=] followed by a double quote and the next
    double quote, and is not empty. *)
Theorem gene_symbol_origin (accession g : string) (w w' : W) :
  Services.fetch_gene_symbol P accession w = Some (Return g, w') ->
  g <> "NA" ->
  exists r a b,
    requests_get P "https://eutils.ncbi.nlm.nih.gov/entrez/eutils/efetch.fcgi"
      [("db", "protein"); ("id", accession); ("rettype", "gb");
       ("retmode", "text"); ("email", Services.EMAIL)] 10 w = (Return r, w') /\
    raise_for_status r = Return tt /\
    text r =
    a +:+ ("/gene=" +:+ String Services.dquote "") +:+ g +:+ String Services.dquote "" +:+ b /\
    g <> "" /\
    Bracket.all_chars (not_char Services.dquote) g = true.
Proof.
  unfold Services.fetch_gene_symbol, bind, try_except, call, pure, ret.
  destruct (requests_get P _ _ 10 w) as [[r | e] w1] eqn:G;
    [| intros [= <- _] H; contradiction].
  destruct (raise_for_status r) as [[] | e] eqn:S; [| intros [= <- _] H; contradiction].
  destruct (re_search _ _ _ (text r)) as [g' |] eqn:R;
    [| intros [= <- _] H; contradiction].
  intros [= <- <-] _. apply re_search_sound in R. destruct R as [a [b [E [Hne Hall]]]].
  exists r, a, b. auto.
Qed.

End ExportFacts.

Section ExportScenarios.
Import Database.

Lemma csv_line_reads_back_witness :
  exists resp header lines line,
    App.download_csv (Sim.platform Sim.ready) Sim.anonymous "job0" (Sim.start, Lab.two_jobs)
    = (Return resp, Sim.start) /\
    App.content resp = App.Stream ((header +:+ App.newline) :: lines) /\
    App.split "," header = App.csv_headers /\
    lines !! 0%nat = Some (line +:+ App.newline) /\
    App.split "," line = ["Q9Y261"; "NP_571131"; "foxa2"; "Danio rerio"; "215.3"; "2e-70"].
Proof.
  apply (csv_line_reads_back (Sim.platform Sim.ready) Sim.anonymous "job0" Sim.start
           Sim.start Lab.two_jobs 0
           (mk_result 1 "job0" (Some "Q9Y261") (Some "NP_571131") (Some "foxa2")
              (Some "Danio rerio") (Some "215.3") (Some "2e-70")));
    [reflexivity | reflexivity |].
  repeat constructor.
Defined.

Lemma gene_symbol_origin_witness :
  exists r a b,
    requests_get (Sim.platform Sim.ready)
      "https://eutils.ncbi.nlm.nih.gov/entrez/eutils/efetch.fcgi"
      [("db", "protein"); ("id", "NP_571131"); ("rettype", "gb");
       ("retmode", "text"); ("email", Services.EMAIL)] 10 Sim.start = (Return r, Sim.start) /\
    raise_for_status r = Return tt /\
    text r =
    a +:+ ("/gene=" +:+ String Services.dquote "") +:+ "ins" +:+ String Services.dquote ""
    +:+ b /\
    "ins" <> "" /\
    Bracket.all_chars (not_char Services.dquote) "ins" = true.
Proof.
  apply (gene_symbol_origin (Sim.platform Sim.ready) "NP_571131" "ins" Sim.start Sim.start);
    [vm_compute; reflexivity | discriminate].
Defined.

End ExportScenarios.

(** ** A ready search whose result cannot be used *)
Section ResultFailures.
Context {W : Type} (P : Platform W).

(** X28.  When a search came back ready but its result cannot be had, because
    fetching it raises or because the payload does not parse, the row is
    [ERROR], [ERROR], the text of the exception, [NA], [NA].  The run stops
    handling the accession there: no gene symbol is looked up and no XML file
    is written. *)
Theorem unusable_result_row (fuel : nat) (job_id acc taxid : string) (timeout : Z)
    (w w1 w2 w3 w4 : W) (fasta rid : string) (e : exn) :
  Services.fetch_fasta P acc (time_sleep P 3 w) = Some (Return fasta, w1) ->
  Services.submit_blast P fasta taxid w1 = Some (Return rid, w2) ->
  Services.wait_for_blast P fuel rid (if timeout =? 0 then None else Some timeout) w2
  = Some (Return "READY", w3) ->
  Services.fetch_result P rid w3 = Some (Raise e, w4) \/
  (exists xml,
     Services.fetch_result P rid w3 = Some (Return xml, w4) /\
     ET_fromstring P xml = Raise e) ->
  App.process_accession P fuel job_id acc taxid timeout w =
  Some (App.mk_fields "ERROR" "ERROR" (exn_str e) "NA" "NA", w4).
Proof.
  intros Hf Hs Hw Hr. unfold App.process_accession, App.search, App.sleep.
  unfold bind at 1. unfold bind at 1. rewrite Hf.
  unfold bind at 1. rewrite Hs.
  unfold bind at 1. rewrite Hw.
  change (String.eqb "READY" "READY") with true. cbv iota.
  unfold bind at 1. destruct Hr as [Hr | [xml [Hr Hx]]]; rewrite Hr; [reflexivity |].
  unfold bind at 1, pure, Services.parse_top_hit. rewrite Hx. reflexivity.
Qed.

End ResultFailures.

Section ResultScenarios.

Lemma unusable_result_row_witness :
  App.process_accession (Sim.platform Lab.malformed) 10 "job1" "P01308" "9606" 900 Sim.start
  = Some (App.mk_fields "ERROR" "ERROR" "syntax error: line 1, column 0" "NA" "NA",
          Sim.mk_world 19 2).
Proof.
  apply (unusable_result_row (Sim.platform Lab.malformed) 10 "job1" "P01308" "9606" 900
           Sim.start (Sim.mk_world 3 0) (Sim.mk_world 3 0) (Sim.mk_world 19 2)
           (Sim.mk_world 19 2) ">sp|P01308|INS_HUMAN Insulin" "ABC123XYZ"
           (mk_exn ParseError "syntax error: line 1, column 0"));
    [vm_compute; reflexivity | vm_compute; reflexivity | vm_compute; reflexivity |].
  right. exists "<BlastOutput>...</BlastOutput>". split; vm_compute; reflexivity.
Defined.

End ResultScenarios.

(** ** When the progress reads 100 *)
Section ProgressFacts.
Context {W : Type} (P : Platform W).
Import Database.

Lemma progress_bound_lt_100 total i :
  (i < total)%nat -> Z.of_nat total <= 2 ^ 45 -> App.progress_bound total i < 100.
Proof.
  intros Hi Hbig. destruct i as [| i]; [cbn; lia |].
  unfold App.progress_bound.
  destruct (pct_accuracy (Z.of_nat (S i)) (Z.of_nat total) ltac:(lia) Hbig) as [[_ H] _].
  assert (100 * Z.of_nat (S i) / Z.of_nat total < 100)
    by (apply Z.div_lt_upper_bound; lia).
  lia.
Qed.

(** C2, as the code has it.  Along the life of a job the progress of its row
    never decreases, and a row whose status is DONE has progress 100.  The
    converse fails: for a job of up to [2^45] accessions the progress reads
    100 only when the status is DONE or the loop is through its last
    accession; a step takes it to 100 only if it is the turn of the last
    accession, which leaves the status RUNNING, or the final block, which
    sets DONE; and whenever the store block of the last accession commits,
    the row shows 100 with the status still RUNNING. *)
Theorem progress_never_decreases (job_id : string) (accessions : list string)
    (taxid : string) (timeout : Z) (r0 r r' : @App.runner W) (j j' : job) :
  App.spawned job_id r0 ->
  App.reach P job_id accessions taxid timeout r0 r ->
  App.reach P job_id accessions taxid timeout r r' ->
  jobs (App.db r) !! job_id = Some j ->
  jobs (App.db r') !! job_id = Some j' ->
  progress j <= progress j' /\
  (status j = "DONE" -> progress j = 100) /\
  (Z.of_nat (length accessions) <= 2 ^ 45 -> progress j = 100 ->
   status j = "DONE" \/
   status j = "RUNNING" /\
   (App.at_point r = App.InLoop (length accessions) [] \/ App.at_point r = App.Returned)) /\
  (Z.of_nat (length accessions) <= 2 ^ 45 ->
   forall fuel,
     App.step P fuel job_id accessions taxid timeout r = Some r' ->
     progress j < 100 -> progress j' = 100 ->
     (exists i acc, App.at_point r = App.InLoop i [acc] /\ status j' = "RUNNING") \/
     (exists i, App.at_point r = App.InLoop i [] /\ status j' = "DONE")) /\
  (forall fuel i acc f w1,
     App.at_point r = App.InLoop i [acc] ->
     App.process_accession P fuel job_id acc taxid timeout (App.world r) = Some (f, w1) ->
     fst (db_transaction P w1) = Return tt ->
     exists r1 j1,
       App.step P fuel job_id accessions taxid timeout r = Some r1 /\
       App.at_point r1 = App.InLoop (S i) [] /\
       jobs (App.db r1) !! job_id = Some j1 /\
       progress j1 = 100 /\ status j1 = "RUNNING").
Proof.
  intros Hs H0 H1 Hj Hj'.
  destruct (reach_on_track P _ _ _ _ _ _ (spawned_on_track _ accessions _ Hs) H0) as [Hr _].
  destruct (reach_on_track P _ _ _ _ _ _ Hr H1) as [_ Hmono].
  split; [exact (Hmono j j' Hj Hj') |].
  destruct Hr as [j0 [Hj0 Hp]]. rewrite Hj in Hj0. injection Hj0 as <-.
  destruct r as [p w st]. cbn [App.at_point App.world App.db] in *.
  split; [| split; [| split]].
  - intros Hdone. destruct p as [| i rest |].
    + destruct Hp as [_ Hs']. rewrite Hs' in Hdone. discriminate.
    + destruct Hp as [_ [Hs' _]]. rewrite Hs' in Hdone. discriminate.
    + destruct Hp as [[_ Hp] | [Hs' _]]; [exact Hp |]. rewrite Hs' in Hdone. discriminate.
  - intros Hbig H100. destruct p as [| i rest |].
    + destruct Hp as [Hp _]. lia.
    + destruct Hp as [Hlen [Hs' Hb]]. right. split; [exact Hs' |]. left.
      destruct rest as [| acc rest].
      * cbn [length] in Hlen. f_equal. lia.
      * cbn [length] in Hlen.
        pose proof (progress_bound_lt_100 (length accessions) i ltac:(lia) Hbig). lia.
    + destruct Hp as [[Hs' _] | [Hs' _]]; [left; exact Hs' | right; auto].
  - intros Hbig fuel Hstep Hlt H100. unfold App.step in Hstep.
    cbn [App.at_point App.world App.db] in Hstep.
    destruct p as [| i [| acc rest] |].
    + exfalso. destruct Hp as [Hp0 _].
      destruct (App.mark_running P job_id (w, st)) as [o [w1 st1]] eqn:M.
      apply mark_running_cases in M.
      assert (E : App.db r' = st1) by (destruct o; injection Hstep as <-; reflexivity).
      rewrite E in Hj'. destruct M as [-> | ->].
      * rewrite Hj in Hj'. injection Hj' as <-. lia.
      * rewrite jobs_update_status_progress, Hj in Hj'. injection Hj' as <-.
        cbn [progress] in H100. lia.
    + right. exists i. split; [reflexivity |]. injection Hstep as <-.
      cbn [App.runner_of App.db] in Hj'.
      destruct (mark_done_cases P job_id w st) as [E | [_ E]]; rewrite E in Hj'.
      * rewrite Hj in Hj'. injection Hj' as <-. lia.
      * rewrite jobs_update_status_progress, Hj in Hj'. injection Hj' as <-. reflexivity.
    + destruct Hp as [Hlen [Hs' Hb]]. cbn [length] in Hlen.
      unfold App.iteration in Hstep. cbn [fst snd] in Hstep.
      destruct (App.process_accession P fuel job_id acc taxid timeout w) as [[f w1] |];
        [| discriminate].
      injection Hstep as <-. cbn [App.runner_of App.db] in Hj'.
      destruct (save_result_cases P job_id acc f i (length accessions) w1 st)
        as [E | [p [_ [Hpct E]]]]; rewrite E in Hj'.
      * rewrite Hj in Hj'. injection Hj' as <-. lia.
      * rewrite progress_bound_next in Hpct by lia. injection Hpct as <-.
        rewrite jobs_update_progress in Hj'. cbn [insert_result jobs] in Hj'.
        rewrite Hj in Hj'. injection Hj' as <-. cbn [progress status] in *.
        destruct rest as [| acc' rest].
        -- left. exists i, acc. split; [reflexivity | exact Hs'].
        -- exfalso. cbn [length] in Hlen.
           pose proof (progress_bound_lt_100 (length accessions) (S i) ltac:(lia) Hbig).
           change (App.progress_bound (length accessions) (S i) = 100) in H100.
           lia.
    + discriminate Hstep.
  - intros fuel i acc f w1 Hpt Hpr Hdb. subst p.
    destruct Hp as [Hlen [Hs' Hb]]. cbn [length] in Hlen.
    unfold App.step. cbn [App.at_point App.world App.db].
    unfold App.iteration. cbn [fst snd]. rewrite Hpr.
    eexists. eexists. split; [reflexivity |].
    cbn [App.runner_of App.at_point App.db]. split; [reflexivity |].
    unfold App.save_result.
    erewrite transaction_commits;
      [| exact Hdb
       | unfold App.save_stmts; rewrite progress_bound_next by lia; reflexivity].
    cbn [snd]. rewrite jobs_update_progress. cbn [insert_result jobs]. rewrite Hj.
    cbn [fmap option_fmap option_map]. split; [reflexivity |]. cbn [progress status].
    split; [| exact Hs'].
    replace (S i) with (length accessions) by lia. apply progress_bound_full. lia.
Qed.

End ProgressFacts.

(** ** A failed accession *)
Section FailedAccession.
Context {W : Type} (P : Platform W).
Import Database.

(** C4, as the code has it.  When [fetch_fasta] or [submit_blast] raises [e]
    for the accession at index [k], the fields computed for it are top hit
    and gene ["ERROR"], species [str(e)], bit score and e-value ["NA"], and
    the turn ends with the runner at index [k + 1], the accessions after it
    all still to come.  What is stored depends on the store block of the
    turn: when it commits, exactly that one row is added to [results]; when
    it raises, the tables are left as they were and the accession has no
    row.  Either way the loop goes on: with a timeout of zero or more and a
    clock that keeps time, the loop over the failed accession and the ones
    after it returns, and its result is that of looping over the ones after
    it from the state the failed turn left. *)
Theorem failed_accession_is_one_ERROR_row (fuel : nat) (job_id taxid : string)
    (timeout : Z) (accessions pre : list string) (acc : string) (rest : list string)
    (w w' : W) (st : store) (e : exn) :
  accessions = pre ++ acc :: rest ->
  Services.fetch_fasta P acc (time_sleep P 3 w) = Some (Raise e, w') \/
  (exists fasta w1,
     Services.fetch_fasta P acc (time_sleep P 3 w) = Some (Return fasta, w1) /\
     Services.submit_blast P fasta taxid w1 = Some (Raise e, w')) ->
  let k := length pre in
  let total := length accessions in
  let f := App.mk_fields "ERROR" "ERROR" (exn_str e) "NA" "NA" in
  let row :=
    mk_result (results_seq st + 1) job_id (Some acc) (Some "ERROR") (Some "ERROR")
      (Some (exn_str e)) (Some "NA") (Some "NA") in
  let s1 := App.save_result P job_id acc f k total (w', st) in
  App.process_accession P fuel job_id acc taxid timeout w = Some (f, w') /\
  App.step P fuel job_id accessions taxid timeout
    (App.mk_runner (App.InLoop k (acc :: rest)) w st)
  = Some (App.mk_runner (App.InLoop (S k) rest) (fst s1) (snd s1)) /\
  match fst (db_transaction P w') with
  | Return _ =>
      results (snd s1) = results st ++ [row] /\
      select_results job_id (snd s1) = select_results job_id st ++ [row]
  | Raise _ => snd s1 = st
  end /\
  (App.clock_laws P -> 0 <= timeout ->
   exists s2,
     forall fuel', (Z.to_nat timeout < fuel')%nat ->
       App.for_accessions P fuel' job_id taxid timeout total k (acc :: rest) (w, st)
       = Some s2 /\
       App.for_accessions P fuel' job_id taxid timeout total (S k) rest s1 = Some s2).
Proof.
  intros Hacc H k total f row s1.
  assert (Pr : forall fuel0,
             App.process_accession P fuel0 job_id acc taxid timeout w = Some (f, w')).
  { intros fuel0. unfold App.process_accession.
    replace (App.search P fuel0 job_id acc taxid timeout w) with (Some (@Raise App.fields e, w')).
    - reflexivity.
    - symmetry. destruct H as [H | [fasta [w1 [H1 H2]]]].
      + apply search_fetch_fails, H.
      + eapply search_submit_fails; eassumption. }
  assert (Hk : (k < total)%nat).
  { subst k total. rewrite Hacc, length_app. cbn [length]. lia. }
  split; [apply Pr |]. split; [| split].
  - unfold App.step. cbn [App.at_point App.world App.db].
    unfold App.iteration. cbn [fst snd]. rewrite Pr. reflexivity.
  - subst s1. unfold App.save_result, App.transaction.
    destruct (db_transaction P w') as [[[] | e'] w2]; cbn [fst snd]; [| reflexivity].
    unfold App.save_stmts. rewrite progress_bound_next by exact Hk. cbn [snd].
    split; [reflexivity |].
    unfold select_results. cbn [results update_progress insert_result].
    rewrite List.filter_app. cbn [List.filter Database.job_id]. rewrite String.eqb_refl. reflexivity.
  - intros Hc Ht.
    destruct (for_accessions_returns P job_id taxid timeout total Hc Ht rest (S k) s1)
      as [s2 Hs2].
    exists s2. intros fuel' Hf. split; [| apply Hs2, Hf].
    cbn [App.for_accessions]. unfold App.iteration. cbn [fst snd]. rewrite Pr.
    apply Hs2, Hf.
Qed.

End FailedAccession.

Section LifeScenarios.
Import Database.

Lemma progress_never_decreases_witness :
  let P := Sim.platform Sim.ready in
  exists r r' j j',
    App.run_steps P 10 "job1" ["P01308"; "BAD1"] "9606" 900 2 (Sim.spawn "job1") = Some r /\
    App.run_steps P 10 "job1" ["P01308"; "BAD1"] "9606" 900 2 r = Some r' /\
    jobs (App.db r) !! "job1" = Some j /\
    jobs (App.db r') !! "job1" = Some j' /\
    (progress j, status j) = (50, "RUNNING") /\
    (progress j', status j') = (100, "DONE") /\
    progress j <= progress j' /\
    exists r1 j1,
      App.step P 10 "job1" ["P01308"; "BAD1"] "9606" 900 r = Some r1 /\
      App.at_point r1 = App.InLoop 2 [] /\
      jobs (App.db r1) !! "job1" = Some j1 /\
      progress j1 = 100 /\ status j1 = "RUNNING".
Proof.
  intros P.
  destruct (App.run_steps P 10 "job1" ["P01308"; "BAD1"] "9606" 900 2 (Sim.spawn "job1"))
    as [r |] eqn:R; [| vm_compute in R; discriminate R].
  assert (A : App.at_point r = App.InLoop 1 ["BAD1"])
    by (vm_compute in R; injection R as <-; reflexivity).
  assert (Wr : App.world r = Sim.mk_world 19 2)
    by (vm_compute in R; injection R as <-; reflexivity).
  destruct (jobs (App.db r) !! "job1") as [j |] eqn:J;
    [| vm_compute in R; injection R as <-; vm_compute in J; discriminate J].
  assert (Vj : (progress j, status j) = (50, "RUNNING")).
  { vm_compute in R. injection R as <-. vm_compute in J. injection J as <-. reflexivity. }
  destruct (App.run_steps P 10 "job1" ["P01308"; "BAD1"] "9606" 900 2 r) as [r' |] eqn:R';
    [| vm_compute in R; injection R as <-; vm_compute in R'; discriminate R'].
  destruct (jobs (App.db r') !! "job1") as [j' |] eqn:J'.
  - assert (Vj' : (progress j', status j') = (100, "DONE")).
    { vm_compute in R. injection R as <-. vm_compute in R'. injection R' as <-.
      vm_compute in J'. injection J' as <-. reflexivity. }
    destruct (progress_never_decreases P "job1" ["P01308"; "BAD1"] "9606" 900
                (Sim.spawn "job1") r r' j j' (spawn_spawned "job1")
                (run_steps_reach _ _ _ _ _ _ _ _ _ R)
                (run_steps_reach _ _ _ _ _ _ _ _ _ R') J J')
      as [M [_ [_ [_ L]]]].
    assert (Pr : App.process_accession P 10 "job1" "BAD1" "9606" 900 (App.world r)
                 = Some (App.mk_fields "ERROR" "ERROR" "Failed to fetch FASTA for BAD1"
                           "NA" "NA", Sim.mk_world 22 2))
      by (rewrite Wr; vm_compute; reflexivity).
    destruct (L 10%nat 1%nat "BAD1" _ _ A Pr eq_refl) as [r1 [j1 H1]].
    exists r, r', j, j'. split; [reflexivity |]. split; [exact R' |].
    split; [exact J |]. split; [exact J' |]. split; [exact Vj |].
    split; [exact Vj' |]. split; [exact M |]. exists r1, j1. exact H1.
  - exfalso. vm_compute in R. injection R as <-. vm_compute in R'. injection R' as <-.
    vm_compute in J'. discriminate J'.
Defined.

(** C4, as stated, fails when the store block of the failed accession does
    not commit: the database is locked from the first sleep on, the fetch of
    [BAD1] fails, and the run ends with no row for it. *)
Lemma failed_accession_row_lost :
  ~ (forall e w1,
       Services.fetch_fasta (Lab.locked_after 0 Sim.ready) "BAD1"
         (time_sleep (Lab.locked_after 0 Sim.ready) 3 Sim.start) = Some (Raise e, w1) ->
       forall w' st',
         App.run_blast_job (Lab.locked_after 0 Sim.ready) 10 "job1" ["BAD1"] "9606" 900
           (Sim.start, Sim.created "job1") = Some (w', st') ->
         exists row,
           select_results "job1" st' = [row] /\
           accession row = Some "BAD1" /\ top_hit row = Some "ERROR").
Proof.
  intros H.
  assert (F : Services.fetch_fasta (Lab.locked_after 0 Sim.ready) "BAD1"
                (time_sleep (Lab.locked_after 0 Sim.ready) 3 Sim.start)
              = Some (Raise (mk_exn Exception "Failed to fetch FASTA for BAD1"),
                      Sim.mk_world 3 0)) by (vm_compute; reflexivity).
  destruct (App.run_blast_job (Lab.locked_after 0 Sim.ready) 10 "job1" ["BAD1"] "9606" 900
              (Sim.start, Sim.created "job1")) as [[w' st'] |] eqn:R;
    [| vm_compute in R; discriminate R].
  destruct (H _ _ F w' st' eq_refl) as [row [Hrow _]].
  vm_compute in R. injection R as _ <-. vm_compute in Hrow. discriminate Hrow.
Qed.

Lemma failed_accession_is_one_ERROR_row_witness :
  let P := Sim.platform Sim.ready in
  let e := mk_exn Exception "Failed to fetch FASTA for BAD1" in
  let f := App.mk_fields "ERROR" "ERROR" "Failed to fetch FASTA for BAD1" "NA" "NA" in
  let row :=
    mk_result 1 "job1" (Some "BAD1") (Some "ERROR") (Some "ERROR")
      (Some "Failed to fetch FASTA for BAD1") (Some "NA") (Some "NA") in
  Services.fetch_fasta P "BAD1" (time_sleep P 3 Sim.start) = Some (Raise e, Sim.mk_world 3 0) /\
  App.process_accession P 10 "job1" "BAD1" "9606" 900 Sim.start = Some (f, Sim.mk_world 3 0) /\
  (exists w1 st1,
     App.step P 10 "job1" ["BAD1"; "P01308"] "9606" 900
       (App.mk_runner (App.InLoop 0 ["BAD1"; "P01308"]) Sim.start (Sim.created "job1"))
     = Some (App.mk_runner (App.InLoop 1 ["P01308"]) w1 st1) /\
     select_results "job1" st1 = [row]) /\
  exists s2,
    App.for_accessions P 901 "job1" "9606" 900 2 0 ["BAD1"; "P01308"]
      (Sim.start, Sim.created "job1") = Some s2 /\
    (fun r => (accession r, top_hit r)) <$> select_results "job1" (snd s2) =
    [(Some "BAD1", Some "ERROR"); (Some "P01308", Some "NP_571131")].
Proof.
  intros P e f row.
  assert (F : Services.fetch_fasta P "BAD1" (time_sleep P 3 Sim.start)
              = Some (Raise e, Sim.mk_world 3 0)) by (vm_compute; reflexivity).
  split; [exact F |].
  destruct (failed_accession_is_one_ERROR_row P 10 "job1" "9606" 900 ["BAD1"; "P01308"] []
              "BAD1" ["P01308"] Sim.start (Sim.mk_world 3 0) (Sim.created "job1") e
              eq_refl (or_introl F))
    as [H1 [H2 [H3 H4]]].
  split; [exact H1 |]. split.
  - eexists. eexists. split; [exact H2 |].
    change (fst (db_transaction P (Sim.mk_world 3 0))) with (@Return unit tt) in H3.
    cbv iota in H3. destruct H3 as [_ H3]. exact H3.
  - destruct (H4 (sim_clock_laws Sim.ready) ltac:(lia)) as [s2 Hs2].
    assert (N : (Z.to_nat 900 < 901)%nat) by (apply Nat.ltb_lt; vm_compute; reflexivity).
    destruct (Hs2 901%nat N) as [A _].
    exists s2. split; [exact A |].
    vm_compute in A. injection A as <-. vm_compute. reflexivity.
Defined.

End LifeScenarios.
